(** * libsdi12: a shallow embedding of the SDI-12 protocol engine

    The development follows the C sources:
    - [sdi12.h]         constants, enumerations, [sdi12_valid_address];
    - [sdi12_crc.c]     CRC-16-IBM codec ([sdi12_crc16], [sdi12_crc_append], ...);
    - [sdi12_sensor.c]  the sensor command parser and state machine;
    - [sdi12_master.c]  the data-recorder side (transactions and parsers).

    Conventions.  A C [char]/[uint8_t] is a [Z] (its unsigned value); a
    [char] array is a [list Z] of the array's size and is read through
    [load] and written through [store] (a read past the modelled array
    yields NUL, a write past it is dropped: the C behaviour there is
    undefined); [size_t] lengths and indices that cannot wrap are [nat];
    integers whose wrap-around matters carry the reduction written out.
    Pointer arguments are never NULL, so the NULL checks that open the
    public functions are left out; an optional callback is an [option].
    Callbacks are functions over an abstract host state ([Host], what
    [user_data] points to); every call of an output callback is also
    recorded in a trace so that the bytes put on the bus can be stated.
    The C [float] and the libc conversions applied to it ([snprintf],
    [strtod]) are an interface, [CFloat]. *)

From Stdlib Require Import String Ascii ZArith List Bool Lia.
Import ListNotations.
Local Open Scope Z_scope.

#[local] Arguments Z.lor : simpl never.
#[local] Arguments Z.land : simpl never.
#[local] Arguments Z.lxor : simpl never.
#[local] Arguments Z.shiftr : simpl never.
#[local] Arguments Z.modulo : simpl never.
#[local] Arguments Z.mul : simpl never.

(* ====================================================================== *)
(** * Bytes and buffers *)
(* ====================================================================== *)

(** The value of a character constant, as in C's ['0']. *)
Definition ch (a : ascii) : Z := Z.of_N (N_of_ascii a).

(** The bytes of a string literal (without the terminating NUL). *)
Definition bytes_of_string (s : string) : list Z :=
  map ch (list_ascii_of_string s).

Definition CR : Z := 13.
Definition LF : Z := 10.

(** [buf[i]]; a read past the modelled array yields 0. *)
Definition load (buf : list Z) (i : nat) : Z := nth i buf 0.

(** [buf[i] = v]; a write past the modelled array is dropped. *)
Fixpoint store {A : Type} (buf : list A) (i : nat) (v : A) : list A :=
  match buf, i with
  | [], _ => []
  | _ :: r, O => v :: r
  | b :: r, S j => b :: store r j v
  end.

(** Writing the bytes [src] at [buf + pos]. *)
Fixpoint blit (buf : list Z) (pos : nat) (src : list Z) : list Z :=
  match src with
  | [] => buf
  | b :: r => blit (store buf pos b) (S pos) r
  end.

(** [memcpy(buf + pos, src, n)]. *)
Definition memcpy (buf : list Z) (pos : nat) (src : list Z) (n : nat) : list Z :=
  blit buf pos (map (load src) (seq 0 n)).

(** [strlen(buf)]: index of the first NUL (the array's size if there is none). *)
Fixpoint strlen (buf : list Z) : nat :=
  match buf with
  | [] => O
  | b :: r => if b =? 0 then O else S (strlen r)
  end.

(** The C string held in [buf]. *)
Definition cstring (buf : list Z) : list Z := firstn (strlen buf) buf.

(** An array of [n] bytes initialised from [l] (cut or zero-filled). *)
Definition fit (n : nat) (l : list Z) : list Z :=
  firstn n l ++ repeat 0 (n - length l).

(** [snprintf(buf, size, ...)] where the format expands to [s]: at most
    [size - 1] bytes of [s] and the terminating NUL. *)
Definition snprintf (buf : list Z) (s : list Z) : list Z :=
  blit buf 0 (firstn (length buf - 1) s ++ [0]).

(* ====================================================================== *)
(** * sdi12.h: enumerations, constants, address validation *)
(* ====================================================================== *)

Inductive sdi12_meas_type_t : Type :=
| SDI12_MEAS_STANDARD
| SDI12_MEAS_CONCURRENT
| SDI12_MEAS_HIGHVOL_ASCII
| SDI12_MEAS_HIGHVOL_BINARY
| SDI12_MEAS_VERIFICATION
| SDI12_MEAS_CONTINUOUS.

Inductive sdi12_state_t : Type :=
| SDI12_STATE_STANDBY
| SDI12_STATE_READY
| SDI12_STATE_MEASURING
| SDI12_STATE_MEASURING_C
| SDI12_STATE_DATA_READY.

Inductive sdi12_err_t : Type :=
| SDI12_OK
| SDI12_ERR_INVALID_ADDRESS
| SDI12_ERR_INVALID_COMMAND
| SDI12_ERR_BUFFER_OVERFLOW
| SDI12_ERR_NOT_ADDRESSED
| SDI12_ERR_NO_DATA
| SDI12_ERR_PARAM_LIMIT
| SDI12_ERR_CALLBACK_MISSING
| SDI12_ERR_TIMEOUT
| SDI12_ERR_CRC_MISMATCH
| SDI12_ERR_PARSE_FAILED
| SDI12_ERR_ABORTED.

Definition SDI12_M_VALUES_MAX_CHARS : nat := 35.
Definition SDI12_C_VALUES_MAX_CHARS : nat := 75.
Definition SDI12_VALUE_MAX_CHARS : nat := 9.
Definition SDI12_MAX_RESPONSE_LEN : nat := 82.
Definition SDI12_MAX_COMMAND_LEN : nat := 20.
Definition SDI12_CMD_MAX_CHARS : nat := SDI12_MAX_COMMAND_LEN.
Definition SDI12_RESP_MAX_CHARS : nat := SDI12_MAX_RESPONSE_LEN.
Definition SDI12_MAX_MEAS_GROUPS : nat := 10.
Definition SDI12_MAX_PARAMS : nat := 20.
Definition SDI12_MAX_XCMDS : nat := 8.
Definition SDI12_RESPONSE_TIMEOUT_MS : Z := 15.
Definition SDI12_PROTOCOL_VERSION : list Z := bytes_of_string "14".

Definition in_range (lo c hi : Z) : bool := (lo <=? c) && (c <=? hi).

Definition is_digit (c : Z) : bool := in_range (ch "0") c (ch "9").

Definition sdi12_valid_address (c : Z) : bool :=
  in_range (ch "0") c (ch "9") ||
  in_range (ch "A") c (ch "Z") ||
  in_range (ch "a") c (ch "z").

(* ====================================================================== *)
(** * sdi12_crc.c *)
(* ====================================================================== *)

(** One turn of the inner loop: [if (crc & 1) crc = (crc >> 1) ^ 0xA001;
    else crc >>= 1]. *)
Definition crc_shift (crc : Z) : Z :=
  if negb (Z.land crc 1 =? 0)
  then Z.lxor (Z.shiftr crc 1) 0xA001
  else Z.shiftr crc 1.

(** The body of the outer loop for one data byte. *)
Definition crc_update (crc : Z) (b : Z) : Z :=
  Nat.iter 8 crc_shift (Z.lxor crc b).

(** [sdi12_crc16(data, len)]. *)
Definition sdi12_crc16 (data : list Z) (len : nat) : Z :=
  fold_left crc_update (firstn len data) 0.

(** [sdi12_crc_encode_ascii(crc, out)]: the four bytes written to [out]. *)
Definition sdi12_crc_encode_ascii (crc : Z) : list Z :=
  [ Z.lor 0x40 (Z.shiftr crc 12);
    Z.lor 0x40 (Z.land (Z.shiftr crc 6) 0x3F);
    Z.lor 0x40 (Z.land crc 0x3F);
    0 ].

(** [sdi12_crc_append(buf, buflen)]: the result and the buffer afterwards. *)
Definition sdi12_crc_append (buf : list Z) (buflen : nat)
  : sdi12_err_t * list Z :=
  let slen := strlen buf in
  let data_end :=
    if (2 <=? slen)%nat && (load buf (slen - 2) =? CR)
                        && (load buf (slen - 1) =? LF)
    then (slen - 2)%nat else slen in
  if (buflen <? data_end + 3 + 2 + 1)%nat then (SDI12_ERR_BUFFER_OVERFLOW, buf)
  else
    let crc := sdi12_crc16 buf data_end in
    let encoded := sdi12_crc_encode_ascii crc in
    let buf := store buf data_end (load encoded 0) in
    let buf := store buf (data_end + 1) (load encoded 1) in
    let buf := store buf (data_end + 2) (load encoded 2) in
    let buf := store buf (data_end + 3) CR in
    let buf := store buf (data_end + 4) LF in
    let buf := store buf (data_end + 5) 0 in
    (SDI12_OK, buf).

(** [sdi12_crc_verify(buf, len)]. *)
Definition sdi12_crc_verify (buf : list Z) (len : nat) : bool :=
  if (len <? 6)%nat then false
  else
    let end_ := len in
    let end_ := if load buf (end_ - 1) =? LF then (end_ - 1)%nat else end_ in
    let end_ := if (0 <? end_)%nat && (load buf (end_ - 1) =? CR)
                then (end_ - 1)%nat else end_ in
    if (end_ <? 3)%nat then false
    else
      let data_end := (end_ - 3)%nat in
      let computed := sdi12_crc16 buf data_end in
      let expected := sdi12_crc_encode_ascii computed in
      (load buf data_end =? load expected 0) &&
      (load buf (data_end + 1) =? load expected 1) &&
      (load buf (data_end + 2) =? load expected 2).

(* ====================================================================== *)
(** * sdi12.h, sdi12_sensor.h: data structures *)
(* ====================================================================== *)

(** The C [float] together with the libc conversions the library applies
    to it.  [fmt_lu v] is the expansion of ["%lu"] on [(unsigned long)v],
    [fmt_f d v] that of ["%.*f"] with precision [d] on [(double)v], and
    [strtod s] is [(float)strtod(s, NULL)]. *)
Class CFloat (F : Type) : Type := {
  f_zero : F;
  f_nonneg : F -> bool;
  f_neg : F -> F;
  fmt_lu : F -> list Z;
  fmt_f : Z -> F -> list Z;
  strtod : list Z -> F
}.

(** Decimal digits of an unsigned integer: the expansion of ["%u"]. *)
Fixpoint fmt_u_aux (fuel : nat) (n : Z) (acc : list Z) : list Z :=
  match fuel with
  | O => acc
  | S f =>
      let acc' := (ch "0" + n mod 10) :: acc in
      if n / 10 =? 0 then acc' else fmt_u_aux f (n / 10) acc'
  end.

Definition fmt_u (n : Z) : list Z := fmt_u_aux 20 n [].

(** The expansion of ["%0<w>u"]. *)
Definition fmt_0u (w : nat) (n : Z) : list Z :=
  let d := fmt_u n in repeat (ch "0") (w - length d) ++ d.

(** The expansion of ["%-<w>.<w>s"] on the C string held in [s]. *)
Definition fmt_pad_s (w : nat) (s : list Z) : list Z :=
  let t := firstn w (cstring s) in t ++ repeat (ch " ") (w - length t).

(** [strncpy(dst, src, n)] into a zeroed [char dst[size]]. *)
Definition strncpy_zeroed (size n : nat) (src : list Z) : list Z :=
  fit size (firstn n (cstring src)).

Set Implicit Arguments.

Section SensorTypes.

Variables (F Host : Type).

Record sdi12_ident_t : Type := {
  vendor : list Z;
  model : list Z;
  firmware_version : list Z;
  serial : list Z
}.

Record sdi12_param_meta_t : Type := {
  shef : list Z;
  units : list Z
}.

Record sdi12_value_t : Type := {
  value : F;
  decimals : Z
}.

(** An extended-command handler: it reads the command text and the
    response buffer (address already placed) and leaves a result, the
    response buffer and the host state. *)
Definition sdi12_xcmd_handler_fn : Type :=
  list Z -> list Z -> Host -> sdi12_err_t * list Z * Host.

(** [format_binary_page(page, values, count, buf, buflen, user_data)]:
    the number of bytes written from [buf[1]] on, the buffer, the host. *)
Definition sdi12_format_binary_fn : Type :=
  Z -> list sdi12_value_t -> nat -> list Z -> Host -> nat * list Z * Host.

(** The callback table; [None] is a NULL function pointer. *)
Record sdi12_sensor_callbacks_t : Type := {
  cb_send_response : option (list Z -> Host -> Host);
  cb_set_direction : option (bool -> Host -> Host);
  cb_read_param : option (nat -> Host -> sdi12_value_t * Host);
  cb_save_address : option (Z -> Host -> Host);
  cb_load_address : option (Host -> Z * Host);
  cb_start_measurement : option (nat -> sdi12_meas_type_t -> Host -> Z * Host);
  cb_service_request : option (Host -> Host);
  cb_on_reset : option (Host -> Host);
  cb_format_binary_page : option sdi12_format_binary_fn
}.

Record sdi12_param_reg_t : Type := {
  meta : sdi12_param_meta_t;
  group : nat;
  reg_decimals : Z;
  active : bool
}.

Record sdi12_xcmd_reg_t : Type := {
  prefix : list Z;
  handler : option sdi12_xcmd_handler_fn;
  xactive : bool
}.

Record sdi12_sensor_ctx_t : Type := {
  address : Z;
  ident : sdi12_ident_t;
  cb : sdi12_sensor_callbacks_t;
  params : list sdi12_param_reg_t;
  param_count : nat;
  xcmds : list sdi12_xcmd_reg_t;
  xcmd_count : nat;
  state : sdi12_state_t;
  pending_meas_type : sdi12_meas_type_t;
  pending_meas_group : nat;
  crc_requested : bool;
  data_cache : list sdi12_value_t;
  data_cache_count : nat;
  data_available : bool;
  resp_buf : list Z;
  resp_len : nat
}.

Definition set_address (v : Z) (c : sdi12_sensor_ctx_t) : sdi12_sensor_ctx_t :=
  {| address := v;
     ident := ident c;
     cb := cb c;
     params := params c;
     param_count := param_count c;
     xcmds := xcmds c;
     xcmd_count := xcmd_count c;
     state := state c;
     pending_meas_type := pending_meas_type c;
     pending_meas_group := pending_meas_group c;
     crc_requested := crc_requested c;
     data_cache := data_cache c;
     data_cache_count := data_cache_count c;
     data_available := data_available c;
     resp_buf := resp_buf c;
     resp_len := resp_len c |}.

Definition set_params (v : list sdi12_param_reg_t) (c : sdi12_sensor_ctx_t) : sdi12_sensor_ctx_t :=
  {| address := address c;
     ident := ident c;
     cb := cb c;
     params := v;
     param_count := param_count c;
     xcmds := xcmds c;
     xcmd_count := xcmd_count c;
     state := state c;
     pending_meas_type := pending_meas_type c;
     pending_meas_group := pending_meas_group c;
     crc_requested := crc_requested c;
     data_cache := data_cache c;
     data_cache_count := data_cache_count c;
     data_available := data_available c;
     resp_buf := resp_buf c;
     resp_len := resp_len c |}.

Definition set_param_count (v : nat) (c : sdi12_sensor_ctx_t) : sdi12_sensor_ctx_t :=
  {| address := address c;
     ident := ident c;
     cb := cb c;
     params := params c;
     param_count := v;
     xcmds := xcmds c;
     xcmd_count := xcmd_count c;
     state := state c;
     pending_meas_type := pending_meas_type c;
     pending_meas_group := pending_meas_group c;
     crc_requested := crc_requested c;
     data_cache := data_cache c;
     data_cache_count := data_cache_count c;
     data_available := data_available c;
     resp_buf := resp_buf c;
     resp_len := resp_len c |}.

Definition set_xcmds (v : list sdi12_xcmd_reg_t) (c : sdi12_sensor_ctx_t) : sdi12_sensor_ctx_t :=
  {| address := address c;
     ident := ident c;
     cb := cb c;
     params := params c;
     param_count := param_count c;
     xcmds := v;
     xcmd_count := xcmd_count c;
     state := state c;
     pending_meas_type := pending_meas_type c;
     pending_meas_group := pending_meas_group c;
     crc_requested := crc_requested c;
     data_cache := data_cache c;
     data_cache_count := data_cache_count c;
     data_available := data_available c;
     resp_buf := resp_buf c;
     resp_len := resp_len c |}.

Definition set_xcmd_count (v : nat) (c : sdi12_sensor_ctx_t) : sdi12_sensor_ctx_t :=
  {| address := address c;
     ident := ident c;
     cb := cb c;
     params := params c;
     param_count := param_count c;
     xcmds := xcmds c;
     xcmd_count := v;
     state := state c;
     pending_meas_type := pending_meas_type c;
     pending_meas_group := pending_meas_group c;
     crc_requested := crc_requested c;
     data_cache := data_cache c;
     data_cache_count := data_cache_count c;
     data_available := data_available c;
     resp_buf := resp_buf c;
     resp_len := resp_len c |}.

Definition set_state (v : sdi12_state_t) (c : sdi12_sensor_ctx_t) : sdi12_sensor_ctx_t :=
  {| address := address c;
     ident := ident c;
     cb := cb c;
     params := params c;
     param_count := param_count c;
     xcmds := xcmds c;
     xcmd_count := xcmd_count c;
     state := v;
     pending_meas_type := pending_meas_type c;
     pending_meas_group := pending_meas_group c;
     crc_requested := crc_requested c;
     data_cache := data_cache c;
     data_cache_count := data_cache_count c;
     data_available := data_available c;
     resp_buf := resp_buf c;
     resp_len := resp_len c |}.

Definition set_pending_meas_type (v : sdi12_meas_type_t) (c : sdi12_sensor_ctx_t) : sdi12_sensor_ctx_t :=
  {| address := address c;
     ident := ident c;
     cb := cb c;
     params := params c;
     param_count := param_count c;
     xcmds := xcmds c;
     xcmd_count := xcmd_count c;
     state := state c;
     pending_meas_type := v;
     pending_meas_group := pending_meas_group c;
     crc_requested := crc_requested c;
     data_cache := data_cache c;
     data_cache_count := data_cache_count c;
     data_available := data_available c;
     resp_buf := resp_buf c;
     resp_len := resp_len c |}.

Definition set_pending_meas_group (v : nat) (c : sdi12_sensor_ctx_t) : sdi12_sensor_ctx_t :=
  {| address := address c;
     ident := ident c;
     cb := cb c;
     params := params c;
     param_count := param_count c;
     xcmds := xcmds c;
     xcmd_count := xcmd_count c;
     state := state c;
     pending_meas_type := pending_meas_type c;
     pending_meas_group := v;
     crc_requested := crc_requested c;
     data_cache := data_cache c;
     data_cache_count := data_cache_count c;
     data_available := data_available c;
     resp_buf := resp_buf c;
     resp_len := resp_len c |}.

Definition set_crc_requested (v : bool) (c : sdi12_sensor_ctx_t) : sdi12_sensor_ctx_t :=
  {| address := address c;
     ident := ident c;
     cb := cb c;
     params := params c;
     param_count := param_count c;
     xcmds := xcmds c;
     xcmd_count := xcmd_count c;
     state := state c;
     pending_meas_type := pending_meas_type c;
     pending_meas_group := pending_meas_group c;
     crc_requested := v;
     data_cache := data_cache c;
     data_cache_count := data_cache_count c;
     data_available := data_available c;
     resp_buf := resp_buf c;
     resp_len := resp_len c |}.

Definition set_data_cache (v : list sdi12_value_t) (c : sdi12_sensor_ctx_t) : sdi12_sensor_ctx_t :=
  {| address := address c;
     ident := ident c;
     cb := cb c;
     params := params c;
     param_count := param_count c;
     xcmds := xcmds c;
     xcmd_count := xcmd_count c;
     state := state c;
     pending_meas_type := pending_meas_type c;
     pending_meas_group := pending_meas_group c;
     crc_requested := crc_requested c;
     data_cache := v;
     data_cache_count := data_cache_count c;
     data_available := data_available c;
     resp_buf := resp_buf c;
     resp_len := resp_len c |}.

Definition set_data_cache_count (v : nat) (c : sdi12_sensor_ctx_t) : sdi12_sensor_ctx_t :=
  {| address := address c;
     ident := ident c;
     cb := cb c;
     params := params c;
     param_count := param_count c;
     xcmds := xcmds c;
     xcmd_count := xcmd_count c;
     state := state c;
     pending_meas_type := pending_meas_type c;
     pending_meas_group := pending_meas_group c;
     crc_requested := crc_requested c;
     data_cache := data_cache c;
     data_cache_count := v;
     data_available := data_available c;
     resp_buf := resp_buf c;
     resp_len := resp_len c |}.

Definition set_data_available (v : bool) (c : sdi12_sensor_ctx_t) : sdi12_sensor_ctx_t :=
  {| address := address c;
     ident := ident c;
     cb := cb c;
     params := params c;
     param_count := param_count c;
     xcmds := xcmds c;
     xcmd_count := xcmd_count c;
     state := state c;
     pending_meas_type := pending_meas_type c;
     pending_meas_group := pending_meas_group c;
     crc_requested := crc_requested c;
     data_cache := data_cache c;
     data_cache_count := data_cache_count c;
     data_available := v;
     resp_buf := resp_buf c;
     resp_len := resp_len c |}.

Definition set_resp_buf (v : list Z) (c : sdi12_sensor_ctx_t) : sdi12_sensor_ctx_t :=
  {| address := address c;
     ident := ident c;
     cb := cb c;
     params := params c;
     param_count := param_count c;
     xcmds := xcmds c;
     xcmd_count := xcmd_count c;
     state := state c;
     pending_meas_type := pending_meas_type c;
     pending_meas_group := pending_meas_group c;
     crc_requested := crc_requested c;
     data_cache := data_cache c;
     data_cache_count := data_cache_count c;
     data_available := data_available c;
     resp_buf := v;
     resp_len := resp_len c |}.

Definition set_resp_len (v : nat) (c : sdi12_sensor_ctx_t) : sdi12_sensor_ctx_t :=
  {| address := address c;
     ident := ident c;
     cb := cb c;
     params := params c;
     param_count := param_count c;
     xcmds := xcmds c;
     xcmd_count := xcmd_count c;
     state := state c;
     pending_meas_type := pending_meas_type c;
     pending_meas_group := pending_meas_group c;
     crc_requested := crc_requested c;
     data_cache := data_cache c;
     data_cache_count := data_cache_count c;
     data_available := data_available c;
     resp_buf := resp_buf c;
     resp_len := v |}.

(** Calls of the output callbacks, in order. *)
Inductive event : Type :=
| EvSend (data : list Z)
| EvServiceRequest
| EvSaveAddress (a : Z).

(** A sensor context, the host state its callbacks act on, and the trace. *)
Record world : Type := {
  w_ctx : sdi12_sensor_ctx_t;
  w_host : Host;
  w_trace : list event
}.

Definition with_ctx (f : sdi12_sensor_ctx_t -> sdi12_sensor_ctx_t) (w : world) : world :=
  {| w_ctx := f (w_ctx w); w_host := w_host w; w_trace := w_trace w |}.

Definition with_host (h : Host) (w : world) : world :=
  {| w_ctx := w_ctx w; w_host := h; w_trace := w_trace w |}.

Definition emit (e : event) (w : world) : world :=
  {| w_ctx := w_ctx w; w_host := w_host w; w_trace := w_trace w ++ [e] |}.

(** The bytes handed to [send_response], call by call. *)
Definition sent (w : world) : list (list Z) :=
  flat_map (fun e => match e with EvSend d => [d] | _ => [] end) (w_trace w).

End SensorTypes.


(* ====================================================================== *)
(** * sdi12_sensor.c: internal helpers *)
(* ====================================================================== *)

Section Sensor.

Context {F Host : Type} {CF : CFloat F}.

#[local] Abbreviation ctx_t := (sdi12_sensor_ctx_t F Host).
#[local] Abbreviation world_t := (world F Host).
#[local] Abbreviation value_t := (sdi12_value_t F).

(** What [memset(.., 0, ..)] leaves in a table slot. *)
Definition zero_value : value_t := {| value := f_zero; decimals := 0 |}.

Definition zero_param : sdi12_param_reg_t :=
  {| meta := {| shef := repeat 0 4; units := repeat 0 21 |};
     group := 0; reg_decimals := 0; active := false |}.

Definition zero_xcmd : sdi12_xcmd_reg_t Host :=
  {| prefix := repeat 0 16; handler := None; xactive := false |}.

(** [ctx->params[i].active && ctx->params[i].group == group]. *)
Definition in_group (ctx : ctx_t) (grp i : nat) : bool :=
  let p := nth i (params ctx) zero_param in
  active p && (group p =? grp)%nat.

Definition count_group (ctx : ctx_t) (grp : nat) : nat :=
  fold_left (fun n i => if in_group ctx grp i then S n else n)
            (seq 0 (param_count ctx)) O.

(** The indices written to [indices[]]; the result [n] is their number. *)
Definition collect_group_indices (ctx : ctx_t) (grp max : nat) : list nat :=
  fold_left (fun acc i =>
               if (length acc <? max)%nat && in_group ctx grp i
               then acc ++ [i] else acc)
            (seq 0 (param_count ctx)) [].

(** The text [snprintf] would produce for [val]; its length is the
    function's return value. *)
Definition format_value (val : value_t) : list Z :=
  let sign := if f_nonneg (value val) then ch "+" else ch "-" in
  let absval := if f_nonneg (value val) then value val else f_neg (value val) in
  if decimals val =? 0
  then sign :: fmt_lu absval
  else sign :: fmt_f (decimals val) absval.

(** The loop variables of [format_data_page]. *)
Record page_cursor : Type := {
  pc_buf : list Z;
  pc_pos : nat;
  pc_page : nat;
  pc_any : bool
}.

(** The [while (i < ctx->data_cache_count)] loop over the cached values
    still to be visited; leaving the recursion is [break] or the end. *)
Fixpoint format_data_loop (vals : list value_t) (page max_value_chars buflen : nat)
                          (st : page_cursor) : page_cursor :=
  match vals with
  | [] => st
  | v :: rest =>
      let text := format_value v in
      let vbuf := snprintf (repeat 0 (SDI12_VALUE_MAX_CHARS + 1)) text in
      let vlen := length text in
      if (vlen <=? 0)%nat then
        format_data_loop rest page max_value_chars buflen st
      else
        let page_used := (pc_pos st - 1)%nat in
        let st :=
          if (max_value_chars <? page_used + vlen)%nat && (0 <? page_used)%nat
          then {| pc_buf := pc_buf st; pc_pos := 1;
                  pc_page := (pc_page st + 1) mod 256; pc_any := pc_any st |}
          else st in
        if (pc_page st =? page)%nat then
          if (buflen - 6 <=? pc_pos st + vlen)%nat then st
          else
            format_data_loop rest page max_value_chars buflen
              {| pc_buf := memcpy (pc_buf st) (pc_pos st) vbuf vlen;
                 pc_pos := pc_pos st + vlen;
                 pc_page := pc_page st; pc_any := true |}
        else if (page <? pc_page st)%nat then st
        else format_data_loop rest page max_value_chars buflen st
  end.

Definition format_data_page (ctx : ctx_t) (page max_value_chars : nat)
  : sdi12_err_t * ctx_t :=
  let buf := resp_buf ctx in
  let buflen := SDI12_MAX_RESPONSE_LEN in
  let buf := store buf 0 (address ctx) in
  let st := format_data_loop (firstn (data_cache_count ctx) (data_cache ctx))
              page max_value_chars buflen
              {| pc_buf := buf; pc_pos := 1; pc_page := 0; pc_any := false |} in
  let buf := pc_buf st in
  let pos := if negb (pc_any st) && (0 <? page)%nat then 1%nat else pc_pos st in
  let buf := store buf pos 0 in
  let buf :=
    if crc_requested ctx then snd (sdi12_crc_append buf buflen)
    else if (pos + 2 <? buflen)%nat
         then store (store (store buf pos CR) (pos + 1) LF) (pos + 2) 0
         else buf in
  (SDI12_OK, set_resp_buf buf ctx).

(** [send_response(ctx)]: the callback, when present, gets
    [ctx->resp_len] bytes of the response buffer, or [strlen] of them. *)
Definition send_response (w : world_t) : world_t :=
  match cb_send_response (cb (w_ctx w)) with
  | Some f =>
      let len := if (resp_len (w_ctx w) =? 0)%nat
                 then strlen (resp_buf (w_ctx w)) else resp_len (w_ctx w) in
      let data := firstn len (resp_buf (w_ctx w)) in
      emit (EvSend data) (with_host (f data (w_host w)) w)
  | None => w
  end.

(** One turn of the loop of [read_group_sync] for [indices[i]]. *)
Definition read_one (w : world_t) (idx : nat) : world_t :=
  if (data_cache_count (w_ctx w) <? SDI12_MAX_PARAMS)%nat then
    match cb_read_param (cb (w_ctx w)) with
    | Some rd =>
        let vh := rd idx (w_host w) in
        let w := with_ctx (fun c => set_data_cache
                             (store (data_cache c) (data_cache_count c) (fst vh)) c) w in
        let w := with_ctx (fun c => set_data_cache_count (S (data_cache_count c)) c) w in
        with_host (snd vh) w
    | None => w
    end
  else w.

Definition read_group_sync (w : world_t) (grp : nat) : world_t :=
  let indices := collect_group_indices (w_ctx w) grp SDI12_MAX_PARAMS in
  let w := with_ctx (set_data_cache_count 0) w in
  let w := fold_left read_one indices w in
  with_ctx (set_data_available true) w.

(** [snprintf(ctx->resp_buf, sizeof(ctx->resp_buf), ...)] expanding to [s]. *)
Definition resp_printf (s : list Z) (w : world_t) : world_t :=
  with_ctx (fun c => set_resp_buf (snprintf (resp_buf c) s) c) w.

(* ---------------------------------------------------------------------- *)
(** ** Command handlers *)
(* ---------------------------------------------------------------------- *)

Definition CRLF : list Z := [CR; LF].

(** Handle a! / ?!. *)
Definition handle_acknowledge (w : world_t) : sdi12_err_t * world_t :=
  let w := resp_printf (address (w_ctx w) :: CRLF) w in
  (SDI12_OK, send_response w).

(** Handle aI!. *)
Definition handle_identify (w : world_t) : sdi12_err_t * world_t :=
  let c := w_ctx w in
  let w := resp_printf
             (address c :: SDI12_PROTOCOL_VERSION
                ++ fmt_pad_s 8 (vendor (ident c))
                ++ fmt_pad_s 6 (model (ident c))
                ++ fmt_pad_s 3 (firmware_version (ident c))
                ++ cstring (serial (ident c)) ++ CRLF) w in
  (SDI12_OK, send_response w).

Definition is_std_or_verif (type : sdi12_meas_type_t) : bool :=
  match type with
  | SDI12_MEAS_STANDARD | SDI12_MEAS_VERIFICATION => true
  | _ => false
  end.

(** Handle aM!, aMC!, aM1!..aM9!, aMC1!..aMC9!, aV! (and aC.., aHA.., aHB..). *)
Definition handle_measurement (w : world_t) (grp : nat) (with_crc : bool)
                              (type : sdi12_meas_type_t)
  : sdi12_err_t * world_t :=
  let w := with_ctx (set_crc_requested with_crc) w in
  let w := with_ctx (set_pending_meas_type type) w in
  let w := with_ctx (set_pending_meas_group grp) w in
  let n := count_group (w_ctx w) grp in
  let a := address (w_ctx w) in
  let nz := Z.of_nat n in
  if (n =? 0)%nat then
    let w :=
      if is_std_or_verif type
      then resp_printf (a :: bytes_of_string "0000" ++ CRLF) w
      else resp_printf (a :: bytes_of_string "00000" ++ CRLF) w in
    (SDI12_OK, send_response w)
  else
    match cb_start_measurement (cb (w_ctx w)) with
    | Some start =>
        let th := start grp type (w_host w) in
        let w := with_host (snd th) w in
        let ttt := fst th mod 65536 in
        let ttt := if 999 <? ttt then 999 else ttt in
        let w :=
          match type with
          | SDI12_MEAS_STANDARD | SDI12_MEAS_VERIFICATION =>
              let w := resp_printf
                         (a :: fmt_0u 3 ttt
                            ++ fmt_u (if 9 <? nz then 9 else nz) ++ CRLF) w in
              with_ctx (set_state (if 0 <? ttt then SDI12_STATE_MEASURING
                                   else SDI12_STATE_DATA_READY)) w
          | SDI12_MEAS_CONCURRENT =>
              let nn := if 99 <? nz then 99 else nz in
              let w := resp_printf (a :: fmt_0u 3 ttt ++ fmt_0u 2 nn ++ CRLF) w in
              with_ctx (set_state (if 0 <? ttt then SDI12_STATE_MEASURING_C
                                   else SDI12_STATE_DATA_READY)) w
          | SDI12_MEAS_HIGHVOL_ASCII | SDI12_MEAS_HIGHVOL_BINARY =>
              let w := resp_printf (a :: fmt_0u 3 ttt ++ fmt_0u 3 nz ++ CRLF) w in
              with_ctx (set_state (if 0 <? ttt then SDI12_STATE_MEASURING_C
                                   else SDI12_STATE_DATA_READY)) w
          | SDI12_MEAS_CONTINUOUS => w
          end in
        let w :=
          if ttt =? 0 then read_group_sync w grp
          else with_ctx (set_data_available false) w in
        (SDI12_OK, send_response w)
    | None =>
        let w := read_group_sync w grp in
        let w :=
          match type with
          | SDI12_MEAS_STANDARD | SDI12_MEAS_VERIFICATION =>
              resp_printf (a :: bytes_of_string "000"
                             ++ fmt_u (if 9 <? nz then 9 else nz) ++ CRLF) w
          | SDI12_MEAS_CONCURRENT =>
              resp_printf (a :: bytes_of_string "000"
                             ++ fmt_0u 2 (if 99 <? nz then 99 else nz) ++ CRLF) w
          | _ =>
              resp_printf (a :: bytes_of_string "000" ++ fmt_0u 3 nz ++ CRLF) w
          end in
        let w := with_ctx (set_state SDI12_STATE_DATA_READY) w in
        (SDI12_OK, send_response w)
    end.

(** The empty binary packet: addr + 0x0000 + 0x00 + CRC(2) = 6 bytes
    (written out twice in [handle_send_binary_data]). *)
Definition send_empty_packet (w : world_t) : sdi12_err_t * world_t :=
  let c := w_ctx w in
  let pkt := resp_buf c in
  let pkt := store pkt 0 (address c) in
  let pkt := store pkt 1 0 in
  let pkt := store pkt 2 0 in
  let pkt := store pkt 3 0 in
  let crc := sdi12_crc16 pkt 4 in
  let pkt := store pkt 4 (Z.land crc 0xFF) in
  let pkt := store pkt 5 (Z.land (Z.shiftr crc 8) 0xFF) in
  let w := with_ctx (set_resp_buf pkt) w in
  let w := with_ctx (set_resp_len 6) w in
  (SDI12_OK, send_response w).

(** Handle aDB0!..aDB999!. *)
Definition handle_send_binary_data (w : world_t) (page : Z)
  : sdi12_err_t * world_t :=
  let c := w_ctx w in
  match cb_format_binary_page (cb c) with
  | None => send_empty_packet w
  | Some fmt =>
    if negb (data_available c) then send_empty_packet w
    else
      let tmpbuf := store (repeat 0 SDI12_MAX_RESPONSE_LEN) 0 (address c) in
      let r := fmt page (data_cache c) (data_cache_count c) tmpbuf (w_host w) in
      let cb_bytes := fst (fst r) in
      let tmpbuf := fit SDI12_MAX_RESPONSE_LEN (snd (fst r)) in
      let w := with_host (snd r) w in
      if (cb_bytes =? 0)%nat then send_empty_packet w
      else
        let data_type := load tmpbuf 1 in
        let payload_size := Z.of_nat (cb_bytes - 1) mod 65536 in
        let pkt := resp_buf c in
        let pkt := store pkt 0 (address c) in
        let pkt := store pkt 1 (Z.land payload_size 0xFF) in
        let pkt := store pkt 2 (Z.land (Z.shiftr payload_size 8) 0xFF) in
        let pkt := store pkt 3 data_type in
        let pkt :=
          if 0 <? payload_size
          then memcpy pkt 4 (skipn 2 tmpbuf) (Z.to_nat payload_size)
          else pkt in
        let data_end := (4 + Z.to_nat payload_size)%nat in
        let crc := sdi12_crc16 pkt data_end in
        let pkt := store pkt data_end (Z.land crc 0xFF) in
        let pkt := store pkt (data_end + 1) (Z.land (Z.shiftr crc 8) 0xFF) in
        let w := with_ctx (set_resp_buf pkt) w in
        let w := with_ctx (set_resp_len (data_end + 2)) w in
        (SDI12_OK, send_response w)
  end.

(** Modelled from the spec: [sdi12_crc_append_n] is declared in [sdi12.h]
    and called by [handle_send_data], but its definition is not among the
    sources.  Per its declaration it is [sdi12_crc_append] with the data
    length given instead of found by [strlen]: the CRC of
    [buf[0..data_len-1]] is placed at [data_len], followed by CR LF. *)
Definition sdi12_crc_append_n (buf : list Z) (data_len buflen : nat)
  : sdi12_err_t * list Z :=
  if (buflen <? data_len + 3 + 2 + 1)%nat then (SDI12_ERR_BUFFER_OVERFLOW, buf)
  else
    let encoded := sdi12_crc_encode_ascii (sdi12_crc16 buf data_len) in
    let buf := store buf data_len (load encoded 0) in
    let buf := store buf (data_len + 1) (load encoded 1) in
    let buf := store buf (data_len + 2) (load encoded 2) in
    let buf := store buf (data_len + 3) CR in
    let buf := store buf (data_len + 4) LF in
    let buf := store buf (data_len + 5) 0 in
    (SDI12_OK, buf).

(** The per-page budget chosen by [handle_send_data]. *)
Definition max_chars_for (type : sdi12_meas_type_t) : nat :=
  match type with
  | SDI12_MEAS_CONCURRENT | SDI12_MEAS_CONTINUOUS | SDI12_MEAS_HIGHVOL_ASCII =>
      SDI12_C_VALUES_MAX_CHARS
  | _ => SDI12_M_VALUES_MAX_CHARS
  end.

(** The "no data" reply shared by several handlers: the address alone,
    with the CRC when [crc] is set. *)
Definition reply_address_only (crc : bool) (w : world_t) : world_t :=
  if crc then
    let w := resp_printf [address (w_ctx w)] w in
    with_ctx (fun c => set_resp_buf
                         (snd (sdi12_crc_append (resp_buf c) SDI12_MAX_RESPONSE_LEN)) c) w
  else resp_printf (address (w_ctx w) :: CRLF) w.

(** Handle aD0!..aD9!. *)
Definition handle_send_data (w : world_t) (page : nat) : sdi12_err_t * world_t :=
  let c := w_ctx w in
  if negb (data_available c) then
    let w := reply_address_only (crc_requested c) w in
    (SDI12_OK, send_response w)
  else
    match pending_meas_type c, cb_format_binary_page (cb c) with
    | SDI12_MEAS_HIGHVOL_BINARY, Some fmt =>
        let buf := store (resp_buf c) 0 (address c) in
        let r := fmt (Z.of_nat page) (data_cache c) (data_cache_count c) buf (w_host w) in
        let payload := fst (fst r) in
        let buf := fit SDI12_MAX_RESPONSE_LEN (snd (fst r)) in
        let w := with_host (snd r) w in
        let pos := (1 + payload)%nat in
        let w :=
          if crc_requested c then
            let buf := snd (sdi12_crc_append_n buf pos SDI12_MAX_RESPONSE_LEN) in
            with_ctx (set_resp_len (pos + 3 + 2)) (with_ctx (set_resp_buf buf) w)
          else
            let buf :=
              if (pos + 2 <? SDI12_MAX_RESPONSE_LEN)%nat
              then store (store (store buf pos CR) (pos + 1) LF) (pos + 2) 0
              else buf in
            with_ctx (set_resp_len (pos + 2)) (with_ctx (set_resp_buf buf) w) in
        (SDI12_OK, send_response w)
    | _, _ =>
        let max_chars := max_chars_for (pending_meas_type c) in
        let w := with_ctx (fun c => snd (format_data_page c page max_chars)) w in
        (SDI12_OK, send_response w)
    end.

(** Handle aR0!..aR9!, aRC0!..aRC9!. *)
Definition handle_continuous (w : world_t) (index : nat) (with_crc : bool)
  : sdi12_err_t * world_t :=
  let w := with_ctx (set_crc_requested with_crc) w in
  let w := with_ctx (set_pending_meas_type SDI12_MEAS_CONTINUOUS) w in
  let n := count_group (w_ctx w) index in
  if (n =? 0)%nat then
    let w := reply_address_only with_crc w in
    (SDI12_OK, send_response w)
  else
    let w := read_group_sync w index in
    let w := with_ctx (fun c => snd (format_data_page c 0 SDI12_C_VALUES_MAX_CHARS)) w in
    (SDI12_OK, send_response w).

(** Handle aAb!. *)
Definition handle_change_address (w : world_t) (new_addr : Z)
  : sdi12_err_t * world_t :=
  if negb (sdi12_valid_address new_addr) then (SDI12_ERR_INVALID_ADDRESS, w)
  else
    let w := with_ctx (set_address new_addr) w in
    let w :=
      match cb_save_address (cb (w_ctx w)) with
      | Some save => emit (EvSaveAddress new_addr)
                          (with_host (save new_addr (w_host w)) w)
      | None => w
      end in
    let w := resp_printf (new_addr :: CRLF) w in
    (SDI12_OK, send_response w).

(** Handle aH!. *)
Definition handle_highvol_stub (w : world_t) : sdi12_err_t * world_t :=
  let w := resp_printf (address (w_ctx w) :: bytes_of_string "000000" ++ CRLF) w in
  (SDI12_OK, send_response w).

(** [memchr(cmd + start, c, n)]: the index in [cmd] of the first match. *)
Definition memchr (cmd : list Z) (start : nat) (c : Z) (n : nat) : option nat :=
  find (fun i => load cmd i =? c) (seq start n).

(** The digit loop [num = num * 10 + (c - '0')] while the next byte [c]
    is a digit, over the bytes from [p] on. *)
Fixpoint parse_decimal (s : list Z) (acc : Z) : Z :=
  match s with
  | [] => acc
  | c :: r => if is_digit c then parse_decimal r (acc * 10 + (c - ch "0")) else acc
  end.

Definition digit_val (c : Z) : nat := Z.to_nat (c - ch "0").

(** [s[slen] = '\r'; s[slen+1] = '\n'; s[slen+2] = '\0'] at [slen = strlen(s)]. *)
Definition append_crlf (buf : list Z) : list Z :=
  let slen := strlen buf in
  store (store (store buf slen CR) (slen + 1) LF) (slen + 2) 0.

(** The group digit of aIM.., aIC..: [cmd[digit_pos]] in '1'..'9', else 0. *)
Definition group_digit_1_9 (cmd : list Z) (digit_pos len : nat) : nat :=
  if (digit_pos <? len)%nat && in_range (ch "1") (load cmd digit_pos) (ch "9")
  then digit_val (load cmd digit_pos) else O.

(** Handle aIM!, aIMC!, aIM_nnn!, aIC!, aIC_nnn!, aIV!, aIHA!, aIHB!, aIR0!.. *)
Definition handle_identify_measurement (w : world_t) (cmd : list Z) (len : nat)
  : sdi12_err_t * world_t :=
  if (len <? 3)%nat then (SDI12_ERR_INVALID_COMMAND, w)
  else
    let c := w_ctx w in
    let a := address c in
    let subcmd := load cmd 2 in
    match memchr cmd 2 (ch "_") (len - 2) with
    | Some underscore =>
        let param_num := parse_decimal (skipn (underscore + 1) cmd) 0 in
        let grp :=
          if (subcmd =? ch "M") || (subcmd =? ch "C") then
            let after_mc := if load cmd 3 =? ch "C" then 4%nat else 3%nat in
            if in_range (ch "1") (load cmd after_mc) (ch "9")
               && (after_mc <? underscore)%nat
            then digit_val (load cmd after_mc) else O
          else if subcmd =? ch "R" then
            if in_range (ch "0") (load cmd 3) (ch "9")
            then digit_val (load cmd 3) else O
          else O in
        let indices := collect_group_indices c grp SDI12_MAX_PARAMS in
        let n := length indices in
        let crc :=
          match memchr cmd 2 (ch "C") (underscore - 2) with
          | Some _ => true | None => false
          end in
        let w :=
          if (1 <=? param_num) && (param_num <=? Z.of_nat n) then
            let idx := nth (Z.to_nat (param_num - 1)) indices O in
            let w := with_ctx (set_crc_requested crc) w in
            let p := nth idx (params c) zero_param in
            let w := resp_printf
                       (a :: ch "," :: cstring (shef (meta p))
                          ++ ch "," :: cstring (units (meta p)) ++ [ch ";"]) w in
            if crc then
              with_ctx (fun c => set_resp_buf
                          (snd (sdi12_crc_append (resp_buf c) SDI12_MAX_RESPONSE_LEN)) c) w
            else
              with_ctx (fun c => set_resp_buf (append_crlf (resp_buf c)) c) w
          else reply_address_only crc w in
        (SDI12_OK, send_response w)
    | None =>
        let crc := (3 <? len)%nat && (load cmd 3 =? ch "C") in
        let digit_pos := if crc then 4%nat else 3%nat in
        let w :=
          if subcmd =? ch "M" then
            let n := Z.of_nat (count_group c (group_digit_1_9 cmd digit_pos len)) in
            resp_printf (a :: bytes_of_string "000"
                           ++ fmt_u (if 9 <? n then 9 else n) ++ CRLF) w
          else if subcmd =? ch "C" then
            let n := Z.of_nat (count_group c (group_digit_1_9 cmd digit_pos len)) in
            resp_printf (a :: bytes_of_string "000"
                           ++ fmt_0u 2 (if 99 <? n then 99 else n) ++ CRLF) w
          else if subcmd =? ch "V" then
            let n := Z.of_nat (count_group c 0) in
            resp_printf (a :: bytes_of_string "000"
                           ++ fmt_u (if 9 <? n then 9 else n) ++ CRLF) w
          else if subcmd =? ch "H" then
            if (3 <? len)%nat && ((load cmd 3 =? ch "A") || (load cmd 3 =? ch "B"))
            then resp_printf (a :: bytes_of_string "000"
                                ++ fmt_0u 3 (Z.of_nat (count_group c 0)) ++ CRLF) w
            else resp_printf (a :: bytes_of_string "000000" ++ CRLF) w
          else if subcmd =? ch "R" then
            let grp := if (3 <? len)%nat && in_range (ch "0") (load cmd 3) (ch "9")
                       then digit_val (load cmd 3) else O in
            let n := Z.of_nat (count_group c grp) in
            resp_printf (a :: bytes_of_string "000"
                           ++ fmt_0u 2 (if 99 <? n then 99 else n) ++ CRLF) w
          else resp_printf (a :: bytes_of_string "0000" ++ CRLF) w in
        (SDI12_OK, send_response w)
    end.

(** [memcmp(xcmd_str, prefix, plen) == 0] with [xcmd_str = cmd + 2]. *)
Definition prefix_matches (cmd prefix_ : list Z) (plen : nat) : bool :=
  forallb (fun i => load cmd (2 + i) =? load prefix_ i) (seq 0 plen).

(** A handler that returned [SDI12_OK]: make sure of CR LF, then send. *)
Definition ensure_crlf (buf : list Z) : list Z :=
  let slen := strlen buf in
  if (slen <? 2)%nat || negb (load buf (slen - 2) =? CR)
                     || negb (load buf (slen - 1) =? LF)
  then if (slen + 2 <? SDI12_MAX_RESPONSE_LEN)%nat
       then store (store (store buf slen CR) (slen + 1) LF) (slen + 2) 0
       else buf
  else buf.

(** The search loop of [handle_extended] over the slots still to visit;
    [None] when no handler matched.  A registered slot always has a
    handler; a NULL handler in an active slot is passed over. *)
Fixpoint xcmd_dispatch (slots : list nat) (w : world_t) (cmd : list Z) (len : nat)
  : option (sdi12_err_t * world_t) :=
  match slots with
  | [] => None
  | i :: rest =>
      let x := nth i (xcmds (w_ctx w)) zero_xcmd in
      let plen := strlen (prefix x) in
      match handler x with
      | Some h =>
          if xactive x && (plen <=? len - 2)%nat && prefix_matches cmd (prefix x) plen
          then
            let buf := store (store (resp_buf (w_ctx w)) 0 (address (w_ctx w))) 1 0 in
            let r := h (skipn 2 cmd) buf (w_host w) in
            let err := fst (fst r) in
            let buf := fit SDI12_MAX_RESPONSE_LEN (snd (fst r)) in
            let w := with_host (snd r) (with_ctx (set_resp_buf buf) w) in
            match err with
            | SDI12_OK =>
                let w := with_ctx (fun c => set_resp_buf (ensure_crlf (resp_buf c)) c) w in
                Some (err, send_response w)
            | _ => Some (err, w)
            end
          else xcmd_dispatch rest w cmd len
      | None => xcmd_dispatch rest w cmd len
      end
  end.

(** Handle aX...!. *)
Definition handle_extended (w : world_t) (cmd : list Z) (len : nat)
  : sdi12_err_t * world_t :=
  match xcmd_dispatch (seq 0 (xcmd_count (w_ctx w))) w cmd len with
  | Some r => r
  | None =>
      let w := resp_printf (address (w_ctx w) :: CRLF) w in
      (SDI12_OK, send_response w)
  end.

(* ---------------------------------------------------------------------- *)
(** ** Public API *)
(* ---------------------------------------------------------------------- *)

Definition is_null {A : Type} (o : option A) : bool :=
  match o with None => true | Some _ => false end.

(** [sdi12_sensor_init]: [w] holds the caller-allocated context (any
    contents) on entry. *)
Definition sdi12_sensor_init (w : world_t) (addr : Z) (id : sdi12_ident_t)
                             (callbacks : sdi12_sensor_callbacks_t F Host)
  : sdi12_err_t * world_t :=
  if is_null (cb_send_response callbacks) || is_null (cb_set_direction callbacks)
     || is_null (cb_read_param callbacks)
  then (SDI12_ERR_CALLBACK_MISSING, w)
  else if negb (sdi12_valid_address addr) then (SDI12_ERR_INVALID_ADDRESS, w)
  else
    let c := {| address := addr; ident := id; cb := callbacks;
                params := repeat zero_param SDI12_MAX_PARAMS; param_count := 0;
                xcmds := repeat zero_xcmd SDI12_MAX_XCMDS; xcmd_count := 0;
                state := SDI12_STATE_READY;
                pending_meas_type := SDI12_MEAS_STANDARD; pending_meas_group := 0;
                crc_requested := false;
                data_cache := repeat zero_value SDI12_MAX_PARAMS;
                data_cache_count := 0; data_available := false;
                resp_buf := repeat 0 SDI12_MAX_RESPONSE_LEN; resp_len := 0 |} in
    let w := with_ctx (fun _ => c) w in
    let w :=
      match cb_load_address callbacks with
      | Some ld =>
          let r := ld (w_host w) in
          let w := with_host (snd r) w in
          if sdi12_valid_address (fst r) then with_ctx (set_address (fst r)) w else w
      | None => w
      end in
    (SDI12_OK, w).

Definition sdi12_sensor_register_param (ctx : ctx_t) (grp : nat)
                                       (shef_ units_ : list Z) (decimals_ : Z)
  : sdi12_err_t * ctx_t :=
  if (SDI12_MAX_PARAMS <=? param_count ctx)%nat then (SDI12_ERR_PARAM_LIMIT, ctx)
  else if (SDI12_MAX_MEAS_GROUPS <=? grp)%nat then (SDI12_ERR_INVALID_COMMAND, ctx)
  else
    let p := {| meta := {| shef := strncpy_zeroed 4 3 shef_;
                           units := strncpy_zeroed 21 20 units_ |};
                group := grp; reg_decimals := decimals_; active := true |} in
    let ctx := set_params (store (params ctx) (param_count ctx) p) ctx in
    (SDI12_OK, set_param_count (S (param_count ctx)) ctx).

Definition sdi12_sensor_register_xcmd (ctx : ctx_t) (prefix_ : list Z)
                                      (handler_ : option (sdi12_xcmd_handler_fn Host))
  : sdi12_err_t * ctx_t :=
  if is_null handler_ then (SDI12_ERR_INVALID_COMMAND, ctx)
  else if (SDI12_MAX_XCMDS <=? xcmd_count ctx)%nat then (SDI12_ERR_PARAM_LIMIT, ctx)
  else
    let x := {| prefix := strncpy_zeroed 16 15 prefix_;
                handler := handler_; xactive := true |} in
    let ctx := set_xcmds (store (xcmds ctx) (xcmd_count ctx) x) ctx in
    (SDI12_OK, set_xcmd_count (S (xcmd_count ctx)) ctx).

(** The page-number loop of the 'D' case: digits of [cmd[i]] while there
    are some, in a [uint16_t]. *)
Fixpoint parse_page (s : list Z) (page : Z) : Z :=
  match s with
  | [] => page
  | c :: r =>
      if is_digit c then parse_page r ((page * 10 + (c - ch "0")) mod 65536)
      else page
  end.

Definition isprint (c : Z) : bool := in_range 32 c 126.

(** The second half of [sdi12_sensor_process]: the trivial commands and
    the [switch (cmd[1])], on the command length [cmdlen] without ['!']. *)
Definition dispatch_command (w : world_t) (cmd : list Z) (cmdlen : nat)
  : sdi12_err_t * world_t :=
  if (cmdlen =? 1)%nat then handle_acknowledge w
  else
    let c1 := load cmd 1 in
    let crc := (2 <? cmdlen)%nat && (load cmd 2 =? ch "C") in
    let digit_pos := if crc then 3%nat else 2%nat in
    if c1 =? ch "I" then
      if (cmdlen =? 2)%nat then handle_identify w
      else handle_identify_measurement w cmd cmdlen
    else if c1 =? ch "M" then
      handle_measurement w (group_digit_1_9 cmd digit_pos cmdlen) crc
                         SDI12_MEAS_STANDARD
    else if c1 =? ch "C" then
      handle_measurement w (group_digit_1_9 cmd digit_pos cmdlen) crc
                         SDI12_MEAS_CONCURRENT
    else if c1 =? ch "D" then
      if (3 <=? cmdlen)%nat then
        if load cmd 2 =? ch "B" then
          let page := parse_page (firstn (cmdlen - 3) (skipn 3 cmd)) 0 in
          handle_send_binary_data w page
        else
          let page := parse_page (firstn (cmdlen - 2) (skipn 2 cmd)) 0 in
          handle_send_data w (Z.to_nat (if 255 <? page then 255 else page))
      else (SDI12_ERR_INVALID_COMMAND, w)
    else if c1 =? ch "R" then
      let index :=
        if (digit_pos <? cmdlen)%nat
           && in_range (ch "0") (load cmd digit_pos) (ch "9")
        then digit_val (load cmd digit_pos) else O in
      handle_continuous w index crc
    else if c1 =? ch "V" then
      handle_measurement w 0 false SDI12_MEAS_VERIFICATION
    else if c1 =? ch "A" then
      if (3 <=? cmdlen)%nat && isprint (load cmd 2)
      then handle_change_address w (load cmd 2)
      else (SDI12_ERR_INVALID_ADDRESS, w)
    else if c1 =? ch "H" then
      if (cmdlen =? 2)%nat then handle_highvol_stub w
      else
        let hcrc := (3 <? cmdlen)%nat && (load cmd 3 =? ch "C") in
        if load cmd 2 =? ch "A" then
          handle_measurement w 0 hcrc SDI12_MEAS_HIGHVOL_ASCII
        else if load cmd 2 =? ch "B" then
          handle_measurement w 0 hcrc SDI12_MEAS_HIGHVOL_BINARY
        else handle_highvol_stub w
    else if c1 =? ch "X" then handle_extended w cmd cmdlen
    else (SDI12_ERR_INVALID_COMMAND, w).

(** [sdi12_sensor_process(ctx, cmd, len)]: [cmd] is the command buffer
    (reads past it yield NUL), [len] the length passed by the caller.
    The function's second half is [dispatch_command]. *)
Definition sdi12_sensor_process (w : world_t) (cmd : list Z) (len : nat)
  : sdi12_err_t * world_t :=
  if (len =? 0)%nat then (SDI12_ERR_INVALID_COMMAND, w)
  else
    let w := with_ctx (set_resp_len 0) w in
    let cmdlen := len in
    let cmdlen := if load cmd (cmdlen - 1) =? ch "!" then (cmdlen - 1)%nat else cmdlen in
    if (cmdlen =? 0)%nat then (SDI12_ERR_INVALID_COMMAND, w)
    else
      let addr := load cmd 0 in
      let is_query := (cmdlen =? 1)%nat && (addr =? ch "?") in
      let is_addressed := (addr =? address (w_ctx w)) in
      if negb is_addressed && negb is_query then (SDI12_ERR_NOT_ADDRESSED, w)
      else
        let w :=
          match is_addressed, state (w_ctx w) with
          | true, SDI12_STATE_MEASURING_C =>
              let w := with_ctx (set_state SDI12_STATE_READY) w in
              let w := with_ctx (set_data_available false) w in
              with_ctx (set_data_cache_count 0) w
          | _, _ => w
          end in
        dispatch_command w cmd cmdlen.

(** [memcpy(ctx->data_cache, values, n * sizeof(sdi12_value_t))]. *)
Definition copy_values (cache values : list value_t) (n : nat) : list value_t :=
  fold_left (fun acc i => store acc i (nth i values zero_value)) (seq 0 n) cache.

Definition sdi12_sensor_measurement_done (w : world_t) (values : list value_t)
                                         (count : nat)
  : sdi12_err_t * world_t :=
  let n := count in
  let n := if (SDI12_MAX_PARAMS <? n)%nat then SDI12_MAX_PARAMS else n in
  let w := with_ctx (fun c => set_data_cache (copy_values (data_cache c) values n) c) w in
  let w := with_ctx (set_data_cache_count n) w in
  let w := with_ctx (set_data_available true) w in
  let w := with_ctx (set_resp_len 0) w in
  match state (w_ctx w) with
  | SDI12_STATE_MEASURING =>
      let w := resp_printf (address (w_ctx w) :: CRLF) w in
      let w :=
        match cb_service_request (cb (w_ctx w)) with
        | Some sr => emit EvServiceRequest (with_host (sr (w_host w)) w)
        | None => send_response w
        end in
      (SDI12_OK, with_ctx (set_state SDI12_STATE_DATA_READY) w)
  | SDI12_STATE_MEASURING_C =>
      (SDI12_OK, with_ctx (set_state SDI12_STATE_DATA_READY) w)
  | _ => (SDI12_OK, w)
  end.

Definition sdi12_sensor_break (ctx : ctx_t) : ctx_t :=
  let ctx :=
    match state ctx with
    | SDI12_STATE_MEASURING | SDI12_STATE_MEASURING_C =>
        set_data_cache_count 0 (set_data_available false ctx)
    | _ => ctx
    end in
  set_state SDI12_STATE_READY ctx.

Definition sdi12_sensor_group_count (ctx : ctx_t) (grp : nat) : nat :=
  count_group ctx grp.

(** The six bytes of the empty binary packet of a sensor at address [a]. *)
Definition empty_binary_packet (a : Z) : list Z :=
  let crc := sdi12_crc16 [a; 0; 0; 0] 4 in
  [a; 0; 0; 0; Z.land crc 0xFF; Z.land (Z.shiftr crc 8) 0xFF].

(** The abort of a concurrent measurement written out in
    [sdi12_sensor_process]. *)
Definition abort_concurrent (c : ctx_t) : ctx_t :=
  set_data_cache_count 0 (set_data_available false (set_state SDI12_STATE_READY c)).

(** What [sdi12_sensor_init] establishes and the engine relies on: a
    valid address and the required [send_response] callback. *)
Definition sensor_ready (ctx : ctx_t) : bool :=
  sdi12_valid_address (address ctx)
  && negb (is_null (cb_send_response (cb ctx)))
  && (length (resp_buf ctx) =? SDI12_MAX_RESPONSE_LEN)%nat.

(** The invariant claimed by the data model. *)
Definition cache_le_params (ctx : ctx_t) : Prop :=
  (data_cache_count ctx <= param_count ctx)%nat /\
  (param_count ctx <= SDI12_MAX_PARAMS)%nat.

(** The part of it every operation keeps. *)
Definition counts_bounded (ctx : ctx_t) : Prop :=
  (data_cache_count ctx <= SDI12_MAX_PARAMS)%nat /\
  (param_count ctx <= SDI12_MAX_PARAMS)%nat.

(** How a command may move the two counts: the parameter count stays;
    the cache count stays or is set anew within both bounds. *)
Definition counts_step (c c' : ctx_t) : Prop :=
  param_count c' = param_count c /\
  (data_cache_count c' = data_cache_count c \/
   (data_cache_count c' <= param_count c /\
    data_cache_count c' <= SDI12_MAX_PARAMS)%nat).

(** How a command may move what [sensor_ready] looks at: the callbacks
    stay, the response buffer keeps its 82 bytes, the address stays or
    becomes another valid one. *)
Definition ready_step (c c' : ctx_t) : Prop :=
  cb c' = cb c /\
  (length (resp_buf c) = SDI12_MAX_RESPONSE_LEN ->
   length (resp_buf c') = SDI12_MAX_RESPONSE_LEN) /\
  (address c' = address c \/ sdi12_valid_address (address c') = true).

End Sensor.

(* ====================================================================== *)
(** * sdi12_master.c *)
(* ====================================================================== *)

Section Master.

Context {F Host : Type} {CF : CFloat F}.

(** The master's callbacks; all are required by [sdi12_master_init].
    [mcb_recv buflen timeout_ms] yields the bytes stored in the buffer
    (their number is the callback's return value; none on timeout). *)
Record sdi12_master_callbacks_t : Type := {
  mcb_send : list Z -> Host -> Host;
  mcb_recv : nat -> Z -> Host -> list Z * Host;
  mcb_set_direction : bool -> Host -> Host;
  mcb_send_break : Host -> Host;
  mcb_delay : Z -> Host -> Host
}.

Record sdi12_master_ctx_t : Type := {
  mcb : sdi12_master_callbacks_t;
  cmd_buf : list Z;
  m_resp_buf : list Z;
  m_resp_len : nat
}.

(** A master context and the host state its callbacks act on. *)
Record master_world : Type := {
  mw_ctx : sdi12_master_ctx_t;
  mw_host : Host
}.

Definition SDI12_DIR_RX : bool := false.
Definition SDI12_DIR_TX : bool := true.

(** Trim trailing CR/LF from a response string: the buffer and the new
    length. *)
Fixpoint trim_crlf (buf : list Z) (len : nat) : list Z * nat :=
  match len with
  | O => (buf, O)
  | S k =>
      if (load buf k =? CR) || (load buf k =? LF)
      then trim_crlf (store buf k 0) k
      else (buf, len)
  end.

Definition send_command (mw : master_world) (cmd : list Z)
  : sdi12_err_t * master_world :=
  let len := strlen cmd in
  if (SDI12_CMD_MAX_CHARS <? len)%nat then (SDI12_ERR_INVALID_COMMAND, mw)
  else
    let c := mw_ctx mw in
    let cbuf := memcpy (cmd_buf c) 0 cmd (len + 1) in
    let h := mcb_set_direction (mcb c) SDI12_DIR_TX (mw_host mw) in
    let h := mcb_send (mcb c) (firstn len cbuf) h in
    let h := mcb_set_direction (mcb c) SDI12_DIR_RX h in
    (SDI12_OK,
     {| mw_ctx := {| mcb := mcb c; cmd_buf := cbuf;
                     m_resp_buf := m_resp_buf c; m_resp_len := m_resp_len c |};
        mw_host := h |}).

Definition recv_response (mw : master_world) (timeout_ms : Z)
  : sdi12_err_t * master_world :=
  let c := mw_ctx mw in
  let r := mcb_recv (mcb c) (length (m_resp_buf c) - 1) timeout_ms (mw_host mw) in
  let got := firstn (length (m_resp_buf c) - 1) (fst r) in
  let buf := blit (m_resp_buf c) 0 got in
  let rlen := length got in
  if (rlen =? 0)%nat then
    (SDI12_ERR_TIMEOUT,
     {| mw_ctx := {| mcb := mcb c; cmd_buf := cmd_buf c;
                     m_resp_buf := buf; m_resp_len := rlen |};
        mw_host := snd r |})
  else
    (SDI12_OK,
     {| mw_ctx := {| mcb := mcb c; cmd_buf := cmd_buf c;
                     m_resp_buf := store buf rlen 0; m_resp_len := rlen |};
        mw_host := snd r |}).

Definition sdi12_master_transact (mw : master_world) (cmd : list Z) (timeout_ms : Z)
  : sdi12_err_t * master_world :=
  match send_command mw cmd with
  | (SDI12_OK, mw) => recv_response mw timeout_ms
  | (err, mw) => (err, mw)
  end.

(** [sdi12_master_acknowledge(ctx, addr, present)]: the result, the value
    of [*present] afterwards ([present] before the call), the context. *)
Definition sdi12_master_acknowledge (mw : master_world) (addr : Z) (present : bool)
  : sdi12_err_t * bool * master_world :=
  if negb (sdi12_valid_address addr) then (SDI12_ERR_INVALID_ADDRESS, present, mw)
  else
    let cmd := snprintf (repeat 0 4) [addr; ch "!"] in
    let r := sdi12_master_transact mw cmd SDI12_RESPONSE_TIMEOUT_MS in
    let mw := snd r in
    match fst r with
    | SDI12_ERR_TIMEOUT => (SDI12_OK, false, mw)
    | SDI12_OK =>
        let c := mw_ctx mw in
        let t := trim_crlf (m_resp_buf c) (m_resp_len c) in
        let len := snd t in
        (SDI12_OK, (1 <=? len)%nat && (load (fst t) 0 =? addr),
         {| mw_ctx := {| mcb := mcb c; cmd_buf := cmd_buf c;
                         m_resp_buf := fst t; m_resp_len := m_resp_len c |};
            mw_host := mw_host mw |})
    | err => (err, present, mw)
    end.

(** The bytes [recv] stores during [sdi12_master_acknowledge] (it is
    called once, after the command has been sent). *)
Definition ack_received (mw : master_world) (addr : Z) : list Z :=
  let mw := snd (send_command mw (snprintf (repeat 0 4) [addr; ch "!"])) in
  let c := mw_ctx mw in
  firstn (length (m_resp_buf c) - 1)
         (fst (mcb_recv (mcb c) (length (m_resp_buf c) - 1)
                        SDI12_RESPONSE_TIMEOUT_MS (mw_host mw))).

(** [while (pos < data_len && p(resp_str[pos])) pos++], run for at most
    [fuel] turns; [data_len - pos] turns always reach the loop's exit. *)
Fixpoint scan_while (p : Z -> bool) (s : list Z) (data_len fuel pos : nat) : nat :=
  match fuel with
  | O => pos
  | S f =>
      if (pos <? data_len)%nat && p (load s pos)
      then scan_while p s data_len f (S pos) else pos
  end.

(** The value recorded for the token [resp_str[start..pos)]. *)
Definition token_value (s : list Z) (start pos : nat) : sdi12_value_t F :=
  let vlen := (pos - start)%nat in
  let vlen := if (SDI12_VALUE_MAX_CHARS <? vlen)%nat then SDI12_VALUE_MAX_CHARS else vlen in
  let vbuf := map (load s) (seq start vlen) in
  {| value := strtod vbuf;
     decimals :=
       match memchr vbuf 0 (ch ".") vlen with
       | Some dot => Z.of_nat (vlen - dot - 1) mod 256
       | None => 0
       end |}.

(** The outer loop of [sdi12_master_parse_data_values], run for at most
    [fuel] turns (every turn advances [pos]); [acc] holds [values[0..*count)]. *)
Fixpoint parse_values_loop (fuel : nat) (s : list Z) (data_len max_values : nat)
                           (pos : nat) (acc : list (sdi12_value_t F))
  : list (sdi12_value_t F) :=
  match fuel with
  | O => acc
  | S f =>
      if (pos <? data_len)%nat && (length acc <? max_values)%nat then
        let pos := scan_while (fun c => c =? ch " ") s data_len (data_len - pos) pos in
        if (data_len <=? pos)%nat then acc
        else if negb (load s pos =? ch "+") && negb (load s pos =? ch "-") then
          parse_values_loop f s data_len max_values (S pos) acc
        else
          let start := pos in
          let pos := S pos in
          let pos := scan_while (fun c => is_digit c || (c =? ch "."))
                                s data_len (data_len - pos) pos in
          if (start + 1 <? pos)%nat
          then parse_values_loop f s data_len max_values pos
                                 (acc ++ [token_value s start pos])
          else parse_values_loop f s data_len max_values pos acc
      else acc
  end.

(** [sdi12_master_parse_data_values(resp_str, len, values, max_values,
    count, verify_crc)]: the result and [values[0..*count)]. *)
Definition sdi12_master_parse_data_values (resp_str : list Z) (len : nat)
                                          (max_values : nat) (verify_crc : bool)
  : sdi12_err_t * list (sdi12_value_t F) :=
  let data_len := len in
  let data_len := if verify_crc && (3 <=? data_len)%nat
                  then (data_len - 3)%nat else data_len in
  (SDI12_OK, parse_values_loop data_len resp_str data_len max_values 0 []).

End Master.

(* ====================================================================== *)
(** * sdi12_master.c: address, identification and measurement commands *)
(* ====================================================================== *)

Section MasterCommands.

Context {F Host : Type} {CF : CFloat F}.

(** The loop of [parse_digits(s + pos, max, out)] with [left] turns to go:
    the digits consumed so far and [*out], a [uint32_t]. *)
Fixpoint parse_digits_loop (s : list Z) (pos left : nat) (n : nat) (out : Z)
  : nat * Z :=
  match left with
  | O => (n, out)
  | S k =>
      if in_range (ch "0") (load s pos) (ch "9")
      then parse_digits_loop s (S pos) k (S n)
             ((out * 10 + (load s pos - ch "0")) mod 2 ^ 32)
      else (n, out)
  end.

(** [parse_digits(s + start, max, &out)]: the return value and [out]. *)
Definition parse_digits (s : list Z) (start max : nat) : nat * Z :=
  parse_digits_loop s start max 0 0.

Record sdi12_meas_response_t : Type := {
  mr_address : Z;
  wait_seconds : Z;
  value_count : Z;
  mr_type : sdi12_meas_type_t
}.

(** What zeroing the response with [memset] leaves. *)
Definition zero_meas_response : sdi12_meas_response_t :=
  {| mr_address := 0; wait_seconds := 0; value_count := 0;
     mr_type := SDI12_MEAS_STANDARD |}.

(** The width of the count field picked by the [switch (type)]. *)
Definition count_digits (type : sdi12_meas_type_t) : nat :=
  match type with
  | SDI12_MEAS_STANDARD | SDI12_MEAS_VERIFICATION => 1
  | SDI12_MEAS_CONCURRENT | SDI12_MEAS_CONTINUOUS => 2
  | SDI12_MEAS_HIGHVOL_ASCII | SDI12_MEAS_HIGHVOL_BINARY => 3
  end.

(** [sdi12_master_parse_meas_response(resp_str, len, type, resp)]: the
    result and [*resp] afterwards. *)
Definition sdi12_master_parse_meas_response (resp_str : list Z) (len : nat)
                                            (type : sdi12_meas_type_t)
  : sdi12_err_t * sdi12_meas_response_t :=
  let resp := zero_meas_response in
  if (len <? 5)%nat then (SDI12_ERR_INVALID_COMMAND, resp)
  else
    let resp := {| mr_address := load resp_str 0; wait_seconds := wait_seconds resp;
                   value_count := value_count resp; mr_type := mr_type resp |} in
    let t := parse_digits resp_str 1 3 in
    if negb (fst t =? 3)%nat then (SDI12_ERR_INVALID_COMMAND, resp)
    else
      let resp := {| mr_address := mr_address resp; wait_seconds := snd t mod 65536;
                     value_count := value_count resp; mr_type := mr_type resp |} in
      let pos := 4%nat in
      let n := parse_digits resp_str pos (count_digits type) in
      if negb (fst n =? count_digits type)%nat then (SDI12_ERR_INVALID_COMMAND, resp)
      else
        (SDI12_OK,
         {| mr_address := mr_address resp; wait_seconds := wait_seconds resp;
            value_count := snd n mod 65536; mr_type := mr_type resp |}).

(** The context after [trim_crlf(ctx->resp_buf, ctx->resp_len)] (the
    stored length is not updated) and the trimmed length. *)
Definition trim_response (mw : @master_world Host) : nat * @master_world Host :=
  let c := mw_ctx mw in
  let t := trim_crlf (m_resp_buf c) (m_resp_len c) in
  (snd t,
   {| mw_ctx := {| mcb := mcb c; cmd_buf := cmd_buf c;
                   m_resp_buf := fst t; m_resp_len := m_resp_len c |};
      mw_host := mw_host mw |}).

(** [sdi12_master_query_address(ctx, addr)]: the result, the target of
    [addr] afterwards ([addr0] before the call), the context. *)
Definition sdi12_master_query_address (mw : @master_world Host) (addr0 : Z)
  : sdi12_err_t * Z * @master_world Host :=
  let r := sdi12_master_transact mw (bytes_of_string "?!" ++ [0])
                                 SDI12_RESPONSE_TIMEOUT_MS in
  match fst r with
  | SDI12_OK =>
      let t := trim_response (snd r) in
      let buf := m_resp_buf (mw_ctx (snd t)) in
      if (1 <=? fst t)%nat && sdi12_valid_address (load buf 0)
      then (SDI12_OK, load buf 0, snd t)
      else (SDI12_ERR_INVALID_ADDRESS, addr0, snd t)
  | err => (err, addr0, snd r)
  end.




(** The command text built by the [switch (type)] of
    [sdi12_master_start_measurement] ([None] in the [default] case);
    [group] is a [uint8_t] printed with ["%u"]. *)
Definition meas_command (addr : Z) (type : sdi12_meas_type_t) (group : Z) (crc : bool)
  : option (list Z) :=
  let with_group (letters : string) :=
    if 0 <? group
    then addr :: bytes_of_string letters ++ fmt_u group ++ [ch "!"]
    else addr :: bytes_of_string letters ++ [ch "!"] in
  match type with
  | SDI12_MEAS_STANDARD => Some (with_group (if crc then "MC" else "M")%string)
  | SDI12_MEAS_CONCURRENT => Some (with_group (if crc then "CC" else "C")%string)
  | SDI12_MEAS_VERIFICATION => Some [addr; ch "V"; ch "!"]
  | SDI12_MEAS_HIGHVOL_ASCII =>
      Some (addr :: bytes_of_string (if crc then "HAC!" else "HA!")%string)
  | SDI12_MEAS_HIGHVOL_BINARY =>
      Some (addr :: bytes_of_string (if crc then "HBC!" else "HB!")%string)
  | SDI12_MEAS_CONTINUOUS => None
  end.

(** [sdi12_master_start_measurement(ctx, addr, type, group, crc, resp)]:
    the result, [*resp] afterwards ([resp0] before the call), the context. *)
Definition sdi12_master_start_measurement (mw : @master_world Host) (addr : Z)
    (type : sdi12_meas_type_t) (group : Z) (crc : bool)
    (resp0 : sdi12_meas_response_t)
  : sdi12_err_t * sdi12_meas_response_t * @master_world Host :=
  if negb (sdi12_valid_address addr) then (SDI12_ERR_INVALID_ADDRESS, resp0, mw)
  else
    match meas_command addr type group crc with
    | None => (SDI12_ERR_INVALID_COMMAND, resp0, mw)
    | Some text =>
        let cmd := snprintf (repeat 0 16) text in
        let r := sdi12_master_transact mw cmd SDI12_RESPONSE_TIMEOUT_MS in
        match fst r with
        | SDI12_OK =>
            let t := trim_response (snd r) in
            let p := sdi12_master_parse_meas_response
                       (m_resp_buf (mw_ctx (snd t))) (fst t) type in
            (fst p, snd p, snd t)
        | err => (err, resp0, snd r)
        end
    end.

(** [sdi12_master_wait_service_request(ctx, addr, timeout_ms)]. *)
Definition sdi12_master_wait_service_request (mw : @master_world Host) (addr : Z)
                                             (timeout_ms : Z)
  : sdi12_err_t * @master_world Host :=
  let r := recv_response mw timeout_ms in
  match fst r with
  | SDI12_OK =>
      let t := trim_response (snd r) in
      if (1 <=? fst t)%nat && (load (m_resp_buf (mw_ctx (snd t))) 0 =? addr)
      then (SDI12_OK, snd t)
      else (SDI12_ERR_TIMEOUT, snd t)
  | err => (err, snd r)
  end.

(** The bytes [recv] delivers (cut to the buffer) to a master that
    listens for [timeout_ms] without sending. *)
Definition heard (mw : @master_world Host) (timeout_ms : Z) : list Z :=
  let c := mw_ctx mw in
  firstn (length (m_resp_buf c) - 1)
         (fst (mcb_recv (mcb c) (length (m_resp_buf c) - 1) timeout_ms (mw_host mw))).

(** The bytes [recv] delivers (cut to the buffer) in the transaction
    that sends [cmd] and waits [timeout_ms]. *)
Definition received (mw : @master_world Host) (cmd : list Z) (timeout_ms : Z) : list Z :=
  let mw := snd (send_command mw cmd) in
  let c := mw_ctx mw in
  firstn (length (m_resp_buf c) - 1)
         (fst (mcb_recv (mcb c) (length (m_resp_buf c) - 1) timeout_ms (mw_host mw))).

End MasterCommands.

(* ====================================================================== *)
(** * A test bench: the context of the repository's unit tests *)
(* ====================================================================== *)

(** Integer-valued floats: exact for the values used below.  ["%lu"]
    prints the integer, ["%.*f"] the integer, a dot and [d] zeros;
    [strtod] reads an optional sign and the integral digits. *)
Definition int_strtod (s : list Z) : Z :=
  match s with
  | c :: r =>
      if c =? ch "-" then - parse_decimal r 0
      else if c =? ch "+" then parse_decimal r 0
      else parse_decimal s 0
  | [] => 0
  end.

#[export] Instance IntFloat : CFloat Z := {|
  f_zero := 0;
  f_nonneg := fun v => 0 <=? v;
  f_neg := fun v => - v;
  fmt_lu := fun v => fmt_u v;
  fmt_f := fun d v => fmt_u v ++ ch "." :: repeat (ch "0") (Z.to_nat d);
  strtod := int_strtod
|}.

(** The mock callbacks of [sdi12_test.h]: [send_response], [set_direction]
    and [read_param] only (the host state is trivial). *)
Definition mock_read_param (idx : nat) (h : unit) : sdi12_value_t Z * unit :=
  ({| value := nth idx [42; 25; 101; 65; -10] 0; decimals := 0 |}, h).

Definition mock_callbacks : sdi12_sensor_callbacks_t Z unit :=
  {| cb_send_response := Some (fun _ h => h);
     cb_set_direction := Some (fun _ h => h);
     cb_read_param := Some mock_read_param;
     cb_save_address := None;
     cb_load_address := None;
     cb_start_measurement := None;
     cb_service_request := None;
     cb_on_reset := None;
     cb_format_binary_page := None |}.

Definition mock_ident : sdi12_ident_t :=
  {| vendor := fit 9 (bytes_of_string "TESTCO  ");
     model := fit 7 (bytes_of_string "MOD001");
     firmware_version := fit 4 (bytes_of_string "100");
     serial := fit 14 (bytes_of_string "SN123") |}.

(** Caller-allocated, not yet initialised storage. *)
Definition blank_ctx : sdi12_sensor_ctx_t Z unit :=
  {| address := 0; ident := mock_ident; cb := mock_callbacks;
     params := repeat zero_param SDI12_MAX_PARAMS; param_count := 0;
     xcmds := repeat zero_xcmd SDI12_MAX_XCMDS; xcmd_count := 0;
     state := SDI12_STATE_STANDBY;
     pending_meas_type := SDI12_MEAS_STANDARD; pending_meas_group := 0;
     crc_requested := false;
     data_cache := repeat zero_value SDI12_MAX_PARAMS;
     data_cache_count := 0; data_available := false;
     resp_buf := repeat 0 SDI12_MAX_RESPONSE_LEN; resp_len := 0 |}.

Definition blank_world : world Z unit :=
  {| w_ctx := blank_ctx; w_host := tt; w_trace := [] |}.

(** [sdi12_sensor_init] at address ['0'], no parameter registered. *)
Definition empty_sensor : world Z unit :=
  snd (sdi12_sensor_init blank_world (ch "0") mock_ident mock_callbacks).

Definition add_param (grp : nat) (shef_ units_ : string) (d : Z)
                     (w : world Z unit) : world Z unit :=
  with_ctx (fun c => snd (sdi12_sensor_register_param c grp
                            (bytes_of_string shef_ ++ [0])
                            (bytes_of_string units_ ++ [0]) d)) w.

(** [create_test_ctx('0')]: five parameters in group 0. *)
Definition test_sensor : world Z unit :=
  add_param 0 "GR" "Ohm" 1
    (add_param 0 "XR" "%" 2
      (add_param 0 "PA" "Kpa" 1
        (add_param 0 "TA" "C" 2
          (add_param 0 "RP" "lux" 0 empty_sensor)))).

(** The test context with fifteen more parameters in group 0 (the mock
    reads zero for them): twenty values, 46 characters of text. *)
Fixpoint add_params (n : nat) (w : world Z unit) : world Z unit :=
  match n with
  | O => w
  | S k => add_param 0 "XX" "u" 0 (add_params k w)
  end.

Definition full_sensor : world Z unit := add_params 15 test_sensor.

(** The same sensor forced into a state, as the tests do with
    [ctx.state = ...]. *)
Definition in_state (st : sdi12_state_t) (w : world Z unit) : world Z unit :=
  with_ctx (set_state st) w.

(** A master whose bus answers every command with [reply]. *)
Definition mock_master_callbacks (reply : list Z)
  : @sdi12_master_callbacks_t unit :=
  {| mcb_send := fun _ h => h;
     mcb_recv := fun _ _ h => (reply, h);
     mcb_set_direction := fun _ h => h;
     mcb_send_break := fun h => h;
     mcb_delay := fun _ h => h |}.

Definition mock_master (reply : list Z) : @master_world unit :=
  {| mw_ctx := {| mcb := mock_master_callbacks reply;
                  cmd_buf := repeat 0 (SDI12_CMD_MAX_CHARS + 4);
                  m_resp_buf := repeat 0 (SDI12_RESP_MAX_CHARS + 4);
                  m_resp_len := 0 |};
     mw_host := tt |}.

(** The test context after [0M!]: five values ready; and the one with
    twenty parameters after [0M!]: twenty values, 46 characters. *)
Definition measured_sensor : world Z unit :=
  snd (sdi12_sensor_process test_sensor (bytes_of_string "0M!") 3).

Definition full_measured_sensor : world Z unit :=
  snd (sdi12_sensor_process full_sensor (bytes_of_string "0M!") 3).

Unset Implicit Arguments.

(* ====================================================================== *)
(** * Vocabulary of the statements *)
(* ====================================================================== *)

(** The command length after the trailing ['!'] is stripped, and the
    wildcard test, as [sdi12_sensor_process] computes them. *)
Definition stripped_len (cmd : list Z) (len : nat) : nat :=
  if load cmd (len - 1) =? ch "!" then (len - 1)%nat else len.

Definition is_query (cmd : list Z) (len : nat) : bool :=
  (stripped_len cmd len =? 1)%nat && (load cmd 0 =? ch "?").

(** The data part of a text response: [x] without a trailing CR LF. *)
Definition strip_crlf (x : list Z) : list Z :=
  let n := length x in
  if (2 <=? n)%nat && (load x (n - 2) =? CR) && (load x (n - 1) =? LF)
  then firstn (n - 2) x else x.

(** A [char buf[buflen]] holding the C string [x] (then arbitrary bytes [rest]). *)
Definition holds_string (buf : list Z) (buflen : nat) (x rest : list Z) : Prop :=
  buf = x ++ 0 :: rest /\ length buf = buflen /\ Forall (fun b => b <> 0) x.

(** Projections of a context or a world, through the setters. *)
Ltac simpl_ctx :=
  cbn [w_ctx w_host w_trace with_ctx with_host emit resp_printf fst snd
       address ident cb params param_count xcmds xcmd_count state
       pending_meas_type pending_meas_group crc_requested data_cache
       data_cache_count data_available resp_buf resp_len
       set_address set_params set_param_count set_xcmds set_xcmd_count
       set_state set_pending_meas_type set_pending_meas_group
       set_crc_requested set_data_cache set_data_cache_count
       set_data_available set_resp_buf set_resp_len
       format_data_page abort_concurrent] in *.

(* ---------------------------------------------------------------------- *)
(** ** Vocabulary for the CRC codec and the address alphabet *)
(* ---------------------------------------------------------------------- *)

(** The values of a [uint8_t] and of a [uint16_t]. *)
Definition is_byte (b : Z) : Prop := 0 <= b < 256.
Definition is_u16 (c : Z) : Prop := 0 <= c < 65536.

(** One turn of the inner loop of [sdi12_crc16] run backwards: bit 15 of
    the result tells which branch was taken. *)
Definition crc_unshift (y : Z) : Z :=
  if 32768 <=? y then Z.lor (Z.shiftl (Z.lxor y 0xA001) 1) 1 else Z.shiftl y 1.

(** The 16-bit value three CRC characters stand for. *)
Definition crc_decode_ascii (e : list Z) : Z :=
  (load e 0 - 64) * 4096 + (load e 1 - 64) * 64 + (load e 2 - 64).

(** All [uint8_t] values, and a test of a property on every [uint16_t]
    value (high byte, low byte). *)
Definition byte_values : list Z := map Z.of_nat (seq 0 256).

Definition forall_u16 (P : Z -> bool) : bool :=
  forallb (fun hi => forallb (fun lo => P (hi * 256 + lo)) byte_values) byte_values.

(** The sixty-two address characters of SDI-12. *)
Definition address_alphabet : list Z :=
  bytes_of_string "0123456789ABCDEFGHIJKLMNOPQRSTUVWXYZabcdefghijklmnopqrstuvwxyz".

Section SensorVocabulary.

Context {F Host : Type} {CF : CFloat F}.

(** [v] is [w] some steps later with no response sent in between and the
    callbacks left as they were. *)
Definition quiet (w v : world F Host) : Prop :=
  cb (w_ctx v) = cb (w_ctx w) /\ sent v = sent w.

(** The result [r] of a command handler started in [w]: on [SDI12_OK] the
    handler ended with one call of [send_response], on an error it sent
    nothing. *)
Definition one_reply (w : world F Host) (r : sdi12_err_t * world F Host) : Prop :=
  match fst r with
  | SDI12_OK => exists v, quiet w v /\ snd r = send_response v
  | _ => quiet w (snd r)
  end.

End SensorVocabulary.

(** The number a run of decimal digits stands for, accumulated as
    [parse_digits] does in its [uint32_t]. *)
Definition digits_value (ds : list Z) (out : Z) : Z :=
  fold_left (fun o c => (o * 10 + (c - ch "0")) mod 2 ^ 32) ds out.

(** The numbers below [n]. *)
Definition below (n : nat) : list Z := map Z.of_nat (seq 0 n).

(** A value token of a data response: a sign, then one or more digits
    or dots. *)
Definition is_sign (c : Z) : bool := (c =? ch "+") || (c =? ch "-").

Definition is_value_char (c : Z) : bool := is_digit c || (c =? ch ".").

Definition value_token (t : list Z) : bool :=
  match t with
  | sg :: d :: body => is_sign sg && forallb is_value_char (d :: body)
  | _ => false
  end.

(** The text of one value as [format_data_page] can place it: one to
    nine printable characters. *)
Definition value_text_ok (t : list Z) : bool :=
  (1 <=? length t)%nat && (length t <=? SDI12_VALUE_MAX_CHARS)%nat && forallb isprint t.

(** What the loop of [format_data_page] keeps true of its cursor: the
    buffer has its 82 bytes, the write position stays within the part
    that leaves room for a CRC and CR LF, and the bytes before it are
    printable. *)
Definition page_ok (st : page_cursor) : Prop :=
  length (pc_buf st) = SDI12_MAX_RESPONSE_LEN /\
  (1 <= pc_pos st <= 75)%nat /\
  Forall (fun b => isprint b = true) (firstn (pc_pos st) (pc_buf st)).

(** The number of characters the values [vals] take in a data response. *)
Definition values_text_length {F : Type} {CF : CFloat F}
                              (vals : list (sdi12_value_t F)) : nat :=
  length (flat_map format_value vals).

(** The text a sensor at address [a] with identification [id] prints in
    reply to [aI!], without the closing CR LF. *)
Definition identify_text (a : Z) (id : sdi12_ident_t) : list Z :=
  a :: SDI12_PROTOCOL_VERSION
    ++ fmt_pad_s 8 (vendor id) ++ fmt_pad_s 6 (model id)
    ++ fmt_pad_s 3 (firmware_version id) ++ cstring (serial id).

Section SensorCalls.

Context {F Host : Type} {CF : CFloat F}.

(** The calls an application makes on an initialised sensor context. *)
Inductive api_call : Type :=
| CallProcess (cmd : list Z) (len : nat)
| CallMeasurementDone (values : list (sdi12_value_t F)) (count : nat)
| CallBreak
| CallRegisterParam (grp : nat) (shef_ units_ : list Z) (decimals_ : Z).

Definition run_call (w : world F Host) (c : api_call) : world F Host :=
  match c with
  | CallProcess cmd len => snd (sdi12_sensor_process w cmd len)
  | CallMeasurementDone values count =>
      snd (sdi12_sensor_measurement_done w values count)
  | CallBreak => with_ctx sdi12_sensor_break w
  | CallRegisterParam grp shef_ units_ decimals_ =>
      with_ctx (fun ctx => snd (sdi12_sensor_register_param ctx grp shef_ units_
                                                            decimals_)) w
  end.

Definition run_calls (calls : list api_call) (w : world F Host) : world F Host :=
  fold_left run_call calls w.

End SensorCalls.

(* ====================================================================== *)
(** * Buffer lemmas *)
(* ====================================================================== *)

Lemma store_length {A} (buf : list A) i v : length (store buf i v) = length buf.
Proof.
  revert i; induction buf as [|b r IH]; intros [|j]; simpl; auto.
Qed.

Lemma store_app_r (p : list Z) q i v :
  (length p <= i)%nat -> store (p ++ q) i v = p ++ store q (i - length p) v.
Proof.
  revert i; induction p as [|b p IH]; intros i Hi; simpl in *.
  - now rewrite Nat.sub_0_r.
  - destruct i as [|j]; [lia|]. simpl. f_equal. apply IH. lia.
Qed.

Lemma load_app_l (p q : list Z) i :
  (i < length p)%nat -> load (p ++ q) i = load p i.
Proof. intros; unfold load; now apply app_nth1. Qed.

Lemma load_app_r (p q : list Z) i :
  (length p <= i)%nat -> load (p ++ q) i = load q (i - length p).
Proof. intros; unfold load; now apply app_nth2. Qed.

Lemma Forall_take (P : Z -> Prop) n l : Forall P l -> Forall P (firstn n l).
Proof.
  intros H; revert n; induction H as [|b l Hb _ IH]; intros [|n]; simpl;
    constructor; auto.
Qed.

Lemma strlen_app_nul x rest :
  Forall (fun b => b <> 0) x -> strlen (x ++ 0 :: rest) = length x.
Proof.
  induction 1 as [|b x Hb _ IH]; simpl; auto.
  destruct (Z.eqb_spec b 0); [contradiction|]. now rewrite IH.
Qed.

(* ====================================================================== *)
(** * CRC codec *)
(* ====================================================================== *)

Lemma crc_encoded_nonzero crc i :
  (i < 3)%nat -> load (sdi12_crc_encode_ascii crc) i <> 0.
Proof.
  intros Hi E. unfold sdi12_crc_encode_ascii, load in E.
  destruct i as [|[|[|i]]]; try lia; cbn [nth] in E;
    apply Z.lor_eq_0_iff in E; destruct E as [E _]; discriminate E.
Qed.

Lemma crc16_prefix d t : sdi12_crc16 (d ++ t) (length d) = sdi12_crc16 d (length d).
Proof.
  unfold sdi12_crc16. now rewrite firstn_app, Nat.sub_diag, firstn_all, app_nil_r.
Qed.

(** The six stores of [sdi12_crc_append], on a buffer split at [data_end]. *)
Lemma crc_append_stores d t e0 e1 e2 :
  (6 <= length t)%nat ->
  let n := length d in
  store (store (store (store (store (store (d ++ t) n e0) (n + 1) e1)
    (n + 2) e2) (n + 3) CR) (n + 4) LF) (n + 5) 0
  = d ++ [e0; e1; e2; CR; LF; 0] ++ skipn 6 t.
Proof.
  intros Ht n. subst n.
  destruct t as [|t0 [|t1 [|t2 [|t3 [|t4 [|t5 t]]]]]]; simpl in Ht; try lia.
  repeat (rewrite store_app_r by lia).
  replace (length d - length d)%nat with 0%nat by lia.
  replace (length d + 1 - length d)%nat with 1%nat by lia.
  replace (length d + 2 - length d)%nat with 2%nat by lia.
  replace (length d + 3 - length d)%nat with 3%nat by lia.
  replace (length d + 4 - length d)%nat with 4%nat by lia.
  replace (length d + 5 - length d)%nat with 5%nat by lia.
  reflexivity.
Qed.

(** What [sdi12_crc_append] does to a buffer [d ++ t] once its
    [data_end] is known to be [length d]. *)
Lemma strlen_app_nonzero d t :
  Forall (fun b => b <> 0) d -> strlen (d ++ t) = (length d + strlen t)%nat.
Proof.
  induction 1 as [|b d Hb _ IH]; simpl; auto.
  destruct (Z.eqb_spec b 0); [contradiction|]. now rewrite IH.
Qed.

Lemma crc_verify_appended d crc3 t :
  (1 <= length d)%nat ->
  crc3 = firstn 3 (sdi12_crc_encode_ascii (sdi12_crc16 d (length d))) ->
  sdi12_crc_verify (d ++ crc3 ++ [CR; LF] ++ t) (length d + 5) = true.
Proof.
  intros Hd ->.
  set (e := sdi12_crc_encode_ascii (sdi12_crc16 d (length d))).
  set (b := d ++ firstn 3 e ++ [CR; LF] ++ t).
  assert (Le : forall k, (k < 5)%nat ->
            load b (length d + k) = load (firstn 3 e ++ [CR; LF]) k).
  { intros k Hk. subst b. rewrite load_app_r by lia.
    replace (length d + k - length d)%nat with k by lia.
    rewrite app_assoc. apply load_app_l. subst e. simpl. lia. }
  assert (L4 : load b (length d + 5 - 1) = LF).
  { replace (length d + 5 - 1)%nat with (length d + 4)%nat by lia.
    now rewrite Le by lia. }
  assert (L3 : load b (length d + 5 - 1 - 1) = CR).
  { replace (length d + 5 - 1 - 1)%nat with (length d + 3)%nat by lia.
    now rewrite Le by lia. }
  assert (E : (length d + 5 - 1 - 1 - 3)%nat = length d) by lia.
  assert (L0 : load b (length d) = load e 0).
  { rewrite <- (Nat.add_0_r (length d)). now rewrite Le by lia. }
  assert (L1 : load b (length d + 1) = load e 1) by now rewrite Le by lia.
  assert (L2 : load b (length d + 2) = load e 2) by now rewrite Le by lia.
  assert (Hcrc : sdi12_crc16 b (length d) = sdi12_crc16 d (length d))
    by apply crc16_prefix.
  unfold sdi12_crc_verify. cbv zeta.
  destruct (Nat.ltb_spec (length d + 5) 6); [lia|].
  rewrite L4, Z.eqb_refl.
  destruct (Nat.ltb_spec 0 (length d + 5 - 1)); [|lia].
  rewrite L3, Z.eqb_refl. cbn [andb].
  destruct (Nat.ltb_spec (length d + 5 - 1 - 1) 3); [lia|].
  rewrite E, Hcrc. fold e.
  now rewrite L0, L1, L2, !Z.eqb_refl.
Qed.

(** C6 (amended): for every NUL-terminated string [x] held in a buffer of
    [buflen] bytes whose data part ([x] without a trailing CR LF) has at
    least one byte and fits ([data + 3 CRC + CR LF + NUL <= buflen]),
    [sdi12_crc_append] succeeds, leaves [data || crc3 || CR LF] in the
    buffer, and [sdi12_crc_verify] over the resulting string length
    returns true. *)
Theorem crc_append_verify_roundtrip buf buflen x rest :
  holds_string buf buflen x rest ->
  (1 <= length (strip_crlf x))%nat ->
  (length (strip_crlf x) + 6 <= buflen)%nat ->
  exists buf',
    sdi12_crc_append buf buflen = (SDI12_OK, buf') /\
    cstring buf' =
      strip_crlf x
      ++ firstn 3 (sdi12_crc_encode_ascii
                     (sdi12_crc16 (strip_crlf x) (length (strip_crlf x))))
      ++ [CR; LF] /\
    sdi12_crc_verify buf' (strlen buf') = true.
Proof.
  intros (Hbuf & Hlen & Hnz) Hd Hfit.
  set (d := strip_crlf x) in *.
  (* the buffer splits at the data end *)
  assert (Hsplit : exists t, buf = d ++ t /\ Forall (fun b => b <> 0) d /\
            (if (2 <=? strlen buf)%nat && (load buf (strlen buf - 2) =? CR)
                                      && (load buf (strlen buf - 1) =? LF)
             then (strlen buf - 2)%nat else strlen buf) = length d).
  { subst buf. rewrite strlen_app_nul by assumption.
    subst d. unfold strip_crlf.
    destruct (Nat.leb_spec 2 (length x)) as [H2|H2]; simpl andb.
    - rewrite !load_app_l by lia.
      destruct ((load x (length x - 2) =? CR) && (load x (length x - 1) =? LF)).
      + exists (skipn (length x - 2) x ++ 0 :: rest). split; [|split].
        * now rewrite app_assoc, firstn_skipn.
        * now apply Forall_take.
        * rewrite length_firstn. lia.
      + exists (0 :: rest). auto.
    - exists (0 :: rest). auto. }
  destruct Hsplit as (t & Ht & Hdnz & Hend).
  assert (Htl : (6 <= length t)%nat).
  { rewrite Ht, length_app in Hlen. lia. }
  unfold sdi12_crc_append. rewrite Hend.
  destruct (Nat.ltb_spec buflen (length d + 3 + 2 + 1)); [lia|].
  eexists. split; [reflexivity|].
  rewrite Ht, crc_append_stores by assumption.
  rewrite crc16_prefix.
  set (e := sdi12_crc_encode_ascii _).
  assert (Hstr : strlen (d ++ [load e 0; load e 1; load e 2; CR; LF; 0] ++ skipn 6 t)
                 = (length d + 5)%nat).
  { rewrite strlen_app_nonzero by assumption. f_equal.
    pose proof (crc_encoded_nonzero (sdi12_crc16 d (length d)) 0) as N0.
    pose proof (crc_encoded_nonzero (sdi12_crc16 d (length d)) 1) as N1.
    pose proof (crc_encoded_nonzero (sdi12_crc16 d (length d)) 2) as N2.
    fold e in N0, N1, N2. simpl.
    destruct (Z.eqb_spec (load e 0) 0); [exfalso; apply N0; [lia|assumption]|].
    destruct (Z.eqb_spec (load e 1) 0); [exfalso; apply N1; [lia|assumption]|].
    destruct (Z.eqb_spec (load e 2) 0); [exfalso; apply N2; [lia|assumption]|].
    reflexivity. }
  split.
  - unfold cstring. rewrite Hstr.
    rewrite firstn_app.
    replace (length d + 5 - length d)%nat with 5%nat by lia.
    rewrite firstn_all2 by lia. reflexivity.
  - rewrite Hstr.
    exact (crc_verify_appended d (firstn 3 e) (0 :: skipn 6 t) Hd eq_refl).
Qed.

(* ====================================================================== *)
(** * Sensor engine: addressing, break, measurement_done *)
(* ====================================================================== *)

Lemma blit_app (src : list Z) : forall pre rest,
  (length src <= length rest)%nat ->
  blit (pre ++ rest) (length pre) src = pre ++ src ++ skipn (length src) rest.
Proof.
  induction src as [|b src IH]; intros pre rest Hl; simpl in *.
  - reflexivity.
  - destruct rest as [|r0 rest]; simpl in Hl; [lia|].
    rewrite store_app_r, Nat.sub_diag by lia. simpl.
    change (pre ++ b :: rest) with (pre ++ [b] ++ rest).
    rewrite app_assoc.
    replace (S (length pre)) with (length (pre ++ [b]))
      by (rewrite length_app; simpl; lia).
    rewrite IH by lia. now rewrite <- app_assoc.
Qed.

(** [snprintf] of a text that fits: the text, the NUL, the old tail. *)
Lemma snprintf_fits buf s :
  (length s + 1 <= length buf)%nat ->
  snprintf buf s = s ++ 0 :: skipn (length s + 1) buf.
Proof.
  intros Hl. unfold snprintf.
  rewrite firstn_all2 by lia.
  pose proof (blit_app (s ++ [0]) [] buf) as B. simpl in B.
  rewrite B by (rewrite length_app; simpl; lia).
  rewrite <- app_assoc, length_app. reflexivity.
Qed.

Lemma valid_address_nonzero a : sdi12_valid_address a = true -> a <> 0.
Proof.
  unfold sdi12_valid_address, in_range, ch. simpl. lia.
Qed.

Lemma valid_address_not_query a : sdi12_valid_address a = true -> a <> ch "?".
Proof.
  unfold sdi12_valid_address, in_range, ch. simpl. lia.
Qed.

Lemma valid_address_not_crlf a :
  sdi12_valid_address a = true -> a <> CR /\ a <> LF.
Proof.
  unfold sdi12_valid_address, in_range, ch, CR, LF. simpl. lia.
Qed.

Section SensorProofs.

Context {F Host : Type} {CF : CFloat F}.

#[local] Abbreviation ctx_t := (sdi12_sensor_ctx_t F Host).
#[local] Abbreviation world_t := (world F Host).

Lemma send_response_ctx (w : world_t) : w_ctx (send_response w) = w_ctx w.
Proof. unfold send_response. now destruct (cb_send_response _). Qed.

(** What [send_response] adds to the trace of a ready sensor. *)
Lemma send_response_trace (w : world_t) :
  is_null (cb_send_response (cb (w_ctx w))) = false ->
  resp_len (w_ctx w) = O ->
  w_trace (send_response w) = w_trace w ++ [EvSend (cstring (resp_buf (w_ctx w)))].
Proof.
  intros Hcb Hlen. unfold send_response.
  destruct (cb_send_response _); [|discriminate]. simpl. now rewrite Hlen.
Qed.

Lemma acknowledge_reply (w : world_t) :
  sensor_ready (w_ctx w) = true ->
  resp_len (w_ctx w) = O ->
  w_trace (snd (handle_acknowledge w))
  = w_trace w ++ [EvSend [address (w_ctx w); CR; LF]].
Proof.
  unfold sensor_ready. intros R Hlen.
  apply andb_prop in R. destruct R as [R Hbuf].
  apply andb_prop in R. destruct R as [Hva Hcb].
  apply negb_true_iff in Hcb. apply Nat.eqb_eq in Hbuf.
  unfold handle_acknowledge. cbn [snd].
  rewrite send_response_trace; [| exact Hcb | exact Hlen ].
  do 3 f_equal. unfold resp_printf, with_ctx. cbn [w_ctx resp_buf set_resp_buf].
  rewrite snprintf_fits by (rewrite Hbuf; simpl; unfold SDI12_MAX_RESPONSE_LEN; lia).
  unfold cstring, CRLF. cbn [app strlen].
  pose proof (valid_address_nonzero _ Hva) as Hnz.
  destruct (Z.eqb_spec (address (w_ctx w)) 0); [contradiction|].
  reflexivity.
Qed.

(** The early return of [sdi12_sensor_process]. *)
Lemma process_unaddressed (w : world_t) (cmd : list Z) (len : nat) :
  (1 <= stripped_len cmd len)%nat ->
  load cmd 0 <> address (w_ctx w) ->
  is_query cmd len = false ->
  sdi12_sensor_process w cmd len
  = (SDI12_ERR_NOT_ADDRESSED, with_ctx (set_resp_len 0) w).
Proof.
  unfold is_query, stripped_len, sdi12_sensor_process. intros Hlen Ha Hq.
  destruct (Nat.eqb_spec len 0) as [->|Hl0].
  { simpl in Hlen. destruct (load cmd 0 =? ch "!"); simpl in Hlen; lia. }
  set (cmdlen := if load cmd (len - 1) =? ch "!" then (len - 1)%nat else len) in *.
  destruct (Nat.eqb_spec cmdlen 0) as [E|_]; [lia|].
  cbn [w_ctx with_ctx address set_resp_len].
  destruct (Z.eqb_spec (load cmd 0) (address (w_ctx w))) as [E|_]; [contradiction|].
  rewrite Hq. reflexivity.
Qed.

(** C1 (amended): every command buffer that is not empty once a trailing
    ['!'] is stripped, and whose first byte is neither the sensor's
    address nor the one-byte wildcard [?], gets [SDI12_ERR_NOT_ADDRESSED];
    [send_response] is not called (the trace and the host are as before)
    and the state, address, data cache, [data_available] and both
    registration tables are unchanged. *)
Theorem unaddressed_command_is_silent (w : world_t) (cmd : list Z) (len : nat) :
  (1 <= stripped_len cmd len)%nat ->
  load cmd 0 <> address (w_ctx w) ->
  is_query cmd len = false ->
  let r := sdi12_sensor_process w cmd len in
  let c := w_ctx w in
  let c' := w_ctx (snd r) in
  fst r = SDI12_ERR_NOT_ADDRESSED /\
  w_trace (snd r) = w_trace w /\ sent (snd r) = sent w /\
  w_host (snd r) = w_host w /\
  state c' = state c /\ address c' = address c /\
  data_cache c' = data_cache c /\ data_cache_count c' = data_cache_count c /\
  data_available c' = data_available c /\
  params c' = params c /\ param_count c' = param_count c /\
  xcmds c' = xcmds c /\ xcmd_count c' = xcmd_count c.
Proof.
  intros H1 H2 H3. cbv zeta.
  rewrite (process_unaddressed w cmd len H1 H2 H3).
  repeat split.
Qed.

(** The remaining unaddressed buffers (nothing but ['!'], or no byte at
    all) are rejected as invalid, just as silently. *)
Lemma empty_command_is_invalid (w : world_t) (cmd : list Z) (len : nat) :
  stripped_len cmd len = O ->
  let r := sdi12_sensor_process w cmd len in
  fst r = SDI12_ERR_INVALID_COMMAND /\
  w_trace (snd r) = w_trace w /\ w_host (snd r) = w_host w /\
  (w_ctx (snd r) = w_ctx w \/ w_ctx (snd r) = set_resp_len 0 (w_ctx w)).
Proof.
  unfold stripped_len, sdi12_sensor_process. intros E. cbv zeta.
  destruct (Nat.eqb_spec len 0) as [->|Hl0]; [simpl; auto|].
  rewrite E. simpl. auto.
Qed.

(** C2 (amended): [sdi12_sensor_break] always ends in [Ready] and keeps
    the address and both registration tables; it clears [data_available]
    (and the cache count) when a measurement was pending ([Measuring],
    [MeasuringConcurrent]) and leaves them as they are otherwise. *)
Theorem break_resets_to_ready (c : ctx_t) :
  let c' := sdi12_sensor_break c in
  state c' = SDI12_STATE_READY /\
  address c' = address c /\
  params c' = params c /\ param_count c' = param_count c /\
  xcmds c' = xcmds c /\ xcmd_count c' = xcmd_count c /\
  match state c with
  | SDI12_STATE_MEASURING | SDI12_STATE_MEASURING_C =>
      data_available c' = false /\ data_cache_count c' = O
  | _ =>
      data_available c' = data_available c /\
      data_cache_count c' = data_cache_count c
  end.
Proof.
  unfold sdi12_sensor_break. destruct (state c); cbn; repeat split.
Qed.

(** C4 (amended): outside [Measuring] and [MeasuringConcurrent],
    [sdi12_sensor_measurement_done] changes neither the state nor the
    bus (no response, no service request), but it does store the values:
    the cache takes the first [min count SDI12_MAX_PARAMS] of them, the
    count becomes that number and [data_available] becomes true. *)
Theorem measurement_done_when_idle (w : world_t) (values : list (sdi12_value_t F))
                                   (count : nat) :
  state (w_ctx w) <> SDI12_STATE_MEASURING ->
  state (w_ctx w) <> SDI12_STATE_MEASURING_C ->
  let r := sdi12_sensor_measurement_done w values count in
  let n := Nat.min count SDI12_MAX_PARAMS in
  fst r = SDI12_OK /\
  state (w_ctx (snd r)) = state (w_ctx w) /\
  w_trace (snd r) = w_trace w /\ w_host (snd r) = w_host w /\
  data_cache (w_ctx (snd r)) = copy_values (data_cache (w_ctx w)) values n /\
  data_cache_count (w_ctx (snd r)) = n /\
  data_available (w_ctx (snd r)) = true.
Proof.
  intros H1 H2. cbv zeta. unfold sdi12_sensor_measurement_done.
  assert (E : (if (SDI12_MAX_PARAMS <? count)%nat then SDI12_MAX_PARAMS else count)
              = Nat.min count SDI12_MAX_PARAMS).
  { destruct (Nat.ltb_spec SDI12_MAX_PARAMS count); lia. }
  rewrite E. cbn [w_ctx with_ctx state set_data_cache set_data_cache_count
                  set_data_available set_resp_len].
  destruct (state (w_ctx w)) eqn:Es; try congruence; cbn; rewrite ?Es; repeat split.
Qed.

(** An addressed command: the abort of a concurrent measurement, then
    the dispatch. *)
Lemma process_addressed (w : world_t) (cmd : list Z) (len : nat) :
  (1 <= stripped_len cmd len)%nat ->
  load cmd 0 = address (w_ctx w) ->
  sdi12_sensor_process w cmd len
  = dispatch_command
      (match state (w_ctx w) with
       | SDI12_STATE_MEASURING_C =>
           with_ctx abort_concurrent (with_ctx (set_resp_len 0) w)
       | _ => with_ctx (set_resp_len 0) w
       end) cmd (stripped_len cmd len).
Proof.
  unfold stripped_len, sdi12_sensor_process. intros Hlen Ha.
  destruct (Nat.eqb_spec len 0) as [->|Hl0].
  { simpl in Hlen. destruct (load cmd 0 =? ch "!"); simpl in Hlen; lia. }
  set (cmdlen := if load cmd (len - 1) =? ch "!" then (len - 1)%nat else len) in *.
  destruct (Nat.eqb_spec cmdlen 0) as [E|_]; [lia|].
  cbn [w_ctx with_ctx address set_resp_len state].
  rewrite Ha, Z.eqb_refl. cbn [negb andb].
  destruct (state (w_ctx w)); reflexivity.
Qed.

(** The wildcard query sent to a sensor whose address is not [?]. *)
Lemma process_query (w : world_t) (cmd : list Z) (len : nat) :
  load cmd 0 <> address (w_ctx w) ->
  is_query cmd len = true ->
  sdi12_sensor_process w cmd len = handle_acknowledge (with_ctx (set_resp_len 0) w).
Proof.
  unfold is_query, stripped_len, sdi12_sensor_process. intros Ha Hq.
  apply andb_prop in Hq. destruct Hq as [Hl Hq].
  destruct (Nat.eqb_spec len 0) as [->|Hl0].
  { simpl in Hl. destruct (load cmd 0 =? ch "!"); discriminate Hl. }
  set (cmdlen := if load cmd (len - 1) =? ch "!" then (len - 1)%nat else len) in *.
  apply Nat.eqb_eq in Hl. rewrite Hl. cbn [Nat.eqb].
  cbn [w_ctx with_ctx address set_resp_len state].
  destruct (Z.eqb_spec (load cmd 0) (address (w_ctx w))) as [E|_]; [contradiction|].
  rewrite Hq. cbn [negb andb]. unfold dispatch_command. reflexivity.
Qed.

Lemma acknowledge_ctx (w : world_t) :
  w_ctx (snd (handle_acknowledge w))
  = set_resp_buf (snprintf (resp_buf (w_ctx w)) (address (w_ctx w) :: CRLF)) (w_ctx w).
Proof.
  unfold handle_acknowledge. cbn [snd]. now rewrite send_response_ctx.
Qed.

(** C10: the wildcard query ["?!"] received in [MeasuringConcurrent] is
    answered with [address CR LF] and leaves the state, [data_available]
    and the cache count alone; no command whose first byte differs from
    the sensor's address changes them; a command that does start with the
    address is run from the aborted context ([Ready], no data), so the
    acknowledge ["a!"] ends in [Ready]. *)
Theorem wildcard_query_keeps_concurrent (w : world_t) :
  sensor_ready (w_ctx w) = true ->
  state (w_ctx w) = SDI12_STATE_MEASURING_C ->
  let c := w_ctx w in
  let q := sdi12_sensor_process w (bytes_of_string "?!") 2 in
  (fst q = SDI12_OK /\
   w_trace (snd q) = w_trace w ++ [EvSend [address c; CR; LF]] /\
   state (w_ctx (snd q)) = SDI12_STATE_MEASURING_C /\
   data_available (w_ctx (snd q)) = data_available c /\
   data_cache_count (w_ctx (snd q)) = data_cache_count c) /\
  (forall cmd len,
     load cmd 0 <> address c ->
     let r := sdi12_sensor_process w cmd len in
     state (w_ctx (snd r)) = SDI12_STATE_MEASURING_C /\
     data_available (w_ctx (snd r)) = data_available c /\
     data_cache_count (w_ctx (snd r)) = data_cache_count c) /\
  (forall cmd len,
     (1 <= stripped_len cmd len)%nat ->
     load cmd 0 = address c ->
     sdi12_sensor_process w cmd len
     = dispatch_command (with_ctx abort_concurrent (with_ctx (set_resp_len 0) w))
                        cmd (stripped_len cmd len)) /\
  (let a := sdi12_sensor_process w [address c; ch "!"] 2 in
   state (w_ctx (snd a)) = SDI12_STATE_READY /\
   data_available (w_ctx (snd a)) = false /\
   data_cache_count (w_ctx (snd a)) = O).
Proof.
  intros Hr Hst. cbv zeta.
  assert (Hva : sdi12_valid_address (address (w_ctx w)) = true).
  { unfold sensor_ready in Hr. apply andb_prop in Hr. destruct Hr as [Hr _].
    apply andb_prop in Hr. tauto. }
  pose proof (valid_address_not_query _ Hva) as Hnq.
  assert (Hframe : forall cmd len,
     load cmd 0 <> address (w_ctx w) ->
     state (w_ctx (snd (sdi12_sensor_process w cmd len))) = SDI12_STATE_MEASURING_C /\
     data_available (w_ctx (snd (sdi12_sensor_process w cmd len)))
       = data_available (w_ctx w) /\
     data_cache_count (w_ctx (snd (sdi12_sensor_process w cmd len)))
       = data_cache_count (w_ctx w)).
  { intros cmd len Ha.
    destruct (is_query cmd len) eqn:Hq.
    - rewrite (process_query w cmd len Ha Hq), acknowledge_ctx. cbn. auto.
    - destruct (Nat.eq_dec (stripped_len cmd len) 0) as [E|E].
      + destruct (empty_command_is_invalid w cmd len E) as (_ & _ & _ & [-> | ->]);
          cbn; auto.
      + rewrite (process_unaddressed w cmd len) by (assumption || lia). cbn. auto. }
  split; [|split; [|split]].
  - assert (Ha : load (bytes_of_string "?!") 0 <> address (w_ctx w))
      by (intro E; apply Hnq; now rewrite <- E).
    destruct (Hframe (bytes_of_string "?!") 2%nat Ha) as (S1 & S2 & S3).
    repeat split; try assumption.
    + now rewrite (process_query w _ 2 Ha eq_refl).
    + rewrite (process_query w _ 2 Ha eq_refl).
      now rewrite acknowledge_reply.
  - exact Hframe.
  - intros cmd len Hl Ha. rewrite (process_addressed w cmd len Hl Ha).
    now rewrite Hst.
  - assert (Hl : (1 <= stripped_len [address (w_ctx w); ch "!"] 2)%nat)
      by (unfold stripped_len; simpl; lia).
    rewrite (process_addressed w _ 2 Hl eq_refl), Hst.
    unfold stripped_len. cbn [load nth Nat.sub]. rewrite Z.eqb_refl.
    unfold dispatch_command. cbn [Nat.sub Nat.eqb].
    rewrite acknowledge_ctx. cbn. auto.
Qed.

End SensorProofs.

(* ====================================================================== *)
(** * Master engine *)
(* ====================================================================== *)

Lemma load_store_other {buf : list Z} i j v :
  i <> j -> load (store buf i v) j = load buf j.
Proof.
  unfold load. revert i j; induction buf as [|b r IH]; intros [|i] [|j] H;
    simpl; auto; try congruence.
Qed.

Lemma blit_at_0 buf src :
  (length src <= length buf)%nat ->
  blit buf 0 src = src ++ skipn (length src) buf.
Proof. intros H. exact (blit_app src [] buf H). Qed.

(* ====================================================================== *)
(** * Sensor engine: the bounds on the parameter table and the data cache *)
(* ====================================================================== *)

Section SensorCounts.

Context {F Host : Type} {CF : CFloat F}.

#[local] Abbreviation ctx_t := (sdi12_sensor_ctx_t F Host).
#[local] Abbreviation world_t := (world F Host).

Lemma counts_step_refl (c : ctx_t) : counts_step c c.
Proof. split; auto. Qed.

Lemma counts_step_trans (c1 c2 c3 : ctx_t) :
  counts_step c1 c2 -> counts_step c2 c3 -> counts_step c1 c3.
Proof.
  unfold counts_step. intros [P1 D1] [P2 D2]. split; [congruence|].
  destruct D2 as [D2|D2]; [rewrite D2; exact D1|].
  right. rewrite <- P1. exact D2.
Qed.

Lemma counts_step_keeps_le (c c' : ctx_t) :
  counts_step c c' -> cache_le_params c -> cache_le_params c'.
Proof. unfold counts_step, cache_le_params. intros [P [D|D]] [H1 H2]; lia. Qed.

Lemma counts_step_keeps_bounded (c c' : ctx_t) :
  counts_step c c' -> counts_bounded c -> counts_bounded c'.
Proof. unfold counts_step, counts_bounded. intros [P [D|D]] [H1 H2]; lia. Qed.

(** [collect_group_indices] yields at most [max] indices, and no more
    than there are parameters. *)
Lemma collect_group_indices_length (c : ctx_t) grp max :
  (length (collect_group_indices c grp max) <= max)%nat /\
  (length (collect_group_indices c grp max) <= param_count c)%nat.
Proof.
  unfold collect_group_indices.
  assert (G : forall l (acc : list nat),
            let r := fold_left (fun acc i =>
                        if (length acc <? max)%nat && in_group c grp i
                        then acc ++ [i] else acc) l acc in
            (length r <= Nat.max (length acc) max)%nat /\
            (length r <= length acc + length l)%nat).
  { induction l as [|i l IH]; intros acc; simpl; [lia|].
    destruct (Nat.ltb_spec (length acc) max) as [Hlt|Hge]; cbn [andb].
    - destruct (in_group c grp i).
      + specialize (IH (acc ++ [i])). cbv zeta in IH.
        rewrite length_app in IH. simpl in IH. lia.
      + specialize (IH acc). cbv zeta in IH. lia.
    - specialize (IH acc). cbv zeta in IH. lia. }
  specialize (G (seq 0 (param_count c)) []). cbv zeta in G.
  rewrite length_seq in G. simpl in G. lia.
Qed.

Lemma read_one_counts (w : world_t) idx :
  param_count (w_ctx (read_one w idx)) = param_count (w_ctx w) /\
  cb (w_ctx (read_one w idx)) = cb (w_ctx w) /\
  (data_cache_count (w_ctx (read_one w idx)) <= S (data_cache_count (w_ctx w)))%nat /\
  (data_cache_count (w_ctx (read_one w idx))
   <= Nat.max (data_cache_count (w_ctx w)) SDI12_MAX_PARAMS)%nat.
Proof.
  unfold read_one.
  destruct (Nat.ltb_spec (data_cache_count (w_ctx w)) SDI12_MAX_PARAMS).
  - destruct (cb_read_param (cb (w_ctx w))); simpl_ctx; repeat split; lia.
  - repeat split; lia.
Qed.

Lemma read_group_sync_counts (w : world_t) grp :
  param_count (w_ctx (read_group_sync w grp)) = param_count (w_ctx w) /\
  (data_cache_count (w_ctx (read_group_sync w grp)) <= param_count (w_ctx w))%nat /\
  (data_cache_count (w_ctx (read_group_sync w grp)) <= SDI12_MAX_PARAMS)%nat.
Proof.
  unfold read_group_sync.
  destruct (collect_group_indices_length (w_ctx w) grp SDI12_MAX_PARAMS) as [L1 L2].
  set (idx := collect_group_indices (w_ctx w) grp SDI12_MAX_PARAMS) in *.
  assert (G : forall l (v : world_t),
            let r := fold_left read_one l v in
            param_count (w_ctx r) = param_count (w_ctx v) /\
            (data_cache_count (w_ctx r) <= data_cache_count (w_ctx v) + length l)%nat /\
            (data_cache_count (w_ctx r)
             <= Nat.max (data_cache_count (w_ctx v)) SDI12_MAX_PARAMS)%nat).
  { induction l as [|i l IH]; intros v; simpl; [lia|].
    specialize (IH (read_one v i)). cbv zeta in IH.
    destruct (read_one_counts v i) as (R1 & _ & R2 & R3). lia. }
  specialize (G idx (with_ctx (set_data_cache_count 0) w)). cbv zeta in G.
  simpl_ctx. lia.
Qed.

Lemma read_group_sync_step (w : world_t) grp :
  counts_step (w_ctx w) (w_ctx (read_group_sync w grp)).
Proof.
  destruct (read_group_sync_counts w grp) as (P & D1 & D2).
  split; [exact P | right; split; assumption].
Qed.

Ltac same_counts :=
  unfold counts_step; simpl_ctx; rewrite ?send_response_ctx; simpl_ctx;
  split; [reflexivity | left; reflexivity].

Ltac after_read_group_sync :=
  unfold counts_step; simpl_ctx; rewrite ?send_response_ctx; simpl_ctx;
  match goal with
  | |- context [read_group_sync ?v ?g] =>
      let P := fresh "P" in let D1 := fresh "D" in let D2 := fresh "D" in
      destruct (read_group_sync_counts v g) as (P & D1 & D2);
      simpl_ctx; split; [exact P | right; split; assumption]
  end.

Lemma reply_address_only_ctx (crc : bool) (w : world_t) :
  counts_step (w_ctx w) (w_ctx (reply_address_only crc w)).
Proof. unfold reply_address_only. destruct crc; same_counts. Qed.

Lemma handle_measurement_step (w : world_t) grp crc type :
  counts_step (w_ctx w) (w_ctx (snd (handle_measurement w grp crc type))).
Proof.
  unfold handle_measurement.
  destruct (count_group _ grp =? 0)%nat.
  { destruct (is_std_or_verif type); same_counts. }
  simpl_ctx.
  destruct (cb_start_measurement (cb (w_ctx w))) as [start|].
  - destruct (start grp type (w_host w)) as [t h]. simpl_ctx.
    set (ttt := if 999 <? t mod 65536 then 999 else t mod 65536).
    destruct (ttt =? 0); destruct type; first [ same_counts | after_read_group_sync ].
  - destruct type; after_read_group_sync.
Qed.

Lemma send_empty_packet_step (w : world_t) :
  counts_step (w_ctx w) (w_ctx (snd (send_empty_packet w))).
Proof. unfold send_empty_packet. same_counts. Qed.

Lemma handle_send_binary_data_step (w : world_t) page :
  counts_step (w_ctx w) (w_ctx (snd (handle_send_binary_data w page))).
Proof.
  unfold handle_send_binary_data.
  destruct (cb_format_binary_page (cb (w_ctx w))) as [fmt|];
    [|apply send_empty_packet_step].
  destruct (negb (data_available (w_ctx w))); [apply send_empty_packet_step|].
  destruct (fst (fst _) =? 0)%nat.
  - apply (counts_step_trans _ (w_ctx (with_host
             (snd (fmt page (data_cache (w_ctx w)) (data_cache_count (w_ctx w))
                       (store (repeat 0 SDI12_MAX_RESPONSE_LEN) 0 (address (w_ctx w)))
                       (w_host w))) w)));
      [same_counts | apply send_empty_packet_step].
  - same_counts.
Qed.

Lemma handle_send_data_step (w : world_t) page :
  counts_step (w_ctx w) (w_ctx (snd (handle_send_data w page))).
Proof.
  unfold handle_send_data.
  destruct (negb (data_available (w_ctx w))).
  { simpl_ctx. rewrite send_response_ctx. apply reply_address_only_ctx. }
  destruct (pending_meas_type (w_ctx w));
    destruct (cb_format_binary_page (cb (w_ctx w))) as [fmt|];
    try same_counts.
  destruct (crc_requested (w_ctx w)); same_counts.
Qed.

Lemma handle_continuous_step (w : world_t) index crc :
  counts_step (w_ctx w) (w_ctx (snd (handle_continuous w index crc))).
Proof.
  unfold handle_continuous.
  destruct (count_group _ index =? 0)%nat.
  - simpl_ctx. rewrite send_response_ctx.
    eapply counts_step_trans; [|apply reply_address_only_ctx]. same_counts.
  - after_read_group_sync.
Qed.

Lemma handle_change_address_step (w : world_t) a :
  counts_step (w_ctx w) (w_ctx (snd (handle_change_address w a))).
Proof.
  unfold handle_change_address.
  destruct (negb (sdi12_valid_address a)); [same_counts|].
  simpl_ctx. destruct (cb_save_address (cb (w_ctx w))); same_counts.
Qed.

Lemma handle_identify_measurement_step (w : world_t) cmd len :
  counts_step (w_ctx w) (w_ctx (snd (handle_identify_measurement w cmd len))).
Proof.
  unfold handle_identify_measurement.
  destruct (len <? 3)%nat; [same_counts|].
  destruct (memchr cmd 2 (ch "_") (len - 2)) as [us|].
  - simpl_ctx. rewrite send_response_ctx.
    match goal with |- context [if ?b then _ else reply_address_only _ _] =>
      destruct b end.
    + destruct (memchr cmd 2 (ch "C") (us - 2)); same_counts.
    + apply reply_address_only_ctx.
  - simpl_ctx. rewrite send_response_ctx.
    repeat match goal with |- context [if ?b then _ else _] => destruct b end;
      same_counts.
Qed.

Lemma xcmd_dispatch_step cmd len : forall slots (w : world_t) r,
  xcmd_dispatch slots w cmd len = Some r ->
  counts_step (w_ctx w) (w_ctx (snd r)).
Proof.
  induction slots as [|i slots IH]; intros w r; simpl; [discriminate|].
  destruct (handler (nth i (xcmds (w_ctx w)) zero_xcmd)) as [h|]; [|apply IH].
  match goal with |- context [if ?b then _ else _] => destruct b end; [|apply IH].
  destruct (fst (fst _)); intros E; inversion E; subst r; same_counts.
Qed.

Lemma handle_extended_step (w : world_t) cmd len :
  counts_step (w_ctx w) (w_ctx (snd (handle_extended w cmd len))).
Proof.
  unfold handle_extended.
  destruct (xcmd_dispatch _ w cmd len) as [r|] eqn:E.
  - exact (xcmd_dispatch_step cmd len _ w r E).
  - same_counts.
Qed.

Lemma dispatch_command_step (w : world_t) cmd cmdlen :
  counts_step (w_ctx w) (w_ctx (snd (dispatch_command w cmd cmdlen))).
Proof.
  unfold dispatch_command.
  repeat match goal with
         | |- context [if ?b then _ else _] => destruct b
         end;
    first [ apply handle_measurement_step
          | apply handle_send_binary_data_step
          | apply handle_send_data_step
          | apply handle_continuous_step
          | apply handle_change_address_step
          | apply handle_identify_measurement_step
          | apply handle_extended_step
          | unfold handle_acknowledge, handle_identify, handle_highvol_stub;
            same_counts ].
Qed.

Lemma process_step (w : world_t) cmd len :
  counts_step (w_ctx w) (w_ctx (snd (sdi12_sensor_process w cmd len))).
Proof.
  unfold sdi12_sensor_process.
  destruct (len =? 0)%nat; [same_counts|].
  match goal with |- context [if (?n =? 0)%nat then _ else _] => destruct (n =? 0)%nat end;
    [same_counts|].
  match goal with |- context [if ?b then (SDI12_ERR_NOT_ADDRESSED, _) else _] =>
    destruct b end; [same_counts|].
  eapply counts_step_trans; [|apply dispatch_command_step].
  simpl_ctx.
  destruct (load cmd 0 =? address (w_ctx w)); [|same_counts].
  destruct (state (w_ctx w)); try same_counts.
  unfold counts_step, SDI12_MAX_PARAMS. simpl_ctx. split; [reflexivity|right; lia].
Qed.

(** C5 (amended): after [sdi12_sensor_init] both counts are zero, so
    [data_cache_count <= param_count <= SDI12_MAX_PARAMS];
    [sdi12_sensor_register_param], [sdi12_sensor_process] and
    [sdi12_sensor_break] keep that chain; every operation, including
    [sdi12_sensor_measurement_done] with any [count], keeps both counts
    within [SDI12_MAX_PARAMS]. *)
Theorem counts_stay_bounded :
  (forall (w : world_t) a id cbs,
     fst (sdi12_sensor_init w a id cbs) = SDI12_OK ->
     cache_le_params (w_ctx (snd (sdi12_sensor_init w a id cbs)))) /\
  (forall (c : ctx_t) grp shef_ units_ d,
     (cache_le_params c ->
      cache_le_params (snd (sdi12_sensor_register_param c grp shef_ units_ d))) /\
     (counts_bounded c ->
      counts_bounded (snd (sdi12_sensor_register_param c grp shef_ units_ d)))) /\
  (forall (w : world_t) cmd len,
     (cache_le_params (w_ctx w) ->
      cache_le_params (w_ctx (snd (sdi12_sensor_process w cmd len)))) /\
     (counts_bounded (w_ctx w) ->
      counts_bounded (w_ctx (snd (sdi12_sensor_process w cmd len))))) /\
  (forall (c : ctx_t),
     (cache_le_params c -> cache_le_params (sdi12_sensor_break c)) /\
     (counts_bounded c -> counts_bounded (sdi12_sensor_break c))) /\
  (forall (w : world_t) values count,
     counts_bounded (w_ctx w) ->
     counts_bounded (w_ctx (snd (sdi12_sensor_measurement_done w values count)))).
Proof.
  split; [|split; [|split; [|split]]].
  - intros w a id cbs. unfold sdi12_sensor_init, cache_le_params, SDI12_MAX_PARAMS.
    destruct (_ || _ || _); [discriminate|].
    destruct (negb (sdi12_valid_address a)); [discriminate|]. intros _.
    destruct (cb_load_address cbs) as [ld|]; simpl_ctx; [|lia].
    destruct (sdi12_valid_address (fst (ld (w_host w)))); simpl_ctx; lia.
  - intros c grp shef_ units_ d.
    unfold sdi12_sensor_register_param, cache_le_params, counts_bounded.
    destruct (Nat.leb_spec SDI12_MAX_PARAMS (param_count c)); simpl_ctx; [tauto|].
    destruct (SDI12_MAX_MEAS_GROUPS <=? grp)%nat; simpl_ctx; [tauto|]. lia.
  - intros w cmd len. split; intros H.
    + exact (counts_step_keeps_le _ _ (process_step w cmd len) H).
    + exact (counts_step_keeps_bounded _ _ (process_step w cmd len) H).
  - intros c. unfold sdi12_sensor_break, cache_le_params, counts_bounded.
    destruct (state c); simpl_ctx; split; intros; lia.
  - intros w values count. unfold sdi12_sensor_measurement_done, counts_bounded.
    simpl_ctx. intros [H1 H2].
    assert (E : ((if (SDI12_MAX_PARAMS <? count)%nat then SDI12_MAX_PARAMS else count)
                 <= SDI12_MAX_PARAMS)%nat).
    { destruct (Nat.ltb_spec SDI12_MAX_PARAMS count); lia. }
    destruct (state (w_ctx w)); simpl_ctx; try (split; assumption).
    destruct (cb_service_request (cb (w_ctx w))); simpl_ctx;
      rewrite ?send_response_ctx; simpl_ctx; split; assumption.
Qed.

End SensorCounts.

(* ====================================================================== *)
(** * Sensor engine: data requests after a high-volume binary measurement *)
(* ====================================================================== *)

Section SensorData.

Context {F Host : Type} {CF : CFloat F}.

#[local] Abbreviation ctx_t := (sdi12_sensor_ctx_t F Host).
#[local] Abbreviation world_t := (world F Host).

(** The pending measurement type is not looked at by [send_response]. *)
Lemma send_response_pending (t : sdi12_meas_type_t) (w : world_t) :
  send_response (with_ctx (set_pending_meas_type t) w)
  = with_ctx (set_pending_meas_type t) (send_response w).
Proof.
  unfold send_response. simpl_ctx.
  destruct (cb_send_response (cb (w_ctx w))); reflexivity.
Qed.

Lemma handle_acknowledge_pending (t : sdi12_meas_type_t) (w : world_t) :
  handle_acknowledge (with_ctx (set_pending_meas_type t) w)
  = (fst (handle_acknowledge w),
     with_ctx (set_pending_meas_type t) (snd (handle_acknowledge w))).
Proof.
  unfold handle_acknowledge. simpl_ctx.
  now rewrite <- send_response_pending.
Qed.

Lemma send_empty_packet_pending (t : sdi12_meas_type_t) (w : world_t) :
  send_empty_packet (with_ctx (set_pending_meas_type t) w)
  = (fst (send_empty_packet w),
     with_ctx (set_pending_meas_type t) (snd (send_empty_packet w))).
Proof.
  unfold send_empty_packet. simpl_ctx.
  now rewrite <- send_response_pending.
Qed.

(** Without the hook, the binary data request is the empty packet. *)
Lemma handle_send_binary_data_no_hook (w : world_t) page :
  cb_format_binary_page (cb (w_ctx w)) = None ->
  handle_send_binary_data w page = send_empty_packet w.
Proof. unfold handle_send_binary_data. now intros ->. Qed.

(** Without the hook, [handle_send_data] after a high-volume binary
    measurement takes the ASCII path with the 35-character budget. *)
Lemma handle_send_data_no_hook (w : world_t) page :
  pending_meas_type (w_ctx w) = SDI12_MEAS_HIGHVOL_BINARY ->
  cb_format_binary_page (cb (w_ctx w)) = None ->
  handle_send_data w page
  = (SDI12_OK,
     send_response
       (if negb (data_available (w_ctx w))
        then reply_address_only (crc_requested (w_ctx w)) w
        else with_ctx (fun c => snd (format_data_page c page SDI12_M_VALUES_MAX_CHARS)) w)).
Proof.
  unfold handle_send_data. intros -> ->.
  destruct (negb (data_available (w_ctx w))); reflexivity.
Qed.

Lemma handle_send_data_standard (w : world_t) page :
  pending_meas_type (w_ctx w) = SDI12_MEAS_STANDARD ->
  handle_send_data w page
  = (SDI12_OK,
     send_response
       (if negb (data_available (w_ctx w))
        then reply_address_only (crc_requested (w_ctx w)) w
        else with_ctx (fun c => snd (format_data_page c page SDI12_M_VALUES_MAX_CHARS)) w)).
Proof.
  unfold handle_send_data. intros ->.
  destruct (negb (data_available (w_ctx w))); reflexivity.
Qed.

Lemma handle_send_data_as_standard (w : world_t) page :
  pending_meas_type (w_ctx w) = SDI12_MEAS_HIGHVOL_BINARY ->
  cb_format_binary_page (cb (w_ctx w)) = None ->
  handle_send_data (with_ctx (set_pending_meas_type SDI12_MEAS_STANDARD) w) page
  = (fst (handle_send_data w page),
     with_ctx (set_pending_meas_type SDI12_MEAS_STANDARD) (snd (handle_send_data w page))).
Proof.
  intros Hp Hh.
  rewrite (handle_send_data_no_hook w page Hp Hh).
  rewrite handle_send_data_standard by reflexivity.
  simpl_ctx. f_equal.
  rewrite <- send_response_pending. f_equal.
  destruct (negb (data_available (w_ctx w))).
  - unfold reply_address_only. destruct (crc_requested (w_ctx w)); reflexivity.
  - reflexivity.
Qed.

Lemma dispatch_data_request_as_standard (w : world_t) cmd cmdlen :
  pending_meas_type (w_ctx w) = SDI12_MEAS_HIGHVOL_BINARY ->
  cb_format_binary_page (cb (w_ctx w)) = None ->
  load cmd 1 = ch "D" ->
  dispatch_command (with_ctx (set_pending_meas_type SDI12_MEAS_STANDARD) w) cmd cmdlen
  = (fst (dispatch_command w cmd cmdlen),
     with_ctx (set_pending_meas_type SDI12_MEAS_STANDARD)
              (snd (dispatch_command w cmd cmdlen))).
Proof.
  intros Hp Hh Hd. unfold dispatch_command. rewrite Hd.
  destruct (cmdlen =? 1)%nat; [apply handle_acknowledge_pending|].
  change (ch "D" =? ch "I") with false. change (ch "D" =? ch "M") with false.
  change (ch "D" =? ch "C") with false. change (ch "D" =? ch "D") with true.
  cbv iota.
  destruct (3 <=? cmdlen)%nat; [|reflexivity].
  destruct (load cmd 2 =? ch "B").
  - rewrite !handle_send_binary_data_no_hook by assumption.
    apply send_empty_packet_pending.
  - now apply handle_send_data_as_standard.
Qed.

(** A data request is processed the same way whether the pending type is
    [HighVolBinary] without hook or [Standard]. *)
Lemma process_data_request_as_standard (w : world_t) cmd len :
  pending_meas_type (w_ctx w) = SDI12_MEAS_HIGHVOL_BINARY ->
  cb_format_binary_page (cb (w_ctx w)) = None ->
  load cmd 1 = ch "D" ->
  sdi12_sensor_process (with_ctx (set_pending_meas_type SDI12_MEAS_STANDARD) w) cmd len
  = (fst (sdi12_sensor_process w cmd len),
     with_ctx (set_pending_meas_type SDI12_MEAS_STANDARD)
              (snd (sdi12_sensor_process w cmd len))).
Proof.
  intros Hp Hh Hd. unfold sdi12_sensor_process.
  destruct (len =? 0)%nat; [reflexivity|].
  match goal with |- context [if (?n =? 0)%nat then _ else _] => destruct (n =? 0)%nat end;
    [reflexivity|].
  simpl_ctx.
  match goal with |- context [if ?b then (SDI12_ERR_NOT_ADDRESSED, _) else _] =>
    destruct b end; [reflexivity|].
  destruct (load cmd 0 =? address (w_ctx w));
    [destruct (state (w_ctx w))|];
    match goal with
    | |- _ = (fst (dispatch_command ?v _ _), _) =>
        exact (dispatch_data_request_as_standard v cmd _ Hp Hh Hd)
    end.
Qed.

Lemma sensor_ready_parts (c : ctx_t) :
  sensor_ready c = true ->
  sdi12_valid_address (address c) = true /\
  is_null (cb_send_response (cb c)) = false /\
  length (resp_buf c) = SDI12_MAX_RESPONSE_LEN.
Proof.
  unfold sensor_ready. intros R.
  apply andb_prop in R. destruct R as [R Hbuf].
  apply andb_prop in R. destruct R as [Hva Hcb].
  apply negb_true_iff in Hcb. apply Nat.eqb_eq in Hbuf. auto.
Qed.

Lemma send_empty_packet_trace (w : world_t) :
  sensor_ready (w_ctx w) = true ->
  fst (send_empty_packet w) = SDI12_OK /\
  w_trace (snd (send_empty_packet w))
  = w_trace w ++ [EvSend (empty_binary_packet (address (w_ctx w)))].
Proof.
  intros R. destruct (sensor_ready_parts _ R) as (_ & Hcb & Hlen).
  unfold send_empty_packet. split; [reflexivity|]. simpl_ctx.
  unfold send_response. simpl_ctx.
  destruct (cb_send_response (cb (w_ctx w))); [|discriminate]. simpl_ctx.
  do 3 f_equal.
  destruct (resp_buf (w_ctx w)) as [|b0 [|b1 [|b2 [|b3 [|b4 [|b5 rest]]]]]];
    try discriminate Hlen.
  unfold empty_binary_packet, sdi12_crc16. cbn [store firstn]. reflexivity.
Qed.

(** C3 (amended): after a high-volume binary measurement on a sensor
    without the [format_binary_page] hook, every data request aDn! is
    answered exactly as after a Standard measurement holding the same
    cache, that is by the ASCII formatter [format_data_page] under the
    35-character budget (address, sign-prefixed values, CRC when
    requested, CR LF); a binary data request aDBn! is answered with the
    six-byte empty binary packet. *)
Theorem hvb_without_hook_data_requests (w : world_t) :
  sensor_ready (w_ctx w) = true ->
  pending_meas_type (w_ctx w) = SDI12_MEAS_HIGHVOL_BINARY ->
  cb_format_binary_page (cb (w_ctx w)) = None ->
  (forall cmd len,
     load cmd 1 = ch "D" ->
     let r := sdi12_sensor_process w cmd len in
     let s := sdi12_sensor_process
                (with_ctx (set_pending_meas_type SDI12_MEAS_STANDARD) w) cmd len in
     fst r = fst s /\ w_trace (snd r) = w_trace (snd s) /\
     sent (snd r) = sent (snd s) /\
     resp_buf (w_ctx (snd r)) = resp_buf (w_ctx (snd s))) /\
  (forall page,
     data_available (w_ctx w) = true ->
     handle_send_data w page
     = (SDI12_OK,
        send_response
          (with_ctx (fun c => snd (format_data_page c page SDI12_M_VALUES_MAX_CHARS)) w))) /\
  (forall cmd len,
     (3 <= stripped_len cmd len)%nat ->
     load cmd 0 = address (w_ctx w) ->
     load cmd 1 = ch "D" -> load cmd 2 = ch "B" ->
     let r := sdi12_sensor_process w cmd len in
     fst r = SDI12_OK /\
     w_trace (snd r)
     = w_trace w ++ [EvSend (empty_binary_packet (address (w_ctx w)))]).
Proof.
  intros Hr Hp Hh. split; [|split].
  - intros cmd len Hd. cbv zeta.
    rewrite (process_data_request_as_standard w cmd len Hp Hh Hd).
    unfold sent. simpl_ctx. auto.
  - intros page Hda. rewrite (handle_send_data_no_hook w page Hp Hh).
    now rewrite Hda.
  - intros cmd len Hl Ha Hd Hb. cbv zeta.
    rewrite (process_addressed w cmd len) by (assumption || lia).
    unfold dispatch_command. rewrite Hd, Hb.
    destruct (Nat.eqb_spec (stripped_len cmd len) 1) as [E|_]; [lia|].
    change (ch "D" =? ch "I") with false. change (ch "D" =? ch "M") with false.
    change (ch "D" =? ch "C") with false. change (ch "D" =? ch "D") with true.
    change (ch "B" =? ch "B") with true. cbv iota.
    destruct (Nat.leb_spec 3 (stripped_len cmd len)) as [_|E]; [|lia].
    destruct (state (w_ctx w));
      (rewrite handle_send_binary_data_no_hook by exact Hh);
      match goal with
      | |- context [send_empty_packet ?v] =>
          destruct (send_empty_packet_trace v Hr) as [E1 E2];
          split; [exact E1 | exact E2]
      end.
Qed.

(** A text reply that fits the response buffer goes out as it is. *)
Lemma printf_reply (w : world_t) (s : list Z) :
  sensor_ready (w_ctx w) = true ->
  resp_len (w_ctx w) = O ->
  Forall (fun b => b <> 0) s ->
  (length s < SDI12_MAX_RESPONSE_LEN)%nat ->
  w_trace (send_response (resp_printf s w)) = w_trace w ++ [EvSend s].
Proof.
  intros R Hl Hs Hfit. destruct (sensor_ready_parts _ R) as (_ & Hcb & Hlen).
  rewrite send_response_trace by (simpl_ctx; assumption). simpl_ctx.
  do 3 f_equal.
  rewrite snprintf_fits by lia.
  unfold cstring. rewrite strlen_app_nul by assumption.
  now rewrite firstn_app, Nat.sub_diag, firstn_all, app_nil_r.
Qed.

Lemma count_group_ext (c c' : ctx_t) grp :
  params c' = params c -> param_count c' = param_count c ->
  count_group c' grp = count_group c grp.
Proof. unfold count_group, in_group. now intros -> ->. Qed.

(** What the code answers to aHA!, aHAC!, aHB!, aHBC! when group 0 has no
    parameter: the address and five zeros (a two-digit count). *)
Lemma highvol_empty_group_reply (w : world_t) (cmd : list Z) (len : nat) :
  sensor_ready (w_ctx w) = true ->
  count_group (w_ctx w) 0 = O ->
  load cmd 0 = address (w_ctx w) ->
  load cmd 1 = ch "H" ->
  load cmd 2 = ch "A" \/ load cmd 2 = ch "B" ->
  (3 <= stripped_len cmd len)%nat ->
  let r := sdi12_sensor_process w cmd len in
  fst r = SDI12_OK /\
  w_trace (snd r)
  = w_trace w ++ [EvSend (address (w_ctx w) :: bytes_of_string "00000" ++ CRLF)].
Proof.
  intros R Hn Ha Hh Hab Hl. cbv zeta.
  destruct (sensor_ready_parts _ R) as (Hva & _ & _).
  pose proof (valid_address_nonzero _ Hva) as Hnz.
  rewrite (process_addressed w cmd len) by (assumption || lia).
  unfold dispatch_command. rewrite Hh.
  destruct (Nat.eqb_spec (stripped_len cmd len) 1) as [E|_]; [lia|].
  destruct (Nat.eqb_spec (stripped_len cmd len) 2) as [E|_]; [lia|].
  change (ch "H" =? ch "I") with false. change (ch "H" =? ch "M") with false.
  change (ch "H" =? ch "C") with false. change (ch "H" =? ch "D") with false.
  change (ch "H" =? ch "R") with false. change (ch "H" =? ch "V") with false.
  change (ch "H" =? ch "A") with false. change (ch "H" =? ch "H") with true.
  cbv iota.
  assert (G : forall (v : world_t) crc type,
            sensor_ready (w_ctx v) = true -> resp_len (w_ctx v) = O ->
            params (w_ctx v) = params (w_ctx w) ->
            param_count (w_ctx v) = param_count (w_ctx w) ->
            address (w_ctx v) = address (w_ctx w) ->
            w_trace v = w_trace w ->
            is_std_or_verif type = false ->
            fst (handle_measurement v 0 crc type) = SDI12_OK /\
            w_trace (snd (handle_measurement v 0 crc type))
            = w_trace w ++ [EvSend (address (w_ctx w) :: bytes_of_string "00000" ++ CRLF)]).
  { intros v crc type Rv Lv Pv PCv Av Tv Hty. unfold handle_measurement.
    rewrite (count_group_ext (w_ctx w)) by (simpl_ctx; assumption).
    rewrite Hn, Hty. cbn [Nat.eqb]. split; [reflexivity|]. cbn [snd].
    rewrite printf_reply; simpl_ctx; try assumption.
    - now rewrite Av, Tv.
    - rewrite Av. constructor; [assumption|].
      repeat constructor; discriminate.
    - unfold SDI12_MAX_RESPONSE_LEN. simpl. lia. }
  destruct Hab as [->| ->].
  - change (ch "A" =? ch "A") with true. cbv iota.
    destruct (state (w_ctx w)); apply G; simpl_ctx; auto.
  - change (ch "B" =? ch "A") with false. change (ch "B" =? ch "B") with true.
    cbv iota.
    destruct (state (w_ctx w)); apply G; simpl_ctx; auto.
Qed.

End SensorData.

(* ====================================================================== *)
(** * Sensor engine: [sensor_ready] is an invariant *)
(* ====================================================================== *)

Lemma blit_length (src : list Z) : forall buf pos,
  length (blit buf pos src) = length buf.
Proof.
  induction src as [|b src IH]; intros buf pos; simpl; [reflexivity|].
  now rewrite IH, store_length.
Qed.

Lemma snprintf_length buf s : length (snprintf buf s) = length buf.
Proof. unfold snprintf. apply blit_length. Qed.

Lemma memcpy_length buf pos src n : length (memcpy buf pos src n) = length buf.
Proof. unfold memcpy. apply blit_length. Qed.

Lemma crc_append_length buf n :
  length (snd (sdi12_crc_append buf n)) = length buf.
Proof.
  unfold sdi12_crc_append.
  match goal with |- context [if ?b then (SDI12_ERR_BUFFER_OVERFLOW, _) else _] =>
    destruct b end; cbn [snd]; [reflexivity|].
  now rewrite !store_length.
Qed.

Lemma crc_append_n_length buf d n :
  length (snd (sdi12_crc_append_n buf d n)) = length buf.
Proof.
  unfold sdi12_crc_append_n.
  destruct (n <? d + 3 + 2 + 1)%nat; cbn [snd]; [reflexivity|].
  now rewrite !store_length.
Qed.

Lemma fit_length n l : length (fit n l) = n.
Proof.
  unfold fit. rewrite length_app, length_firstn, repeat_length. lia.
Qed.

Lemma append_crlf_length buf : length (append_crlf buf) = length buf.
Proof. unfold append_crlf. now rewrite !store_length. Qed.

Lemma ensure_crlf_length buf : length (ensure_crlf buf) = length buf.
Proof.
  unfold ensure_crlf.
  repeat match goal with |- context [if ?b then _ else _] => destruct b end;
    rewrite ?store_length; reflexivity.
Qed.

Create Rewrite HintDb buflen.

#[local] Hint Rewrite @store_length blit_length snprintf_length memcpy_length
  crc_append_length crc_append_n_length fit_length append_crlf_length
  ensure_crlf_length : buflen.

Section SensorReady.

Context {F Host : Type} {CF : CFloat F}.

#[local] Abbreviation ctx_t := (sdi12_sensor_ctx_t F Host).
#[local] Abbreviation world_t := (world F Host).

Lemma format_data_loop_length page max_chars buflen :
  forall (vals : list (sdi12_value_t F)) st,
    length (pc_buf (format_data_loop vals page max_chars buflen st))
    = length (pc_buf st).
Proof.
  induction vals as [|v vals IH]; intros st; simpl; [reflexivity|].
  repeat match goal with |- context [if ?b then _ else _] => destruct b end;
    rewrite ?IH; cbn [pc_buf]; autorewrite with buflen; reflexivity.
Qed.

Lemma ready_step_refl (c : ctx_t) : ready_step c c.
Proof. split; [|split]; auto. Qed.

Lemma ready_step_trans (c1 c2 c3 : ctx_t) :
  ready_step c1 c2 -> ready_step c2 c3 -> ready_step c1 c3.
Proof.
  unfold ready_step. intros (C1 & L1 & A1) (C2 & L2 & A2).
  split; [congruence|]. split; [auto|].
  destruct A2 as [A2|A2]; [|auto]. destruct A1 as [A1|A1]; [left; congruence|].
  right. now rewrite A2.
Qed.

Lemma ready_step_keeps_ready (c c' : ctx_t) :
  ready_step c c' -> sensor_ready c = true -> sensor_ready c' = true.
Proof.
  intros (C & L & A) R. destruct (sensor_ready_parts _ R) as (V & N & Len).
  unfold sensor_ready. rewrite C, N, (L Len), Nat.eqb_refl.
  destruct A as [A|A]; [rewrite A, V|rewrite A]; reflexivity.
Qed.

Lemma read_one_frame (w : world_t) idx :
  cb (w_ctx (read_one w idx)) = cb (w_ctx w) /\
  resp_buf (w_ctx (read_one w idx)) = resp_buf (w_ctx w) /\
  address (w_ctx (read_one w idx)) = address (w_ctx w).
Proof.
  unfold read_one.
  destruct (data_cache_count (w_ctx w) <? SDI12_MAX_PARAMS)%nat; [|auto].
  destruct (cb_read_param (cb (w_ctx w))); simpl_ctx; auto.
Qed.

Lemma read_group_sync_frame (w : world_t) grp :
  cb (w_ctx (read_group_sync w grp)) = cb (w_ctx w) /\
  resp_buf (w_ctx (read_group_sync w grp)) = resp_buf (w_ctx w) /\
  address (w_ctx (read_group_sync w grp)) = address (w_ctx w).
Proof.
  unfold read_group_sync.
  assert (G : forall l (v : world_t),
            cb (w_ctx (fold_left read_one l v)) = cb (w_ctx v) /\
            resp_buf (w_ctx (fold_left read_one l v)) = resp_buf (w_ctx v) /\
            address (w_ctx (fold_left read_one l v)) = address (w_ctx v)).
  { induction l as [|i l IH]; intros v; simpl; [auto|].
    destruct (IH (read_one v i)) as (A & B & C).
    destruct (read_one_frame v i) as (A' & B' & C').
    repeat split; congruence. }
  simpl_ctx.
  destruct (G (collect_group_indices (w_ctx w) grp SDI12_MAX_PARAMS)
              (with_ctx (set_data_cache_count 0) w)) as (A & B & C).
  simpl_ctx. auto.
Qed.

Ltac frame_reads :=
  repeat match goal with
         | |- context [w_ctx (read_group_sync ?v ?g)] =>
             let A := fresh in let B := fresh in let C := fresh in
             destruct (read_group_sync_frame v g) as (A & B & C);
             rewrite ?A, ?B, ?C; clear A B C
         end.

Ltac same_ready :=
  unfold ready_step; simpl_ctx; rewrite ?send_response_ctx; simpl_ctx;
  frame_reads; simpl_ctx;
  split; [reflexivity|];
  split; [intros;
          repeat match goal with
                 | |- context [if ?b then _ else _] => destruct b
                 end;
          repeat first [ progress autorewrite with buflen
                       | rewrite format_data_loop_length
                       | progress cbn [pc_buf] ];
          first [assumption | reflexivity]
         | left; reflexivity].

Lemma reply_address_only_ready (crc : bool) (w : world_t) :
  ready_step (w_ctx w) (w_ctx (reply_address_only crc w)).
Proof. unfold reply_address_only. destruct crc; same_ready. Qed.

Lemma handle_measurement_ready (w : world_t) grp crc type :
  ready_step (w_ctx w) (w_ctx (snd (handle_measurement w grp crc type))).
Proof.
  unfold handle_measurement.
  destruct (count_group _ grp =? 0)%nat.
  { destruct (is_std_or_verif type); same_ready. }
  simpl_ctx.
  destruct (cb_start_measurement (cb (w_ctx w))) as [start|].
  - destruct (start grp type (w_host w)) as [t h]. simpl_ctx.
    set (ttt := if 999 <? t mod 65536 then 999 else t mod 65536).
    destruct (ttt =? 0); destruct type; same_ready.
  - destruct type; same_ready.
Qed.

Lemma send_empty_packet_ready (w : world_t) :
  ready_step (w_ctx w) (w_ctx (snd (send_empty_packet w))).
Proof. unfold send_empty_packet. same_ready. Qed.

Lemma handle_send_binary_data_ready (w : world_t) page :
  ready_step (w_ctx w) (w_ctx (snd (handle_send_binary_data w page))).
Proof.
  unfold handle_send_binary_data.
  destruct (cb_format_binary_page (cb (w_ctx w))) as [fmt|];
    [|apply send_empty_packet_ready].
  destruct (negb (data_available (w_ctx w))); [apply send_empty_packet_ready|].
  destruct (fst (fst _) =? 0)%nat.
  - unfold send_empty_packet. same_ready.
  - same_ready.
Qed.

Lemma handle_send_data_ready (w : world_t) page :
  ready_step (w_ctx w) (w_ctx (snd (handle_send_data w page))).
Proof.
  unfold handle_send_data.
  destruct (negb (data_available (w_ctx w))).
  { simpl_ctx. rewrite send_response_ctx. apply reply_address_only_ready. }
  destruct (pending_meas_type (w_ctx w));
    destruct (cb_format_binary_page (cb (w_ctx w))) as [fmt|];
    try same_ready.
  destruct (crc_requested (w_ctx w)); same_ready.
Qed.

Lemma handle_continuous_ready (w : world_t) index crc :
  ready_step (w_ctx w) (w_ctx (snd (handle_continuous w index crc))).
Proof.
  unfold handle_continuous.
  destruct (count_group _ index =? 0)%nat.
  - unfold reply_address_only. destruct crc; same_ready.
  - same_ready.
Qed.

Lemma handle_change_address_ready (w : world_t) a :
  ready_step (w_ctx w) (w_ctx (snd (handle_change_address w a))).
Proof.
  unfold handle_change_address.
  destruct (sdi12_valid_address a) eqn:V; cbn [negb]; [|same_ready].
  unfold ready_step. simpl_ctx.
  destruct (cb_save_address (cb (w_ctx w))); simpl_ctx;
    rewrite send_response_ctx; simpl_ctx;
    (split; [reflexivity|]; split; [intros; now autorewrite with buflen | now right]).
Qed.

Lemma handle_identify_measurement_ready (w : world_t) cmd len :
  ready_step (w_ctx w) (w_ctx (snd (handle_identify_measurement w cmd len))).
Proof.
  unfold handle_identify_measurement.
  destruct (len <? 3)%nat; [same_ready|].
  destruct (memchr cmd 2 (ch "_") (len - 2)) as [us|].
  - simpl_ctx. rewrite send_response_ctx.
    match goal with |- context [if ?b then _ else reply_address_only _ _] =>
      destruct b end.
    + destruct (memchr cmd 2 (ch "C") (us - 2)); same_ready.
    + apply reply_address_only_ready.
  - simpl_ctx. rewrite send_response_ctx.
    repeat match goal with |- context [if ?b then _ else _] => destruct b end;
      same_ready.
Qed.

Lemma xcmd_dispatch_ready cmd len : forall slots (w : world_t) r,
  xcmd_dispatch slots w cmd len = Some r ->
  ready_step (w_ctx w) (w_ctx (snd r)).
Proof.
  induction slots as [|i slots IH]; intros w r; simpl; [discriminate|].
  destruct (handler (nth i (xcmds (w_ctx w)) zero_xcmd)) as [h|]; [|apply IH].
  match goal with |- context [if ?b then _ else _] => destruct b end; [|apply IH].
  destruct (fst (fst _)); intros E; inversion E; subst r; same_ready.
Qed.

Lemma handle_extended_ready (w : world_t) cmd len :
  ready_step (w_ctx w) (w_ctx (snd (handle_extended w cmd len))).
Proof.
  unfold handle_extended.
  destruct (xcmd_dispatch _ w cmd len) as [r|] eqn:E.
  - exact (xcmd_dispatch_ready cmd len _ w r E).
  - same_ready.
Qed.

Lemma dispatch_command_ready (w : world_t) cmd cmdlen :
  ready_step (w_ctx w) (w_ctx (snd (dispatch_command w cmd cmdlen))).
Proof.
  unfold dispatch_command.
  repeat match goal with
         | |- context [if ?b then _ else _] => destruct b
         end;
    first [ apply handle_measurement_ready
          | apply handle_send_binary_data_ready
          | apply handle_send_data_ready
          | apply handle_continuous_ready
          | apply handle_change_address_ready
          | apply handle_identify_measurement_ready
          | apply handle_extended_ready
          | unfold handle_acknowledge, handle_identify, handle_highvol_stub;
            same_ready ].
Qed.

Lemma init_ready (w : world_t) a id cbs :
  fst (sdi12_sensor_init w a id cbs) = SDI12_OK ->
  sensor_ready (w_ctx (snd (sdi12_sensor_init w a id cbs))) = true.
Proof.
  unfold sdi12_sensor_init.
  destruct (is_null (cb_send_response cbs)) eqn:N; [discriminate|].
  cbn [orb].
  destruct (_ || _); [discriminate|].
  destruct (sdi12_valid_address a) eqn:V; [|discriminate]. cbn [negb]. intros _.
  unfold sensor_ready.
  destruct (cb_load_address cbs) as [ld|]; simpl_ctx.
  - destruct (sdi12_valid_address (fst (ld (w_host w)))) eqn:V'; simpl_ctx;
      rewrite ?V, ?V', N; reflexivity.
  - rewrite V, N. reflexivity.
Qed.

Lemma process_ready_step (w : world_t) cmd len :
  ready_step (w_ctx w) (w_ctx (snd (sdi12_sensor_process w cmd len))).
Proof.
  unfold sdi12_sensor_process.
  destruct (len =? 0)%nat; [apply ready_step_refl|].
  match goal with |- context [if (?n =? 0)%nat then _ else _] =>
    destruct (n =? 0)%nat end; [same_ready|].
  match goal with |- context [if ?b then (SDI12_ERR_NOT_ADDRESSED, _) else _] =>
    destruct b end; [same_ready|].
  match goal with
  | |- ready_step _ (w_ctx (snd (dispatch_command ?v _ _))) =>
      apply (ready_step_trans _ (w_ctx v)); [|apply dispatch_command_ready]
  end.
  simpl_ctx.
  destruct (load cmd 0 =? address (w_ctx w)); [|same_ready].
  destruct (state (w_ctx w)); same_ready.
Qed.

Lemma measurement_done_ready_step (w : world_t) values count :
  ready_step (w_ctx w) (w_ctx (snd (sdi12_sensor_measurement_done w values count))).
Proof.
  unfold sdi12_sensor_measurement_done.
  match goal with
  | |- context [match state (w_ctx ?v) with _ => _ end] => set (w1 := v)
  end.
  assert (S1 : ready_step (w_ctx w) (w_ctx w1)).
  { subst w1. unfold ready_step. split; [reflexivity|].
    split; [intros H; exact H | left; reflexivity]. }
  clearbody w1.
  apply (ready_step_trans _ (w_ctx w1)); [exact S1|].
  destruct (state (w_ctx w1)); try apply ready_step_refl.
  - cbn [snd].
    assert (G : ready_step (w_ctx w1)
                  (w_ctx (resp_printf (address (w_ctx w1) :: CRLF) w1))).
    { unfold ready_step, resp_printf. simpl_ctx. split; [reflexivity|].
      split; [intros H; now rewrite snprintf_length | left; reflexivity]. }
    apply (ready_step_trans _ _ _ G).
    generalize (resp_printf (address (w_ctx w1) :: CRLF) w1). intros w2.
    destruct (cb_service_request (cb (w_ctx w2)));
      unfold ready_step; simpl_ctx; rewrite ?send_response_ctx; auto.
  - unfold ready_step. simpl_ctx. auto.
Qed.

(** [sensor_ready] holds after a successful [sdi12_sensor_init] and is
    kept by every operation of the engine. *)
Lemma sensor_ready_invariant :
  (forall (w : world_t) a id cbs,
     fst (sdi12_sensor_init w a id cbs) = SDI12_OK ->
     sensor_ready (w_ctx (snd (sdi12_sensor_init w a id cbs))) = true) /\
  (forall (w : world_t) cmd len,
     sensor_ready (w_ctx w) = true ->
     sensor_ready (w_ctx (snd (sdi12_sensor_process w cmd len))) = true) /\
  (forall (c : ctx_t) grp shef_ units_ d,
     sensor_ready c = true ->
     sensor_ready (snd (sdi12_sensor_register_param c grp shef_ units_ d)) = true) /\
  (forall (c : ctx_t),
     sensor_ready c = true -> sensor_ready (sdi12_sensor_break c) = true) /\
  (forall (w : world_t) values count,
     sensor_ready (w_ctx w) = true ->
     sensor_ready (w_ctx (snd (sdi12_sensor_measurement_done w values count))) = true).
Proof.
  split; [|split; [|split; [|split]]].
  - exact init_ready.
  - intros w cmd len R. apply (ready_step_keeps_ready (w_ctx w)); [|exact R].
    apply process_ready_step.
  - intros c grp shef_ units_ d R. unfold sdi12_sensor_register_param.
    destruct (SDI12_MAX_PARAMS <=? param_count c)%nat; [exact R|].
    destruct (SDI12_MAX_MEAS_GROUPS <=? grp)%nat; exact R.
  - intros c R. unfold sdi12_sensor_break. destruct (state c); exact R.
  - intros w values count R.
    apply (ready_step_keeps_ready (w_ctx w)); [|exact R].
    apply measurement_done_ready_step.
Qed.

End SensorReady.

Section MasterProofs.

Context {F Host : Type} {CF : CFloat F}.

(** After [trim_crlf], either a first byte is left as it was, or the
    whole response was CR/LF. *)
Lemma trim_crlf_first : forall len buf,
  ((1 <= snd (trim_crlf buf len))%nat ->
     load (fst (trim_crlf buf len)) 0 = load buf 0) /\
  (snd (trim_crlf buf len) = O ->
     len = O \/ load buf 0 = CR \/ load buf 0 = LF).
Proof.
  induction len as [|k IH]; intros buf; simpl.
  - split; [lia | auto].
  - destruct ((load buf k =? CR) || (load buf k =? LF)) eqn:E.
    + destruct (IH (store buf k 0)) as [I1 I2].
      destruct k as [|k'].
      * simpl. split; [lia|]. intros _. right.
        apply orb_prop in E. destruct E as [E|E]; apply Z.eqb_eq in E; auto.
      * rewrite load_store_other in I1, I2 by lia.
        split; [exact I1|]. intros H. destruct (I2 H) as [H0|H0]; [lia|auto].
    + simpl. split; [auto | lia].
Qed.

Lemma ack_command_sent (mw : @master_world Host) addr :
  fst (send_command mw (snprintf (repeat 0 4) [addr; ch "!"])) = SDI12_OK.
Proof.
  unfold send_command.
  change (snprintf (repeat 0 4) [addr; ch "!"]) with [addr; ch "!"; 0; 0].
  cbn [strlen]. destruct (addr =? 0); reflexivity.
Qed.

(** C8: for a valid address, [sdi12_master_acknowledge] turns a timeout
    (no byte received) into [SDI12_OK] with [*present = false]; every
    other transaction result is returned as it is; and when a reply
    arrived, [*present] is true exactly when its first byte is the
    queried address. *)
Theorem acknowledge_timeout_is_absent (mw : @master_world Host) (addr : Z)
                                      (present : bool) :
  sdi12_valid_address addr = true ->
  let a := sdi12_master_acknowledge mw addr present in
  let t := sdi12_master_transact mw (snprintf (repeat 0 4) [addr; ch "!"])
                                 SDI12_RESPONSE_TIMEOUT_MS in
  (ack_received mw addr = [] -> fst a = (SDI12_OK, false)) /\
  (fst t <> SDI12_ERR_TIMEOUT -> fst (fst a) = fst t) /\
  (ack_received mw addr <> [] ->
     fst a = (SDI12_OK, load (ack_received mw addr) 0 =? addr)).
Proof.
  intros Hva. cbv zeta.
  unfold sdi12_master_acknowledge. rewrite Hva. cbn [negb].
  set (cmd := snprintf (repeat 0 4) [addr; ch "!"]).
  unfold sdi12_master_transact, ack_received. fold cmd.
  pose proof (ack_command_sent mw addr) as Hs. fold cmd in Hs.
  destruct (send_command mw cmd) as [e mw1]. cbn [fst snd] in *. subst e.
  unfold recv_response.
  set (c := mw_ctx mw1).
  set (r := mcb_recv (mcb c) (length (m_resp_buf c) - 1)
                     SDI12_RESPONSE_TIMEOUT_MS (mw_host mw1)).
  set (got := firstn (length (m_resp_buf c) - 1) (fst r)).
  assert (Hgl : (length got <= length (m_resp_buf c) - 1)%nat).
  { subst got. rewrite length_firstn. lia. }
  destruct (Nat.eqb_spec (length got) 0) as [E0|E0]; cbn [fst snd].
  - split; [reflexivity|]. split; [congruence|].
    intros Hne. destruct got; [congruence|discriminate E0].
  - split; [intros E; rewrite E in E0; simpl in E0; lia|].
    split; [reflexivity|]. intros _.
    cbn [mw_ctx m_resp_buf m_resp_len mw_host fst snd].
    f_equal. f_equal.
    set (buf := store (blit (m_resp_buf c) 0 got) (length got) 0).
    assert (Hb0 : load buf 0 = load got 0).
    { subst buf. rewrite load_store_other by lia.
      rewrite blit_at_0 by lia. apply load_app_l. lia. }
    destruct (trim_crlf_first (length got) buf) as [T1 T2].
    destruct (Nat.leb_spec 1 (snd (trim_crlf buf (length got)))) as [L|L].
    + cbn [andb]. now rewrite (T1 L), Hb0.
    + cbn [andb]. assert (Z0 : snd (trim_crlf buf (length got)) = O) by lia.
      destruct (T2 Z0) as [H|H]; [lia|].
      rewrite Hb0 in H. symmetry. apply Z.eqb_neq.
      destruct (valid_address_not_crlf addr Hva). destruct H; congruence.
Qed.

Lemma scan_while_ge p s data_len : forall fuel pos,
  (pos <= scan_while p s data_len fuel pos)%nat.
Proof.
  induction fuel as [|f IH]; intros pos; simpl; [lia|].
  destruct ((pos <? data_len)%nat && p (load s pos)); [|lia].
  specialize (IH (S pos)). lia.
Qed.

(** The fuel of [parse_values_loop] is enough: from [data_len - pos]
    turns on, the result no longer depends on it. *)
Lemma parse_values_loop_fuel (s : list Z) (data_len max_values : nat) :
  forall fuel1 fuel2 pos (acc : list (sdi12_value_t F)),
    (data_len - pos <= fuel1)%nat -> (data_len - pos <= fuel2)%nat ->
    parse_values_loop fuel1 s data_len max_values pos acc
    = parse_values_loop fuel2 s data_len max_values pos acc.
Proof.
  assert (Hexit : forall fuel pos (acc : list (sdi12_value_t F)),
            (data_len <= pos)%nat ->
            parse_values_loop fuel s data_len max_values pos acc = acc).
  { intros [|f] pos acc H; simpl; auto.
    destruct (Nat.ltb_spec pos data_len); [lia|reflexivity]. }
  induction fuel1 as [|f1 IH]; intros fuel2 pos acc H1 H2.
  - rewrite !Hexit by lia. reflexivity.
  - destruct fuel2 as [|f2]; [rewrite !Hexit by lia; reflexivity|].
    simpl.
    destruct ((pos <? data_len)%nat && (length acc <? max_values)%nat); [|reflexivity].
    set (p1 := scan_while (fun c => c =? ch " ") s data_len (data_len - pos) pos).
    pose proof (scan_while_ge (fun c => c =? ch " ") s data_len (data_len - pos) pos) as G1.
    fold p1 in G1.
    destruct (data_len <=? p1)%nat; [reflexivity|].
    destruct (negb (load s p1 =? ch "+") && negb (load s p1 =? ch "-")).
    + apply IH; lia.
    + set (p2 := scan_while _ s data_len (data_len - S p1) (S p1)).
      pose proof (scan_while_ge (fun c => is_digit c || (c =? ch ".")) s data_len
                                (data_len - S p1) (S p1)) as G2.
      fold p2 in G2.
      destruct (p1 + 1 <? p2)%nat; apply IH; lia.
Qed.

(** C9 (what the code does): a sign followed by a lone dot is recorded as
    a value (zero decimals, whatever [strtod] makes of ["+."]), while a
    bare sign is skipped. *)
Theorem sign_dot_token_is_recorded (m : nat) :
  sdi12_master_parse_data_values (bytes_of_string "+.") 2 (S m) false
  = (SDI12_OK, [ {| value := strtod (bytes_of_string "+."); decimals := 0 |} ]) /\
  sdi12_master_parse_data_values (bytes_of_string "+") 1 (S m) false
  = (SDI12_OK, @nil (sdi12_value_t F)).
Proof. split; reflexivity. Qed.

End MasterProofs.

(* ====================================================================== *)
(** * Runs on the test bench *)
(* ====================================================================== *)

(** The unit tests' context is ready, holds five parameters and no data. *)
Lemma test_sensor_ready :
  sensor_ready (w_ctx test_sensor) = true /\
  param_count (w_ctx test_sensor) = 5%nat /\
  state (w_ctx test_sensor) = SDI12_STATE_READY /\
  data_available (w_ctx test_sensor) = false.
Proof. vm_compute. repeat split. Qed.

(** Scenario 4 of the specification, with integer readings: ["0M!"] is
    answered ["00005"], then ["0D0!"] returns the five values. *)
Lemma measure_then_read :
  let w1 := snd (sdi12_sensor_process test_sensor (bytes_of_string "0M!") 3) in
  let w2 := snd (sdi12_sensor_process w1 (bytes_of_string "0D0!") 4) in
  sent w1 = [bytes_of_string "00005" ++ CRLF] /\
  sent w2 = [bytes_of_string "00005" ++ CRLF;
             bytes_of_string "0+42+25+101+65-10" ++ CRLF].
Proof. vm_compute. split; reflexivity. Qed.

(** C1, counterexample: the buffer ["!"] starts with neither the address
    ['0'] nor [?], yet the result is [SDI12_ERR_INVALID_COMMAND]. *)
Lemma bare_terminator_is_not_unaddressed :
  load (bytes_of_string "!") 0 <> address (w_ctx test_sensor) /\
  load (bytes_of_string "!") 0 <> ch "?" /\
  fst (sdi12_sensor_process test_sensor (bytes_of_string "!") 1)
    = SDI12_ERR_INVALID_COMMAND /\
  fst (sdi12_sensor_process test_sensor (bytes_of_string "!") 1)
    <> SDI12_ERR_NOT_ADDRESSED.
Proof. vm_compute. repeat split; discriminate. Qed.

Lemma unaddressed_command_is_silent_witness :
  (1 <= stripped_len (bytes_of_string "5!") 2)%nat /\
  load (bytes_of_string "5!") 0 <> address (w_ctx test_sensor) /\
  is_query (bytes_of_string "5!") 2 = false /\
  fst (sdi12_sensor_process test_sensor (bytes_of_string "5!") 2)
    = SDI12_ERR_NOT_ADDRESSED /\
  sent (snd (sdi12_sensor_process test_sensor (bytes_of_string "5!") 2)) = [].
Proof.
  assert (H1 : (1 <= stripped_len (bytes_of_string "5!") 2)%nat)
    by (vm_compute; lia).
  assert (H2 : load (bytes_of_string "5!") 0 <> address (w_ctx test_sensor))
    by (vm_compute; discriminate).
  assert (H3 : is_query (bytes_of_string "5!") 2 = false) by reflexivity.
  destruct (unaddressed_command_is_silent test_sensor (bytes_of_string "5!") 2
              H1 H2 H3) as (R1 & _ & R2 & _).
  split; [exact H1|]. split; [exact H2|]. split; [exact H3|].
  split; [exact R1|]. rewrite R2. reflexivity.
Defined.

(** C2, counterexample: a break in [DataReady] leaves [data_available] set. *)
Lemma break_in_data_ready_keeps_data :
  let c := w_ctx (snd (sdi12_sensor_process test_sensor (bytes_of_string "0M!") 3)) in
  state c = SDI12_STATE_DATA_READY /\
  data_available c = true /\
  state (sdi12_sensor_break c) = SDI12_STATE_READY /\
  data_available (sdi12_sensor_break c) = true.
Proof. vm_compute. repeat split. Qed.

(** C3, counterexample: after ["0HB!"] on the sensor without hook,
    ["0DB0!"] is answered with the six bytes of an empty binary packet,
    not with the ASCII reply given to ["0D0!"]. *)
Lemma binary_request_without_hook_is_binary :
  let w := snd (sdi12_sensor_process test_sensor (bytes_of_string "0HB!") 4) in
  pending_meas_type (w_ctx w) = SDI12_MEAS_HIGHVOL_BINARY /\
  cb_format_binary_page (cb (w_ctx w)) = None /\
  sent (snd (sdi12_sensor_process w (bytes_of_string "0DB0!") 5))
    = sent w ++ [[ch "0"; 0; 0; 0; 15; 0]] /\
  sent (snd (sdi12_sensor_process w (bytes_of_string "0D0!") 4))
    = sent w ++ [bytes_of_string "0+42+25+101+65-10" ++ CRLF].
Proof. vm_compute. repeat split. Qed.

(** The fallback pages like a Standard measurement (35 characters), not
    like a high-volume ASCII one (75): with twenty values (46 characters)
    cached, page 0 after ["0HA!"] carries all of them, while after
    ["0HB!"] the fifteenth value opens page 1, which resets the write
    position before the loop is left, and page 0 goes out empty. *)
Lemma hvb_fallback_uses_standard_budget :
  let wa := snd (sdi12_sensor_process full_sensor (bytes_of_string "0HA!") 4) in
  let wb := snd (sdi12_sensor_process full_sensor (bytes_of_string "0HB!") 4) in
  let zeros (n : nat) := concat (repeat (bytes_of_string "+0") n) in
  data_cache_count (w_ctx wa) = 20%nat /\
  data_cache_count (w_ctx wb) = 20%nat /\
  sent (snd (sdi12_sensor_process wa (bytes_of_string "0D0!") 4))
    = sent wa ++ [bytes_of_string "0+42+25+101+65-10" ++ zeros 15%nat ++ CRLF] /\
  sent (snd (sdi12_sensor_process wb (bytes_of_string "0D0!") 4))
    = sent wb ++ [bytes_of_string "0" ++ CRLF].
Proof. vm_compute. repeat split. Qed.

Lemma hvb_without_hook_data_requests_witness :
  let w := snd (sdi12_sensor_process test_sensor (bytes_of_string "0HB!") 4) in
  sensor_ready (w_ctx w) = true /\
  pending_meas_type (w_ctx w) = SDI12_MEAS_HIGHVOL_BINARY /\
  cb_format_binary_page (cb (w_ctx w)) = None /\
  sent (snd (sdi12_sensor_process w (bytes_of_string "0D0!") 4))
  = sent (snd (sdi12_sensor_process
                 (with_ctx (set_pending_meas_type SDI12_MEAS_STANDARD) w)
                 (bytes_of_string "0D0!") 4)).
Proof.
  cbv zeta.
  set (w := snd (sdi12_sensor_process test_sensor (bytes_of_string "0HB!") 4)).
  assert (H1 : sensor_ready (w_ctx w) = true) by (vm_compute; reflexivity).
  assert (H2 : pending_meas_type (w_ctx w) = SDI12_MEAS_HIGHVOL_BINARY)
    by (vm_compute; reflexivity).
  assert (H3 : cb_format_binary_page (cb (w_ctx w)) = None)
    by (vm_compute; reflexivity).
  destruct (hvb_without_hook_data_requests w H1 H2 H3) as (A & _ & _).
  destruct (A (bytes_of_string "0D0!") 4%nat eq_refl) as (_ & _ & S & _).
  split; [exact H1|]. split; [exact H2|]. split; [exact H3|exact S].
Defined.

(** C4, counterexample: [sdi12_sensor_measurement_done] on a sensor in
    [Ready] is not ignored: the cache count and [data_available] change. *)
Lemma measurement_done_in_ready_stores :
  let v := {| value := 7; decimals := 0 |} in
  let r := sdi12_sensor_measurement_done test_sensor [v; v] 2 in
  state (w_ctx test_sensor) = SDI12_STATE_READY /\
  data_available (w_ctx test_sensor) = false /\
  data_cache_count (w_ctx test_sensor) = 0%nat /\
  data_available (w_ctx (snd r)) = true /\
  data_cache_count (w_ctx (snd r)) = 2%nat /\
  data_cache (w_ctx (snd r)) <> data_cache (w_ctx test_sensor).
Proof. vm_compute. repeat split. discriminate. Qed.

Lemma measurement_done_when_idle_witness :
  let v := {| value := 7; decimals := 0 |} in
  let r := sdi12_sensor_measurement_done test_sensor [v; v] 2 in
  state (w_ctx test_sensor) <> SDI12_STATE_MEASURING /\
  state (w_ctx test_sensor) <> SDI12_STATE_MEASURING_C /\
  state (w_ctx (snd r)) = state (w_ctx test_sensor) /\
  w_trace (snd r) = w_trace test_sensor.
Proof.
  cbv zeta.
  assert (H1 : state (w_ctx test_sensor) <> SDI12_STATE_MEASURING)
    by (vm_compute; discriminate).
  assert (H2 : state (w_ctx test_sensor) <> SDI12_STATE_MEASURING_C)
    by (vm_compute; discriminate).
  destruct (measurement_done_when_idle test_sensor
              [{| value := 7; decimals := 0 |}; {| value := 7; decimals := 0 |}] 2
              H1 H2) as (_ & S & T & _).
  split; [exact H1|]. split; [exact H2|]. split; [exact S|exact T].
Defined.

(** C5, counterexample: on a sensor without parameters the chain holds
    after init and is broken by [sdi12_sensor_measurement_done]. *)
Lemma measurement_done_breaks_cache_le_params :
  let r := sdi12_sensor_measurement_done empty_sensor
             [{| value := 7; decimals := 0 |}] 1 in
  cache_le_params (w_ctx empty_sensor) /\
  data_cache_count (w_ctx (snd r)) = 1%nat /\
  param_count (w_ctx (snd r)) = 0%nat /\
  ~ cache_le_params (w_ctx (snd r)).
Proof.
  vm_compute. repeat split; lia.
Qed.

Lemma counts_stay_bounded_witness :
  cache_le_params (w_ctx test_sensor) /\
  cache_le_params
    (w_ctx (snd (sdi12_sensor_process test_sensor (bytes_of_string "0M!") 3))) /\
  counts_bounded
    (w_ctx (snd (sdi12_sensor_measurement_done test_sensor [] 200))).
Proof.
  assert (H : cache_le_params (w_ctx test_sensor)) by (vm_compute; lia).
  assert (B : counts_bounded (w_ctx test_sensor)) by (vm_compute; lia).
  destruct (@counts_stay_bounded Z unit IntFloat) as (_ & _ & P & _ & M).
  split; [exact H|]. split.
  - exact (proj1 (P test_sensor (bytes_of_string "0M!") 3%nat) H).
  - exact (M test_sensor [] 200%nat B).
Defined.

(** C6, counterexample: appending the CRC to the empty string succeeds
    and leaves the five bytes ["@@@" CR LF], which [sdi12_crc_verify]
    rejects (fewer than six bytes). *)
Lemma crc_roundtrip_fails_on_empty_string :
  holds_string (repeat 0 8) 8 [] (repeat 0 7) /\
  fst (sdi12_crc_append (repeat 0 8) 8) = SDI12_OK /\
  cstring (snd (sdi12_crc_append (repeat 0 8) 8)) = bytes_of_string "@@@" ++ CRLF /\
  sdi12_crc_verify (snd (sdi12_crc_append (repeat 0 8) 8))
                   (strlen (snd (sdi12_crc_append (repeat 0 8) 8))) = false.
Proof.
  split; [|vm_compute; repeat split].
  unfold holds_string. split; [reflexivity|]. split; [reflexivity|constructor].
Qed.

Lemma crc_append_verify_roundtrip_witness :
  let x := bytes_of_string "0+1.23" in
  let buf := x ++ 0 :: repeat 0 25 in
  holds_string buf 32 x (repeat 0 25) /\
  (1 <= length (strip_crlf x))%nat /\
  (length (strip_crlf x) + 6 <= 32)%nat /\
  exists buf',
    sdi12_crc_append buf 32 = (SDI12_OK, buf') /\
    sdi12_crc_verify buf' (strlen buf') = true.
Proof.
  cbv zeta.
  assert (H1 : holds_string (bytes_of_string "0+1.23" ++ 0 :: repeat 0 25) 32
                            (bytes_of_string "0+1.23") (repeat 0 25)).
  { unfold holds_string. split; [reflexivity|]. split; [reflexivity|].
    vm_compute. repeat constructor; discriminate. }
  assert (H2 : (1 <= length (strip_crlf (bytes_of_string "0+1.23")))%nat)
    by (vm_compute; lia).
  assert (H3 : (length (strip_crlf (bytes_of_string "0+1.23")) + 6 <= 32)%nat)
    by (vm_compute; lia).
  destruct (crc_append_verify_roundtrip _ 32 _ _ H1 H2 H3) as (buf' & A & _ & V).
  split; [exact H1|]. split; [exact H2|]. split; [exact H3|].
  exists buf'. split; [exact A|exact V].
Defined.

(** C7 (what the code does): on a sensor without parameters the four
    high-volume commands are answered with the address and five zeros,
    eight bytes in all, and not with the nine bytes
    [address "000" "000" CR LF]. *)
Theorem highvol_empty_group_two_digit_count :
  let reply (cmd : string) (n : nat) :=
    sent (snd (sdi12_sensor_process empty_sensor (bytes_of_string cmd) n)) in
  let short := ch "0" :: bytes_of_string "000" ++ bytes_of_string "00" ++ CRLF in
  let claimed := ch "0" :: bytes_of_string "000" ++ bytes_of_string "000" ++ CRLF in
  count_group (w_ctx empty_sensor) 0 = 0%nat /\
  reply "0HA!"%string 4%nat = [short] /\
  reply "0HAC!"%string 5%nat = [short] /\
  reply "0HB!"%string 4%nat = [short] /\
  reply "0HBC!"%string 5%nat = [short] /\
  length short = 8%nat /\ length claimed = 9%nat /\ short <> claimed.
Proof. vm_compute. repeat split. discriminate. Qed.

Lemma highvol_empty_group_reply_run :
  sensor_ready (w_ctx empty_sensor) = true /\
  w_trace (snd (sdi12_sensor_process empty_sensor (bytes_of_string "0HA!") 4))
  = [EvSend (ch "0" :: bytes_of_string "00000" ++ CRLF)].
Proof.
  assert (R : sensor_ready (w_ctx empty_sensor) = true) by (vm_compute; reflexivity).
  split; [exact R|].
  assert (H : (3 <= stripped_len (bytes_of_string "0HA!") 4)%nat) by (vm_compute; lia).
  exact (proj2 (highvol_empty_group_reply empty_sensor (bytes_of_string "0HA!") 4
                  R eq_refl eq_refl eq_refl (or_introl eq_refl) H)).
Qed.

Lemma acknowledge_timeout_is_absent_witness :
  sdi12_valid_address (ch "0") = true /\
  fst (sdi12_master_acknowledge (mock_master []) (ch "0") true) = (SDI12_OK, false) /\
  fst (sdi12_master_acknowledge (mock_master (bytes_of_string "0" ++ CRLF))
                                (ch "0") false) = (SDI12_OK, true) /\
  fst (sdi12_master_acknowledge (mock_master (bytes_of_string "5" ++ CRLF))
                                (ch "0") true) = (SDI12_OK, false).
Proof.
  assert (V : sdi12_valid_address (ch "0") = true) by reflexivity.
  split; [exact V|].
  split; [|split].
  - apply (proj1 (acknowledge_timeout_is_absent (mock_master []) (ch "0") true V)).
    reflexivity.
  - rewrite (proj2 (proj2 (acknowledge_timeout_is_absent
                             (mock_master (bytes_of_string "0" ++ CRLF))
                             (ch "0") false V)))
      by (vm_compute; discriminate).
    reflexivity.
  - rewrite (proj2 (proj2 (acknowledge_timeout_is_absent
                             (mock_master (bytes_of_string "5" ++ CRLF))
                             (ch "0") true V)))
      by (vm_compute; discriminate).
    reflexivity.
Defined.

Lemma wildcard_query_keeps_concurrent_witness :
  let w := in_state SDI12_STATE_MEASURING_C test_sensor in
  let q := sdi12_sensor_process w (bytes_of_string "?!") 2 in
  sensor_ready (w_ctx w) = true /\
  state (w_ctx w) = SDI12_STATE_MEASURING_C /\
  fst q = SDI12_OK /\
  w_trace (snd q) = w_trace w ++ [EvSend [address (w_ctx w); CR; LF]] /\
  state (w_ctx (snd q)) = SDI12_STATE_MEASURING_C.
Proof.
  cbv zeta.
  assert (R : sensor_ready (w_ctx (in_state SDI12_STATE_MEASURING_C test_sensor)) = true)
    by (vm_compute; reflexivity).
  assert (S : state (w_ctx (in_state SDI12_STATE_MEASURING_C test_sensor))
              = SDI12_STATE_MEASURING_C) by reflexivity.
  destruct (wildcard_query_keeps_concurrent _ R S) as ((Q1 & Q2 & Q3 & _) & _).
  split; [exact R|]. split; [exact S|]. split; [exact Q1|]. split; [exact Q2|exact Q3].
Defined.
(* ====================================================================== *)
(** * CRC codec: range, error detection, acceptance *)
(* ====================================================================== *)

#[local] Arguments Z.shiftl : simpl never.

Lemma forallb_bytes (P : Z -> bool) :
  forallb P byte_values = true -> forall x, 0 <= x < 256 -> P x = true.
Proof.
  intros H x Hx. rewrite forallb_forall in H. apply H.
  apply in_map_iff. exists (Z.to_nat x). split; [lia|].
  apply in_seq. lia.
Qed.

Lemma forall_u16_spec (P : Z -> bool) :
  forall_u16 P = true -> forall x, is_u16 x -> P x = true.
Proof.
  intros H x Hx. unfold is_u16 in Hx.
  pose proof (forallb_bytes _ H (x / 256)) as H1. cbv beta in H1.
  assert (0 <= x / 256 < 256) as R1.
  { split; [apply Z.div_pos; lia | apply Z.div_lt_upper_bound; lia]. }
  specialize (H1 R1).
  pose proof (forallb_bytes _ H1 (x mod 256)) as H2. cbv beta in H2.
  assert (0 <= x mod 256 < 256) as R2 by (apply Z.mod_pos_bound; lia).
  specialize (H2 R2).
  replace (x / 256 * 256 + x mod 256) with x in H2; [exact H2|].
  rewrite (Z.div_mod x 256) at 1; lia.
Qed.

(** On every 16-bit register value the shift step stays within 16 bits
    and is undone by [crc_unshift]. *)
Lemma crc_shift_table :
  forall_u16 (fun c => (0 <=? crc_shift c) && (crc_shift c <? 65536)
                       && (crc_unshift (crc_shift c) =? c)) = true.
Proof. vm_compute. reflexivity. Qed.

Lemma crc_shift_u16 c :
  is_u16 c -> is_u16 (crc_shift c) /\ crc_unshift (crc_shift c) = c.
Proof.
  intros H. pose proof (forall_u16_spec _ crc_shift_table c H) as T.
  cbv beta in T.
  apply andb_prop in T. destruct T as [T U]. apply andb_prop in T. destruct T as [T1 T2].
  unfold is_u16. split; [lia|]. now apply Z.eqb_eq.
Qed.

Lemma crc_shift_inj c c' :
  is_u16 c -> is_u16 c' -> crc_shift c = crc_shift c' -> c = c'.
Proof.
  intros H H' E.
  rewrite <- (proj2 (crc_shift_u16 c H)), <- (proj2 (crc_shift_u16 c' H')).
  now rewrite E.
Qed.

Lemma iter_crc_shift_range n c : is_u16 c -> is_u16 (Nat.iter n crc_shift c).
Proof.
  intros H; induction n; simpl; auto. now apply crc_shift_u16.
Qed.

Lemma iter_crc_shift_inj n c c' :
  is_u16 c -> is_u16 c' -> Nat.iter n crc_shift c = Nat.iter n crc_shift c' -> c = c'.
Proof.
  intros H H'; induction n; simpl; auto.
  intros E. apply IHn. apply crc_shift_inj; auto using iter_crc_shift_range.
Qed.

Lemma lxor_u16 c b : is_u16 c -> is_byte b -> is_u16 (Z.lxor c b).
Proof.
  unfold is_u16, is_byte. intros Hc Hb.
  assert (0 <= Z.lxor c b) as N by (apply Z.lxor_nonneg; lia).
  split; [exact N|].
  destruct (Z.eq_dec (Z.lxor c b) 0) as [->|NZ]; [lia|].
  change 65536 with (2 ^ 16). apply Z.log2_lt_pow2; [lia|].
  pose proof (Z.log2_lxor c b ltac:(lia) ltac:(lia)) as L.
  assert (Z.log2 c < 16).
  { destruct (Z.eq_dec c 0) as [->|]; [simpl; lia|].
    apply Z.log2_lt_pow2; [lia|]. change (2 ^ 16) with 65536. lia. }
  assert (Z.log2 b < 16).
  { destruct (Z.eq_dec b 0) as [->|]; [simpl; lia|].
    apply Z.log2_lt_pow2; [lia|]. change (2 ^ 16) with 65536. lia. }
  lia.
Qed.

Lemma lxor_cancel c b b' : Z.lxor c b = Z.lxor c b' -> b = b'.
Proof.
  intros E.
  rewrite <- (Z.lxor_0_l b), <- (Z.lxor_0_l b'), <- (Z.lxor_nilpotent c).
  now rewrite !Z.lxor_assoc, E.
Qed.

Lemma crc_update_range c b : is_u16 c -> is_byte b -> is_u16 (crc_update c b).
Proof. intros; unfold crc_update; apply iter_crc_shift_range, lxor_u16; auto. Qed.

Lemma crc_update_inj_byte c b b' :
  is_u16 c -> is_byte b -> is_byte b' -> crc_update c b = crc_update c b' -> b = b'.
Proof.
  intros Hc Hb Hb' E. unfold crc_update in E.
  apply iter_crc_shift_inj in E; auto using lxor_u16.
  now apply lxor_cancel in E.
Qed.

Lemma crc_update_inj_crc c c' b :
  is_u16 c -> is_u16 c' -> is_byte b -> crc_update c b = crc_update c' b -> c = c'.
Proof.
  intros Hc Hc' Hb E. unfold crc_update in E.
  apply iter_crc_shift_inj in E; auto using lxor_u16.
  rewrite (Z.lxor_comm c), (Z.lxor_comm c') in E. now apply lxor_cancel in E.
Qed.

Lemma crc_fold_range d : Forall is_byte d -> forall c, is_u16 c ->
  is_u16 (fold_left crc_update d c).
Proof.
  induction 1 as [|b d Hb _ IH]; intros c Hc; simpl; auto using crc_update_range.
Qed.

Lemma crc_fold_inj d : Forall is_byte d -> forall c c', is_u16 c -> is_u16 c' ->
  fold_left crc_update d c = fold_left crc_update d c' -> c = c'.
Proof.
  induction 1 as [|b d Hb _ IH]; intros c c' Hc Hc' E; simpl in E; auto.
  apply IH in E; auto using crc_update_range.
  now apply crc_update_inj_crc in E.
Qed.

Lemma crc16_u16 data len : Forall is_byte data -> is_u16 (sdi12_crc16 data len).
Proof.
  intros H. unfold sdi12_crc16.
  apply (crc_fold_range (firstn len data)); [now apply Forall_take|].
  unfold is_u16; lia.
Qed.

(** The register after two byte strings that differ in one byte. *)
Lemma crc_fold_single_byte d1 b b' d2 :
  Forall is_byte d1 -> Forall is_byte d2 -> is_byte b -> is_byte b' -> b <> b' ->
  fold_left crc_update (d1 ++ b :: d2) 0 <> fold_left crc_update (d1 ++ b' :: d2) 0.
Proof.
  intros H1 H2 Hb Hb' Hne E.
  rewrite !fold_left_app in E. simpl in E.
  assert (is_u16 (fold_left crc_update d1 0)) as Hs
    by (apply crc_fold_range; [assumption | unfold is_u16; lia]).
  apply crc_fold_inj in E; auto using crc_update_range.
  apply crc_update_inj_byte in E; auto.
Qed.

(** X1: the CRC of any string of bytes, over any length, is a 16-bit
    value: the register never leaves [0, 65535]. *)
Theorem crc16_is_16_bit (data : list Z) (len : nat) :
  Forall is_byte data -> 0 <= sdi12_crc16 data len < 65536.
Proof. intros H. exact (crc16_u16 data len H). Qed.

(** X2: two byte strings that differ in exactly one byte (same length,
    same bytes elsewhere) have different CRCs: every single-byte error is
    detected by [sdi12_crc16]. *)
Theorem crc16_detects_single_byte_change (d1 d2 : list Z) (b b' : Z) :
  Forall is_byte d1 -> Forall is_byte d2 -> is_byte b -> is_byte b' -> b <> b' ->
  sdi12_crc16 (d1 ++ b :: d2) (length (d1 ++ b :: d2))
  <> sdi12_crc16 (d1 ++ b' :: d2) (length (d1 ++ b' :: d2)).
Proof.
  intros H1 H2 Hb Hb' Hne. unfold sdi12_crc16. rewrite !firstn_all.
  now apply crc_fold_single_byte.
Qed.

(** On every 16-bit CRC the three characters lie in 0x40..0x7F and decode
    back to the CRC. *)
Lemma crc_encode_table :
  forall_u16 (fun c =>
    let e := sdi12_crc_encode_ascii c in
    forallb (fun i => (64 <=? load e i) && (load e i <=? 127)) [0; 1; 2]%nat
    && (crc_decode_ascii e =? c)) = true.
Proof. vm_compute. reflexivity. Qed.

Lemma crc_encode_u16 c : is_u16 c ->
  (forall i, (i < 3)%nat -> 64 <= load (sdi12_crc_encode_ascii c) i <= 127) /\
  crc_decode_ascii (sdi12_crc_encode_ascii c) = c.
Proof.
  intros H. pose proof (forall_u16_spec _ crc_encode_table c H) as T.
  cbv beta zeta in T. apply andb_prop in T. destruct T as [T U].
  split; [|now apply Z.eqb_eq].
  rewrite forallb_forall in T. intros i Hi.
  specialize (T i). cbv beta in T.
  assert (In i [0; 1; 2]%nat) as I by (simpl; lia).
  apply T in I. apply andb_prop in I. lia.
Qed.

Lemma crc_encode_inj c c' :
  is_u16 c -> is_u16 c' ->
  firstn 3 (sdi12_crc_encode_ascii c) = firstn 3 (sdi12_crc_encode_ascii c') ->
  c = c'.
Proof.
  intros H H' E.
  rewrite <- (proj2 (crc_encode_u16 c H)), <- (proj2 (crc_encode_u16 c' H')).
  unfold sdi12_crc_encode_ascii in *. cbn [firstn] in E.
  injection E as E0 E1 E2. unfold crc_decode_ascii, load. cbn [nth].
  now rewrite E0, E1, E2.
Qed.

(** X3: the three CRC characters computed for any data are printable
    ASCII in 0x40..0x7F (so never NUL, CR, LF or ['!']), and the fourth
    byte written by [sdi12_crc_encode_ascii] is the terminating NUL. *)
Theorem crc_characters_are_printable (data : list Z) (len : nat) :
  Forall is_byte data ->
  let out := sdi12_crc_encode_ascii (sdi12_crc16 data len) in
  (forall i, (i < 3)%nat -> 0x40 <= load out i <= 0x7F) /\
  load out 3 = 0 /\ length out = 4%nat.
Proof.
  intros H out. split; [|split; reflexivity].
  apply (crc_encode_u16 (sdi12_crc16 data len)). now apply crc16_u16.
Qed.

(** X4: on 16-bit values the ASCII encoding loses nothing: different CRCs
    give different character triples. *)
Theorem crc_encode_ascii_injective (c c' : Z) :
  0 <= c < 65536 -> 0 <= c' < 65536 ->
  firstn 3 (sdi12_crc_encode_ascii c) = firstn 3 (sdi12_crc_encode_ascii c') ->
  c = c'.
Proof. intros H H'. now apply crc_encode_inj. Qed.

(** [sdi12_crc_verify] on a frame [data, three characters, CR LF]. *)
Lemma crc_verify_frame d e0 e1 e2 t :
  sdi12_crc_verify (d ++ [e0; e1; e2] ++ [CR; LF] ++ t) (length d + 5) =
  let e := sdi12_crc_encode_ascii (sdi12_crc16 d (length d)) in
  (1 <=? length d)%nat && ((e0 =? load e 0) && (e1 =? load e 1) && (e2 =? load e 2)).
Proof.
  set (b := d ++ [e0; e1; e2] ++ [CR; LF] ++ t).
  assert (Le : forall k, (k < 5)%nat ->
            load b (length d + k) = load ([e0; e1; e2] ++ [CR; LF]) k).
  { intros k Hk. subst b. rewrite load_app_r by lia.
    replace (length d + k - length d)%nat with k by lia.
    rewrite app_assoc. apply load_app_l. simpl. lia. }
  assert (L4 : load b (length d + 5 - 1) = LF).
  { replace (length d + 5 - 1)%nat with (length d + 4)%nat by lia.
    now rewrite Le by lia. }
  assert (L3 : load b (length d + 5 - 1 - 1) = CR).
  { replace (length d + 5 - 1 - 1)%nat with (length d + 3)%nat by lia.
    now rewrite Le by lia. }
  assert (E : (length d + 5 - 1 - 1 - 3)%nat = length d) by lia.
  assert (L0 : load b (length d) = e0).
  { rewrite <- (Nat.add_0_r (length d)). now rewrite Le by lia. }
  assert (L1 : load b (length d + 1) = e1) by now rewrite Le by lia.
  assert (L2 : load b (length d + 2) = e2) by now rewrite Le by lia.
  assert (Hcrc : sdi12_crc16 b (length d) = sdi12_crc16 d (length d))
    by apply crc16_prefix.
  unfold sdi12_crc_verify. cbv zeta.
  destruct (Nat.ltb_spec (length d + 5) 6) as [Hs|Hs].
  - destruct (Nat.leb_spec 1 (length d)); [lia | reflexivity].
  - destruct (Nat.leb_spec 1 (length d)); [|lia].
    rewrite L4, Z.eqb_refl.
    destruct (Nat.ltb_spec 0 (length d + 5 - 1)); [|lia].
    rewrite L3, Z.eqb_refl. cbn [andb].
    destruct (Nat.ltb_spec (length d + 5 - 1 - 1) 3); [lia|].
    rewrite E, Hcrc, L0, L1, L2. reflexivity.
Qed.

(** X5: [sdi12_crc_verify] accepts a frame [data, three characters, CR LF]
    exactly when the three characters are the encoded CRC of the data:
    nothing else passes, and the bytes after the frame play no part. *)
Theorem crc_verify_accepts_exactly_the_crc (d e t : list Z) :
  (1 <= length d)%nat -> length e = 3%nat ->
  sdi12_crc_verify (d ++ e ++ [CR; LF] ++ t) (length d + 5) = true <->
  e = firstn 3 (sdi12_crc_encode_ascii (sdi12_crc16 d (length d))).
Proof.
  intros Hd He.
  destruct e as [|e0 [|e1 [|e2 [|]]]]; try discriminate He.
  rewrite crc_verify_frame. cbv zeta.
  destruct (Nat.leb_spec 1 (length d)); [|lia]. cbn [andb].
  unfold sdi12_crc_encode_ascii, load. cbn [nth firstn].
  rewrite !andb_true_iff, !Z.eqb_eq. split.
  - intros [[-> ->] ->]. reflexivity.
  - intros E. injection E as -> -> ->. auto.
Qed.

(** X6: a frame built for the data [sent] and received with one data byte
    changed is rejected by [sdi12_crc_verify]. *)
Theorem crc_verify_rejects_corrupted_byte (d1 d2 t : list Z) (b b' : Z) :
  Forall is_byte d1 -> Forall is_byte d2 -> is_byte b -> is_byte b' -> b <> b' ->
  let sent := d1 ++ b :: d2 in
  let got := d1 ++ b' :: d2 in
  sdi12_crc_verify
    (got ++ firstn 3 (sdi12_crc_encode_ascii (sdi12_crc16 sent (length sent)))
         ++ [CR; LF] ++ t)
    (length got + 5) = false.
Proof.
  intros H1 H2 Hb Hb' Hne sent got.
  assert (Hs : Forall is_byte sent) by (apply Forall_app; split; [|constructor]; assumption).
  assert (Hg : Forall is_byte got) by (apply Forall_app; split; [|constructor]; assumption).
  unfold sdi12_crc_encode_ascii at 1. cbn [firstn].
  change (?x :: ?y :: ?z :: [] ++ ?r) with ([x; y; z] ++ r).
  rewrite crc_verify_frame. cbv zeta.
  apply not_true_is_false. intros V.
  apply andb_prop in V. destruct V as [_ V].
  apply andb_prop in V. destruct V as [V V2].
  apply andb_prop in V. destruct V as [V0 V1].
  apply Z.eqb_eq in V0, V1, V2.
  assert (E : sdi12_crc16 sent (length sent) = sdi12_crc16 got (length got)).
  { apply crc_encode_inj; try now apply crc16_u16.
    unfold sdi12_crc_encode_ascii, load in *. cbn [nth firstn] in *. congruence. }
  unfold sdi12_crc16 in E. rewrite !firstn_all in E.
  revert E. now apply crc_fold_single_byte.
Qed.

(** The alphabet and the range test agree on every byte. *)
Lemma valid_address_table :
  forallb (fun c => Bool.eqb (sdi12_valid_address c)
                             (existsb (Z.eqb c) address_alphabet)) byte_values = true.
Proof. vm_compute. reflexivity. Qed.

(** X7: [sdi12_valid_address] accepts exactly the characters ['0'..'9'],
    ['A'..'Z'], ['a'..'z'], which are sixty-two of the 256 byte values. *)
Theorem valid_addresses_are_the_alphabet (c : Z) :
  (sdi12_valid_address c = true <-> In c address_alphabet) /\
  length (filter sdi12_valid_address byte_values) = 62%nat.
Proof.
  split; [|vm_compute; reflexivity].
  split.
  - intros H. assert (0 <= c < 256) as R.
    { revert H. unfold sdi12_valid_address, in_range, ch. simpl. lia. }
    pose proof (forallb_bytes _ valid_address_table c R) as T. cbv beta in T.
    apply eqb_prop in T. rewrite T in H. apply existsb_exists in H.
    destruct H as (x & Hin & E). apply Z.eqb_eq in E. now subst x.
  - assert (B : forallb sdi12_valid_address address_alphabet = true)
      by (vm_compute; reflexivity).
    rewrite forallb_forall in B. apply B.
Qed.

(* ====================================================================== *)
(** * Sensor engine: one response per accepted command *)
(* ====================================================================== *)

Section SensorReplies.

Context {F Host : Type} {CF : CFloat F}.

#[local] Abbreviation ctx_t := (sdi12_sensor_ctx_t F Host).
#[local] Abbreviation world_t := (world F Host).

Lemma quiet_refl (w : world_t) : quiet w w.
Proof. split; reflexivity. Qed.

Lemma quiet_trans (w1 w2 w3 : world_t) : quiet w1 w2 -> quiet w2 w3 -> quiet w1 w3.
Proof. intros [A B] [C D]. split; congruence. Qed.

Lemma read_one_trace (w : world_t) idx : w_trace (read_one w idx) = w_trace w.
Proof.
  unfold read_one.
  destruct (data_cache_count (w_ctx w) <? SDI12_MAX_PARAMS)%nat; [|reflexivity].
  now destruct (cb_read_param (cb (w_ctx w))).
Qed.

Lemma read_all_trace (l : list nat) : forall v : world_t,
  w_trace (fold_left read_one l v) = w_trace v.
Proof.
  induction l as [|i l IH]; intros v; simpl; [reflexivity|].
  now rewrite IH, read_one_trace.
Qed.

Lemma read_group_sync_quiet (w : world_t) grp : quiet w (read_group_sync w grp).
Proof.
  split; [apply read_group_sync_frame|].
  unfold sent, read_group_sync. simpl_ctx. now rewrite read_all_trace.
Qed.

Lemma sent_emit (e : event) (w : world_t) :
  sent (emit e w) = sent w ++ match e with EvSend d => [d] | _ => [] end.
Proof. unfold sent, emit. simpl_ctx. rewrite flat_map_app. simpl. now rewrite app_nil_r. Qed.

Lemma quiet_with_ctx (f : ctx_t -> ctx_t) (w : world_t) :
  (forall c, cb (f c) = cb c) -> quiet w (with_ctx f w).
Proof. intros H. split; [apply H | reflexivity]. Qed.

Lemma quiet_with_host (h : Host) (w : world_t) : quiet w (with_host h w).
Proof. split; reflexivity. Qed.

Lemma quiet_emit (e : event) (w : world_t) :
  match e with EvSend _ => False | _ => True end -> quiet w (emit e w).
Proof.
  intros H. split; [reflexivity|]. rewrite sent_emit.
  destruct e; [contradiction| |]; apply app_nil_r.
Qed.

Lemma reply_address_only_quiet (crc : bool) (w : world_t) :
  quiet w (reply_address_only crc w).
Proof.
  unfold reply_address_only. destruct crc.
  - eapply quiet_trans; [|apply quiet_with_ctx; intros c; reflexivity].
    apply quiet_with_ctx; intros c; reflexivity.
  - apply quiet_with_ctx; intros c; reflexivity.
Qed.

Lemma quiet_resp_printf (s : list Z) (w : world_t) : quiet w (resp_printf s w).
Proof. apply quiet_with_ctx. intros c. reflexivity. Qed.

(** Peels the silent steps off the world of a goal [quiet w v]. *)
Ltac is_quiet :=
  cbv beta zeta iota;
  repeat match goal with
         | |- quiet _ (reply_address_only _ _) =>
             eapply quiet_trans; [|apply reply_address_only_quiet]
         | |- quiet _ (read_group_sync _ _) =>
             eapply quiet_trans; [|apply read_group_sync_quiet]
         | |- quiet _ (resp_printf _ _) =>
             eapply quiet_trans; [|apply quiet_resp_printf]
         | |- quiet _ (with_host _ _) =>
             eapply quiet_trans; [|apply quiet_with_host]
         | |- quiet _ (emit _ _) =>
             eapply quiet_trans; [|apply quiet_emit; exact I]
         | |- quiet _ (with_ctx _ _) =>
             eapply quiet_trans; [|apply quiet_with_ctx; intros ?; reflexivity]
         end;
  apply quiet_refl.

Ltac replies :=
  unfold one_reply; cbv beta zeta iota; cbn [fst snd];
  first [ eexists; split; [|reflexivity]; is_quiet | is_quiet ].

Lemma one_reply_after (w w' : world_t) r :
  quiet w w' -> one_reply w' r -> one_reply w r.
Proof.
  unfold one_reply. intros Q. destruct (fst r);
    first [ intros (v & Qv & E); exists v; split; [eapply quiet_trans; eauto | exact E]
          | intros Q'; eapply quiet_trans; eauto ].
Qed.

Lemma handle_measurement_reply (w : world_t) grp crc type :
  one_reply w (handle_measurement w grp crc type).
Proof.
  unfold handle_measurement.
  destruct (count_group _ grp =? 0)%nat.
  { destruct (is_std_or_verif type); replies. }
  simpl_ctx.
  destruct (cb_start_measurement (cb (w_ctx w))) as [start|].
  - destruct (start grp type (w_host w)) as [t h]. simpl_ctx.
    set (ttt := if 999 <? t mod 65536 then 999 else t mod 65536).
    destruct (ttt =? 0); destruct type; replies.
  - destruct type; replies.
Qed.

Lemma send_empty_packet_reply (w : world_t) : one_reply w (send_empty_packet w).
Proof. unfold send_empty_packet. replies. Qed.

Lemma handle_send_binary_data_reply (w : world_t) page :
  one_reply w (handle_send_binary_data w page).
Proof.
  unfold handle_send_binary_data.
  destruct (cb_format_binary_page (cb (w_ctx w))) as [fmt|];
    [|apply send_empty_packet_reply].
  destruct (negb (data_available (w_ctx w))); [apply send_empty_packet_reply|].
  destruct (fst (fst _) =? 0)%nat.
  - eapply one_reply_after; [|apply send_empty_packet_reply]. is_quiet.
  - replies.
Qed.

Lemma handle_send_data_reply (w : world_t) page :
  one_reply w (handle_send_data w page).
Proof.
  unfold handle_send_data.
  destruct (negb (data_available (w_ctx w))).
  { unfold one_reply. cbn [fst snd]. eexists. split; [|reflexivity].
    apply reply_address_only_quiet. }
  destruct (pending_meas_type (w_ctx w));
    destruct (cb_format_binary_page (cb (w_ctx w))) as [fmt|];
    try replies.
  destruct (crc_requested (w_ctx w)); replies.
Qed.

Lemma handle_continuous_reply (w : world_t) index crc :
  one_reply w (handle_continuous w index crc).
Proof.
  unfold handle_continuous.
  destruct (count_group _ index =? 0)%nat.
  - unfold one_reply. cbn [fst snd]. eexists. split; [|reflexivity].
    eapply quiet_trans; [|apply reply_address_only_quiet]. is_quiet.
  - replies.
Qed.

Lemma handle_change_address_reply (w : world_t) a :
  one_reply w (handle_change_address w a).
Proof.
  unfold handle_change_address.
  destruct (negb (sdi12_valid_address a)); [replies|].
  simpl_ctx. destruct (cb_save_address (cb (w_ctx w))); replies.
Qed.

Lemma handle_identify_measurement_reply (w : world_t) cmd len :
  one_reply w (handle_identify_measurement w cmd len).
Proof.
  unfold handle_identify_measurement.
  destruct (len <? 3)%nat; [replies|].
  destruct (memchr cmd 2 (ch "_") (len - 2)) as [us|].
  - unfold one_reply. cbn [fst snd]. eexists. split; [|reflexivity].
    match goal with |- context [if ?b then _ else reply_address_only _ _] =>
      destruct b end.
    + destruct (memchr cmd 2 (ch "C") (us - 2)); is_quiet.
    + apply reply_address_only_quiet.
  - unfold one_reply. cbn [fst snd]. eexists. split; [|reflexivity].
    repeat match goal with |- context [if ?b then _ else _] => destruct b end;
      is_quiet.
Qed.

Lemma xcmd_dispatch_reply cmd len : forall slots (w : world_t) r,
  xcmd_dispatch slots w cmd len = Some r -> one_reply w r.
Proof.
  induction slots as [|i slots IH]; intros w r; simpl; [discriminate|].
  destruct (handler (nth i (xcmds (w_ctx w)) zero_xcmd)) as [h|]; [|apply IH].
  match goal with |- context [if ?b then _ else _] => destruct b end; [|apply IH].
  destruct (fst (fst _)) eqn:Ee; intros E; inversion E; subst r; replies.
Qed.

Lemma handle_extended_reply (w : world_t) cmd len :
  one_reply w (handle_extended w cmd len).
Proof.
  unfold handle_extended.
  destruct (xcmd_dispatch _ w cmd len) as [r|] eqn:E.
  - exact (xcmd_dispatch_reply cmd len _ w r E).
  - replies.
Qed.

Lemma dispatch_command_reply (w : world_t) cmd cmdlen :
  one_reply w (dispatch_command w cmd cmdlen).
Proof.
  unfold dispatch_command.
  repeat match goal with
         | |- context [if ?b then _ else _] => destruct b
         end;
    first [ apply handle_measurement_reply
          | apply handle_send_binary_data_reply
          | apply handle_send_data_reply
          | apply handle_continuous_reply
          | apply handle_change_address_reply
          | apply handle_identify_measurement_reply
          | apply handle_extended_reply
          | unfold handle_acknowledge, handle_identify, handle_highvol_stub;
            replies ].
Qed.

Lemma process_reply (w : world_t) cmd len :
  one_reply w (sdi12_sensor_process w cmd len).
Proof.
  unfold sdi12_sensor_process.
  destruct (len =? 0)%nat; [replies|].
  match goal with |- context [if (?n =? 0)%nat then _ else _] => destruct (n =? 0)%nat end;
    [replies|].
  match goal with |- context [if ?b then (SDI12_ERR_NOT_ADDRESSED, _) else _] =>
    destruct b end; [replies|].
  eapply one_reply_after; [|apply dispatch_command_reply].
  simpl_ctx.
  destruct (load cmd 0 =? address (w_ctx w)); [|is_quiet].
  destruct (state (w_ctx w)); is_quiet.
Qed.

(** X8: a call of [sdi12_sensor_process] that returns [SDI12_OK] hands
    exactly one response to [send_response], and a call that returns an
    error hands it none, whatever the command, the state and the
    registered handlers. *)
Theorem process_sends_one_response_iff_ok (w : world_t) (cmd : list Z) (len : nat) :
  is_null (cb_send_response (cb (w_ctx w))) = false ->
  let r := sdi12_sensor_process w cmd len in
  match fst r with
  | SDI12_OK => exists x, sent (snd r) = sent w ++ [x]
  | _ => sent (snd r) = sent w
  end.
Proof.
  intros Hcb r. pose proof (process_reply w cmd len) as P. fold r in P.
  unfold one_reply in P.
  destruct (fst r); try (destruct P as [_ P]; exact P).
  destruct P as (v & [Q1 Q2] & E). rewrite E.
  unfold send_response. rewrite Q1.
  destruct (cb_send_response (cb (w_ctx w))) as [f|]; [|discriminate Hcb].
  eexists. rewrite sent_emit. unfold sent at 1. simpl_ctx. fold (sent v).
  now rewrite Q2.
Qed.

End SensorReplies.

(* ====================================================================== *)
(** * Sensor engine: commands on a ready sensor *)
(* ====================================================================== *)

(** Decides the comparisons of character constants in the goal. *)
Ltac eval_chars :=
  repeat match goal with
         | |- context [ch ?x =? ch ?y] =>
             let b := eval vm_compute in (ch x =? ch y) in
             change (ch x =? ch y) with b
         end;
  cbv iota.

Lemma valid_address_isprint a : sdi12_valid_address a = true -> isprint a = true.
Proof. unfold sdi12_valid_address, isprint, in_range, ch. simpl. lia. Qed.

Section SensorCommands.

Context {F Host : Type} {CF : CFloat F}.

#[local] Abbreviation ctx_t := (sdi12_sensor_ctx_t F Host).
#[local] Abbreviation world_t := (world F Host).

(** The world in which an addressed command is dispatched. *)
Lemma process_entry (w : world_t) (cmd : list Z) (len : nat) :
  (1 <= stripped_len cmd len)%nat ->
  load cmd 0 = address (w_ctx w) ->
  exists v : world_t,
    sdi12_sensor_process w cmd len = dispatch_command v cmd (stripped_len cmd len) /\
    resp_len (w_ctx v) = O /\
    address (w_ctx v) = address (w_ctx w) /\
    cb (w_ctx v) = cb (w_ctx w) /\
    ident (w_ctx v) = ident (w_ctx w) /\
    params (w_ctx v) = params (w_ctx w) /\
    param_count (w_ctx v) = param_count (w_ctx w) /\
    resp_buf (w_ctx v) = resp_buf (w_ctx w) /\
    w_trace v = w_trace w /\
    w_host v = w_host w /\
    (state (w_ctx w) <> SDI12_STATE_MEASURING_C ->
     state (w_ctx v) = state (w_ctx w) /\
     data_available (w_ctx v) = data_available (w_ctx w) /\
     data_cache_count (w_ctx v) = data_cache_count (w_ctx w) /\
     data_cache (w_ctx v) = data_cache (w_ctx w) /\
     crc_requested (w_ctx v) = crc_requested (w_ctx w) /\
     pending_meas_type (w_ctx v) = pending_meas_type (w_ctx w)).
Proof.
  intros Hl Ha. rewrite (process_addressed w cmd len Hl Ha).
  eexists. split; [reflexivity|].
  destruct (state (w_ctx w)) eqn:Es; simpl_ctx; rewrite ?Es;
    do 9 (split; [reflexivity|]); intros N; try congruence;
    repeat (split; [reflexivity|]); reflexivity.
Qed.

Lemma sensor_ready_intro (c : ctx_t) :
  sdi12_valid_address (address c) = true ->
  is_null (cb_send_response (cb c)) = false ->
  length (resp_buf c) = SDI12_MAX_RESPONSE_LEN ->
  sensor_ready c = true.
Proof.
  unfold sensor_ready. intros -> -> ->. now rewrite Nat.eqb_refl.
Qed.

Lemma entry_ready (w v : world_t) :
  sensor_ready (w_ctx w) = true ->
  address (w_ctx v) = address (w_ctx w) ->
  cb (w_ctx v) = cb (w_ctx w) ->
  resp_buf (w_ctx v) = resp_buf (w_ctx w) ->
  sensor_ready (w_ctx v) = true.
Proof. unfold sensor_ready. now intros R -> -> ->. Qed.

(** X9: the change-address command [aAb!] with a valid new address [b],
    sent to a ready sensor at address [a]: the sensor takes the address
    [b], calls [save_address] (when registered) before it replies, and
    replies [b CR LF]; from then on it acknowledges [b!] and, when
    [b] differs from [a], no longer answers [a!]. *)
Theorem change_address_takes_effect (w : world_t) (b : Z) :
  sensor_ready (w_ctx w) = true ->
  sdi12_valid_address b = true ->
  let a := address (w_ctx w) in
  let r := sdi12_sensor_process w [a; ch "A"; b; ch "!"] 4 in
  fst r = SDI12_OK /\
  address (w_ctx (snd r)) = b /\
  w_trace (snd r)
  = w_trace w
    ++ match cb_save_address (cb (w_ctx w)) with
       | Some _ => [EvSaveAddress b]
       | None => []
       end
    ++ [EvSend [b; CR; LF]] /\
  w_trace (snd (sdi12_sensor_process (snd r) [b; ch "!"] 2))
  = w_trace (snd r) ++ [EvSend [b; CR; LF]] /\
  (a <> b -> fst (sdi12_sensor_process (snd r) [a; ch "!"] 2) = SDI12_ERR_NOT_ADDRESSED).
Proof.
  intros R Hb a r.
  assert (Hl : (1 <= stripped_len [a; ch "A"; b; ch "!"] 4)%nat)
    by (unfold stripped_len; simpl; lia).
  destruct (process_entry w [a; ch "A"; b; ch "!"] 4 Hl eq_refl)
    as (v & E & Lv & Av & Cv & _ & _ & _ & Bv & Tv & _ & _).
  pose proof (entry_ready w v R Av Cv Bv) as Rv.
  assert (Er : r = handle_change_address v b).
  { subst r. rewrite E. unfold stripped_len. cbn [load nth Nat.sub].
    rewrite Z.eqb_refl. unfold dispatch_command. cbn [Nat.eqb Nat.leb load nth].
    eval_chars. rewrite (valid_address_isprint b Hb). reflexivity. }
  clearbody r. subst r. clear E.
  unfold handle_change_address. rewrite Hb. cbn [negb fst snd].
  set (v1 := match cb_save_address (cb (w_ctx (with_ctx (set_address b) v))) with
             | Some save => _ | None => _ end).
  assert (H1 : sensor_ready (w_ctx v1) = true /\ resp_len (w_ctx v1) = O /\
               address (w_ctx v1) = b /\
               w_trace v1 = w_trace w ++ match cb_save_address (cb (w_ctx w)) with
                                         | Some _ => [EvSaveAddress b]
                                         | None => []
                                         end).
  { destruct (sensor_ready_parts _ Rv) as (_ & Hcb & Hlen).
    subst v1. simpl_ctx. rewrite Cv.
    destruct (cb_save_address (cb (w_ctx w))); simpl_ctx; rewrite Tv, ?app_nil_r;
      (split; [|split; [exact Lv|split; reflexivity]]);
      apply sensor_ready_intro; simpl_ctx; assumption. }
  clearbody v1. destruct H1 as (R1 & L1 & A1 & T1).
  destruct (sensor_ready_parts _ R1) as (_ & Hcb1 & Hlen1).
  pose proof (valid_address_nonzero _ Hb) as Hnz.
  assert (Hs : w_trace (send_response (resp_printf (b :: CRLF) v1))
               = w_trace v1 ++ [EvSend [b; CR; LF]]).
  { apply printf_reply; try assumption.
    - constructor; [assumption|]. repeat constructor; discriminate.
    - unfold SDI12_MAX_RESPONSE_LEN. simpl. lia. }
  set (v2 := send_response (resp_printf (b :: CRLF) v1)) in *.
  assert (A2 : address (w_ctx v2) = b).
  { subst v2. rewrite send_response_ctx. simpl_ctx. exact A1. }
  assert (R2 : sensor_ready (w_ctx v2) = true).
  { subst v2. rewrite send_response_ctx. revert R1. unfold sensor_ready. simpl_ctx.
    rewrite snprintf_length. auto. }
  clearbody v2.
  split; [reflexivity|]. split; [exact A2|].
  split; [rewrite Hs, T1; now rewrite app_assoc|].
  split.
  - assert (Hl2 : (1 <= stripped_len [b; ch "!"] 2)%nat)
      by (unfold stripped_len; simpl; lia).
    destruct (process_entry v2 [b; ch "!"] 2 Hl2 (eq_sym A2))
      as (u & E & Lu & Au & Cu & _ & _ & _ & Bu & Tu & _ & _).
    rewrite E. unfold stripped_len. cbn [load nth Nat.sub]. rewrite Z.eqb_refl.
    unfold dispatch_command. cbn [Nat.eqb].
    rewrite acknowledge_reply; [| exact (entry_ready v2 u R2 Au Cu Bu) | exact Lu].
    now rewrite Tu, Au, A2.
  - intros Hne.
    rewrite process_unaddressed; [reflexivity | | |].
    + unfold stripped_len; simpl; lia.
    + cbn [load nth]. now rewrite A2.
    + unfold is_query, stripped_len. cbn [load nth Nat.sub]. rewrite Z.eqb_refl.
      cbn [Nat.eqb andb].
      apply Z.eqb_neq. apply valid_address_not_query.
      destruct (sensor_ready_parts _ R) as (Hva & _). exact Hva.
Qed.

(** X10: the change-address command with a new address that is not
    alphanumeric (or with none at all) is rejected with
    [SDI12_ERR_INVALID_ADDRESS]: nothing is sent or saved and the sensor
    keeps its address. *)
Theorem change_address_rejects_invalid (w : world_t) (cmd : list Z) (len : nat) :
  (2 <= stripped_len cmd len)%nat ->
  load cmd 0 = address (w_ctx w) ->
  load cmd 1 = ch "A" ->
  sdi12_valid_address (load cmd 2) = false \/ stripped_len cmd len = 2%nat ->
  let r := sdi12_sensor_process w cmd len in
  fst r = SDI12_ERR_INVALID_ADDRESS /\
  address (w_ctx (snd r)) = address (w_ctx w) /\
  w_trace (snd r) = w_trace w /\
  w_host (snd r) = w_host w.
Proof.
  intros Hl Ha H1 Hb r.
  destruct (process_entry w cmd len ltac:(lia) Ha)
    as (v & E & Lv & Av & Cv & _ & _ & _ & Bv & Tv & Hv & _).
  assert (Er : r = (SDI12_ERR_INVALID_ADDRESS, v)).
  { subst r. rewrite E. unfold dispatch_command. rewrite H1.
    destruct (Nat.eqb_spec (stripped_len cmd len) 1) as [E1|_]; [lia|].
    eval_chars.
    destruct ((3 <=? stripped_len cmd len)%nat && isprint (load cmd 2)) eqn:Ec;
      [|reflexivity].
    apply andb_prop in Ec. destruct Ec as [Ec _]. apply Nat.leb_le in Ec.
    destruct Hb as [Hb|Hb]; [|lia].
    unfold handle_change_address. now rewrite Hb. }
  rewrite Er. cbn [fst snd]. auto.
Qed.

End SensorCommands.

(* ====================================================================== *)
(** * Sensor engine: the parameter table and its groups *)
(* ====================================================================== *)

Lemma nth_store_other {A} (l : list A) i j v d :
  i <> j -> nth j (store l i v) d = nth j l d.
Proof.
  revert i j; induction l as [|b r IH]; intros [|i] [|j] H; simpl; auto; try lia.
Qed.

Lemma nth_store_same {A} (l : list A) i v d :
  (i < length l)%nat -> nth i (store l i v) d = v.
Proof.
  revert i; induction l as [|b r IH]; intros [|i] H; simpl in *; auto; try lia.
  apply IH. lia.
Qed.

Lemma count_fold (p : nat -> bool) l : forall n0,
  fold_left (fun n i => if p i then S n else n) l n0
  = (n0 + length (filter p l))%nat.
Proof.
  induction l as [|i l IH]; intros n0; simpl; [lia|].
  rewrite IH. destruct (p i); simpl; lia.
Qed.

Lemma collect_fold (p : nat -> bool) max l : forall acc,
  (length acc <= max)%nat ->
  fold_left (fun acc i => if (length acc <? max)%nat && p i then acc ++ [i] else acc)
            l acc
  = acc ++ firstn (max - length acc) (filter p l).
Proof.
  induction l as [|i l IH]; intros acc Hacc; simpl.
  - now rewrite firstn_nil, app_nil_r.
  - destruct (Nat.ltb_spec (length acc) max) as [Hlt|Hge]; cbn [andb].
    + destruct (p i).
      * rewrite IH by (rewrite length_app; simpl; lia).
        rewrite length_app. simpl.
        replace (max - length acc)%nat with (S (max - (length acc + 1)))%nat by lia.
        simpl. now rewrite <- app_assoc.
      * now apply IH.
    + rewrite IH by assumption.
      replace (max - length acc)%nat with O by lia. now rewrite !firstn_O.
Qed.

Section SensorGroups.

Context {F Host : Type} {CF : CFloat F}.

#[local] Abbreviation ctx_t := (sdi12_sensor_ctx_t F Host).

Lemma count_group_filter (c : ctx_t) grp :
  count_group c grp = length (filter (in_group c grp) (seq 0 (param_count c))).
Proof. unfold count_group. now rewrite count_fold. Qed.

Lemma collect_group_filter (c : ctx_t) grp max :
  collect_group_indices c grp max
  = firstn max (filter (in_group c grp) (seq 0 (param_count c))).
Proof.
  unfold collect_group_indices. rewrite collect_fold by (simpl; lia).
  simpl. now rewrite Nat.sub_0_r.
Qed.

(** X11: the two loops over the parameter table agree: [count_group]
    counts the active parameters of a group among the registered ones,
    and [collect_group_indices] returns the first [max] of their
    indices, in registration order; so it returns
    [min max (count_group ..)] indices. *)
Theorem group_indices_are_first_members (c : ctx_t) (grp max : nat) :
  let members := filter (in_group c grp) (seq 0 (param_count c)) in
  count_group c grp = length members /\
  sdi12_sensor_group_count c grp = length members /\
  collect_group_indices c grp max = firstn max members /\
  length (collect_group_indices c grp max) = Nat.min max (count_group c grp).
Proof.
  cbv zeta. split; [apply count_group_filter|].
  split; [apply count_group_filter|].
  split; [apply collect_group_filter|].
  now rewrite collect_group_filter, count_group_filter, length_firstn.
Qed.

Lemma register_param_members (c : ctx_t) grp g shef_ units_ d :
  (param_count c < SDI12_MAX_PARAMS)%nat ->
  (grp < SDI12_MAX_MEAS_GROUPS)%nat ->
  length (params c) = SDI12_MAX_PARAMS ->
  let c' := snd (sdi12_sensor_register_param c grp shef_ units_ d) in
  filter (in_group c' g) (seq 0 (param_count c'))
  = filter (in_group c g) (seq 0 (param_count c))
    ++ (if (grp =? g)%nat then [param_count c] else []).
Proof.
  intros Hn Hg Hlen. unfold sdi12_sensor_register_param.
  destruct (Nat.leb_spec SDI12_MAX_PARAMS (param_count c)); [lia|].
  destruct (Nat.leb_spec SDI12_MAX_MEAS_GROUPS grp); [lia|].
  cbv zeta. cbn [snd]. simpl_ctx.
  rewrite seq_S, filter_app. cbn [plus filter]. f_equal.
  - apply filter_ext_in. intros i Hi. apply in_seq in Hi.
    unfold in_group. simpl_ctx. rewrite nth_store_other by lia. reflexivity.
  - unfold in_group. simpl_ctx. rewrite nth_store_same by lia.
    cbn [active group andb]. now destruct (grp =? g)%nat.
Qed.

(** X12: registering a parameter in a table that is not full, for a group
    below [SDI12_MAX_MEAS_GROUPS], succeeds; the new parameter gets the
    next index and becomes the last member of its group; the group's
    count grows by one and every other group is as before. *)
Theorem register_param_adds_to_group (c : ctx_t) (grp : nat)
                                     (shef_ units_ : list Z) (d : Z) :
  (param_count c < SDI12_MAX_PARAMS)%nat ->
  (grp < SDI12_MAX_MEAS_GROUPS)%nat ->
  length (params c) = SDI12_MAX_PARAMS ->
  let r := sdi12_sensor_register_param c grp shef_ units_ d in
  fst r = SDI12_OK /\
  param_count (snd r) = S (param_count c) /\
  sdi12_sensor_group_count (snd r) grp = S (sdi12_sensor_group_count c grp) /\
  (forall g, g <> grp ->
     sdi12_sensor_group_count (snd r) g = sdi12_sensor_group_count c g) /\
  collect_group_indices (snd r) grp SDI12_MAX_PARAMS
  = collect_group_indices c grp SDI12_MAX_PARAMS ++ [param_count c].
Proof.
  intros Hn Hg Hlen r.
  pose proof (fun g => register_param_members c grp g shef_ units_ d Hn Hg Hlen) as M.
  cbv zeta in M. fold r in M.
  assert (E : fst r = SDI12_OK /\ param_count (snd r) = S (param_count c)).
  { subst r. unfold sdi12_sensor_register_param.
    destruct (Nat.leb_spec SDI12_MAX_PARAMS (param_count c)); [lia|].
    destruct (Nat.leb_spec SDI12_MAX_MEAS_GROUPS grp); [lia|].
    split; reflexivity. }
  destruct E as [E1 E2].
  split; [exact E1|]. split; [exact E2|].
  unfold sdi12_sensor_group_count.
  split; [|split].
  - rewrite !count_group_filter, M, Nat.eqb_refl, length_app. simpl. lia.
  - intros g Hne. rewrite !count_group_filter, M.
    destruct (Nat.eqb_spec grp g); [congruence|]. now rewrite app_nil_r.
  - rewrite !collect_group_filter, M, Nat.eqb_refl.
    assert (L : (length (filter (in_group c grp) (seq 0 (param_count c)))
                 <= param_count c)%nat).
    { etransitivity; [apply filter_length_le|]. now rewrite length_seq. }
    rewrite firstn_all2 by (rewrite length_app; simpl; lia).
    rewrite firstn_all2 by lia. reflexivity.
Qed.

End SensorGroups.

(* ====================================================================== *)
(** * Sensor engine: measurements and data requests *)
(* ====================================================================== *)

Lemma fmt_u_digit n : 0 <= n <= 9 -> fmt_u n = [ch "0" + n].
Proof.
  intros H. unfold fmt_u, fmt_u_aux.
  rewrite Z.div_small, Z.mod_small by lia. reflexivity.
Qed.

Section SensorMeasurement.

Context {F Host : Type} {CF : CFloat F}.

#[local] Abbreviation ctx_t := (sdi12_sensor_ctx_t F Host).
#[local] Abbreviation world_t := (world F Host).

Lemma read_all_count (rd : nat -> Host -> sdi12_value_t F * Host) (l : list nat) :
  forall v : world_t,
    cb_read_param (cb (w_ctx v)) = Some rd ->
    data_cache_count (w_ctx (fold_left read_one l v))
    = Nat.min (Nat.max (data_cache_count (w_ctx v)) SDI12_MAX_PARAMS)
              (data_cache_count (w_ctx v) + length l).
Proof.
  induction l as [|i l IH]; intros v Hrd; simpl.
  - unfold SDI12_MAX_PARAMS. lia.
  - assert (Hc : cb (w_ctx (read_one v i)) = cb (w_ctx v)) by apply read_one_frame.
    rewrite IH by (now rewrite Hc).
    unfold read_one. rewrite Hrd.
    destruct (Nat.ltb_spec (data_cache_count (w_ctx v)) SDI12_MAX_PARAMS);
      simpl_ctx; unfold SDI12_MAX_PARAMS in *; clear - H; lia.
Qed.

Lemma read_group_sync_count (w : world_t) grp rd :
  cb_read_param (cb (w_ctx w)) = Some rd ->
  (param_count (w_ctx w) <= SDI12_MAX_PARAMS)%nat ->
  data_cache_count (w_ctx (read_group_sync w grp)) = count_group (w_ctx w) grp /\
  data_available (w_ctx (read_group_sync w grp)) = true.
Proof.
  intros Hrd Hp. unfold read_group_sync. simpl_ctx. split; [|reflexivity].
  rewrite (read_all_count rd) by (simpl_ctx; exact Hrd). simpl_ctx.
  rewrite collect_group_filter, count_group_filter, length_firstn.
  assert (L : (length (filter (in_group (w_ctx w) grp) (seq 0 (param_count (w_ctx w))))
               <= param_count (w_ctx w))%nat).
  { etransitivity; [apply filter_length_le|]. now rewrite length_seq. }
  unfold SDI12_MAX_PARAMS in *. lia.
Qed.

(** X13: [aM!] on a ready sensor without a [start_measurement] hook and
    with [n > 0] parameters in group 0: the values are read at once, the
    sensor answers [a000n'] (n' the count capped at 9) and is in
    [DATA_READY] with [n] cached values, pending type standard, no CRC. *)
Theorem sync_measurement_is_ready_at_once (w : world_t)
    (rd : nat -> Host -> sdi12_value_t F * Host) :
  sensor_ready (w_ctx w) = true ->
  cb_start_measurement (cb (w_ctx w)) = None ->
  cb_read_param (cb (w_ctx w)) = Some rd ->
  (param_count (w_ctx w) <= SDI12_MAX_PARAMS)%nat ->
  (0 < count_group (w_ctx w) 0)%nat ->
  let a := address (w_ctx w) in
  let n := count_group (w_ctx w) 0 in
  let r := sdi12_sensor_process w [a; ch "M"; ch "!"] 3 in
  fst r = SDI12_OK /\
  state (w_ctx (snd r)) = SDI12_STATE_DATA_READY /\
  data_available (w_ctx (snd r)) = true /\
  data_cache_count (w_ctx (snd r)) = n /\
  pending_meas_type (w_ctx (snd r)) = SDI12_MEAS_STANDARD /\
  pending_meas_group (w_ctx (snd r)) = O /\
  crc_requested (w_ctx (snd r)) = false /\
  w_trace (snd r)
  = w_trace w
    ++ [EvSend (a :: bytes_of_string "000"
                  ++ [ch "0" + Z.of_nat (Nat.min n 9)] ++ CRLF)].
Proof.
  intros R Hst Hrd Hp Hn a n r.
  assert (Hl : (1 <= stripped_len [a; ch "M"; ch "!"] 3)%nat)
    by (unfold stripped_len; simpl; lia).
  destruct (process_entry w [a; ch "M"; ch "!"] 3 Hl eq_refl)
    as (v & E & Lv & Av & Cv & _ & Pv & PCv & Bv & Tv & _ & _).
  pose proof (entry_ready w v R Av Cv Bv) as Rv.
  assert (Er : r = handle_measurement v 0 false SDI12_MEAS_STANDARD).
  { subst r. rewrite E. unfold stripped_len. cbn [load nth Nat.sub].
    rewrite Z.eqb_refl. unfold dispatch_command.
    cbn [Nat.eqb Nat.leb Nat.ltb load nth andb]. eval_chars.
    unfold group_digit_1_9. cbn [Nat.ltb Nat.leb andb]. reflexivity. }
  clearbody r. subst r. clear E.
  unfold handle_measurement.
  set (v1 := with_ctx (set_pending_meas_group 0)
               (with_ctx (set_pending_meas_type SDI12_MEAS_STANDARD)
                  (with_ctx (set_crc_requested false) v))).
  assert (Hn1 : count_group (w_ctx v1) 0 = n).
  { subst v1 n. apply count_group_ext; simpl_ctx; assumption. }
  cbv zeta. rewrite Hn1.
  destruct (Nat.eqb_spec n 0) as [E0|_]; [subst n; lia|].
  assert (Hc1 : cb (w_ctx v1) = cb (w_ctx w)) by (subst v1; simpl_ctx; exact Cv).
  rewrite Hc1, Hst.
  destruct (read_group_sync_count v1 0 rd) as [D1 D2].
  { now rewrite Hc1. }
  { subst v1. simpl_ctx. now rewrite PCv. }
  destruct (read_group_sync_frame v1 0) as (F1 & F2 & F3).
  destruct (read_group_sync_quiet v1 0) as (_ & Q2).
  assert (Q3 : w_trace (read_group_sync v1 0) = w_trace v1).
  { unfold read_group_sync. simpl_ctx. now rewrite read_all_trace. }
  assert (K : pending_meas_type (w_ctx (read_group_sync v1 0)) = SDI12_MEAS_STANDARD /\
              pending_meas_group (w_ctx (read_group_sync v1 0)) = O /\
              crc_requested (w_ctx (read_group_sync v1 0)) = false /\
              resp_len (w_ctx (read_group_sync v1 0)) = O).
  { unfold read_group_sync. simpl_ctx.
    generalize (collect_group_indices (w_ctx v1) 0 SDI12_MAX_PARAMS). intros l.
    assert (G : forall u : world_t,
              pending_meas_type (w_ctx (fold_left read_one l u)) = pending_meas_type (w_ctx u) /\
              pending_meas_group (w_ctx (fold_left read_one l u)) = pending_meas_group (w_ctx u) /\
              crc_requested (w_ctx (fold_left read_one l u)) = crc_requested (w_ctx u) /\
              resp_len (w_ctx (fold_left read_one l u)) = resp_len (w_ctx u)).
    { induction l as [|i l IH]; intros u; simpl; [auto|].
      destruct (IH (read_one u i)) as (I1 & I2 & I3 & I4).
      rewrite I1, I2, I3, I4. unfold read_one.
      destruct (data_cache_count (w_ctx u) <? SDI12_MAX_PARAMS)%nat; [|auto].
      destruct (cb_read_param (cb (w_ctx u))); simpl_ctx; auto. }
    destruct (G (with_ctx (set_data_cache_count 0) v1)) as (G1 & G2 & G3 & G4).
    rewrite G1, G2, G3, G4. subst v1. simpl_ctx. auto. }
  set (v2 := read_group_sync v1 0) in *. clearbody v2.
  destruct K as (K1 & K2 & K3 & K4).
  assert (Ha1 : address (w_ctx v1) = a) by (subst v1; simpl_ctx; exact Av).
  rewrite Ha1.
  assert (Hd : fmt_u (if 9 <? Z.of_nat n then 9 else Z.of_nat n)
               = [ch "0" + Z.of_nat (Nat.min n 9)]).
  { destruct (Z.ltb_spec 9 (Z.of_nat n)).
    - rewrite fmt_u_digit by lia. do 2 f_equal. lia.
    - rewrite fmt_u_digit by lia. do 3 f_equal. lia. }
  rewrite Hd.
  set (s := a :: bytes_of_string "000" ++ [ch "0" + Z.of_nat (Nat.min n 9)] ++ CRLF).
  assert (R2 : sensor_ready (w_ctx v2) = true).
  { destruct (sensor_ready_parts _ Rv) as (X1 & X2 & X3).
    apply sensor_ready_intro.
    - rewrite F3, Ha1. subst a. now rewrite <- Av.
    - rewrite F1, Hc1, <- Cv. exact X2.
    - rewrite F2. subst v1. simpl_ctx. exact X3. }
  assert (Hs : w_trace (send_response (resp_printf s v2)) = w_trace v2 ++ [EvSend s]).
  { apply printf_reply; try assumption.
    - subst s. constructor.
      + apply valid_address_nonzero. destruct (sensor_ready_parts _ R) as (X1 & _). exact X1.
      + repeat constructor; try discriminate. clear. change (ch "0") with 48. lia.
    - subst s. unfold SDI12_MAX_RESPONSE_LEN. simpl. lia. }
  destruct (sensor_ready_parts _ R2) as (_ & Hcb2 & _).
  rewrite send_response_trace in Hs by (simpl_ctx; assumption).
  cbn [fst snd]. rewrite send_response_ctx.
  rewrite send_response_trace by (simpl_ctx; assumption).
  simpl_ctx.
  split; [reflexivity|]. split; [reflexivity|]. split; [exact D2|].
  split; [now rewrite D1|]. split; [exact K1|]. split; [exact K2|].
  split; [exact K3|].
  rewrite Hs, Q3. subst v1. simpl_ctx. now rewrite Tv.
Qed.


(** X15: a data request [aD<page>!] on a ready sensor that holds no data
    (nothing measured yet, or the data dropped by a break or an abort) is
    answered with the address alone: [a CR LF], or, when the last
    measurement command asked for a CRC, [a], the three CRC characters of
    [a], CR LF, a reply that [sdi12_crc_verify] accepts. *)
Theorem data_request_without_data (w : world_t) (cmd : list Z) (len : nat) :
  sensor_ready (w_ctx w) = true ->
  state (w_ctx w) <> SDI12_STATE_MEASURING_C ->
  data_available (w_ctx w) = false ->
  load cmd 0 = address (w_ctx w) ->
  load cmd 1 = ch "D" ->
  load cmd 2 <> ch "B" ->
  (3 <= stripped_len cmd len)%nat ->
  let a := address (w_ctx w) in
  let r := sdi12_sensor_process w cmd len in
  let reply :=
    if crc_requested (w_ctx w)
    then a :: firstn 3 (sdi12_crc_encode_ascii (sdi12_crc16 [a] 1)) ++ [CR; LF]
    else [a; CR; LF] in
  fst r = SDI12_OK /\
  w_trace (snd r) = w_trace w ++ [EvSend reply] /\
  (crc_requested (w_ctx w) = true -> sdi12_crc_verify reply (length reply) = true).
Proof.
  intros R Hst Hda Ha Hd Hb Hl a r reply.
  destruct (process_entry w cmd len ltac:(lia) Ha)
    as (v & E & Lv & Av & Cv & _ & _ & _ & Bv & Tv & _ & Sv).
  destruct (Sv Hst) as (_ & Dv & _ & _ & Kv & _). clear Sv.
  pose proof (entry_ready w v R Av Cv Bv) as Rv.
  destruct (sensor_ready_parts _ Rv) as (Hva & Hcb & Hlen).
  pose proof (valid_address_nonzero _ Hva) as Hnz.
  assert (Er : r = (SDI12_OK, send_response (reply_address_only (crc_requested (w_ctx w)) v))).
  { subst r. rewrite E. unfold dispatch_command. rewrite Hd.
    destruct (Nat.eqb_spec (stripped_len cmd len) 1) as [E1|_]; [lia|].
    eval_chars.
    destruct (Nat.leb_spec 3 (stripped_len cmd len)) as [_|E3]; [|lia].
    destruct (Z.eqb_spec (load cmd 2) (ch "B")) as [E2|_]; [contradiction|].
    unfold handle_send_data. rewrite Dv, Hda. cbn [negb]. rewrite Kv. reflexivity. }
  rewrite Er. cbn [fst snd]. clear Er E.
  split; [reflexivity|].
  assert (V : sdi12_crc_verify
                (a :: firstn 3 (sdi12_crc_encode_ascii (sdi12_crc16 [a] 1)) ++ [CR; LF]) 6
              = true).
  { pose proof (crc_verify_appended [a]
                  (firstn 3 (sdi12_crc_encode_ascii (sdi12_crc16 [a] 1))) []
                  ltac:(simpl; lia) eq_refl) as V.
    cbn [length Nat.add app] in V. exact V. }
  subst reply. destruct (crc_requested (w_ctx w)).
  - split; [|intros _; exact V].
    unfold reply_address_only.
    rewrite send_response_trace by (simpl_ctx; assumption).
    simpl_ctx. rewrite Tv. do 3 f_equal.
    rewrite snprintf_fits by (rewrite Hlen; unfold SDI12_MAX_RESPONSE_LEN; simpl; lia).
    rewrite Av in Hnz |- *. fold a in Hnz |- *.
    set (t := skipn (length [a] + 1) (resp_buf (w_ctx v))).
    assert (Ht : (length t = 80)%nat).
    { subst t. rewrite length_skipn, Hlen. reflexivity. }
    clearbody t.
    unfold sdi12_crc_append. cbn [app strlen].
    destruct (Z.eqb_spec a 0) as [E0|_]; [contradiction|].
    unfold SDI12_MAX_RESPONSE_LEN.
    cbn [strlen Z.eqb Nat.leb andb Nat.add Nat.ltb length]. cbv iota zeta.
    pose proof (crc_append_stores [a] (0 :: t)) as S6.
    cbn [length app Nat.add] in S6. cbn [snd Nat.add].
    rewrite S6 by (simpl; lia).
    change (sdi12_crc16 (a :: 0 :: t) 1) with (sdi12_crc16 [a] 1).
    set (e := sdi12_crc_encode_ascii (sdi12_crc16 [a] 1)).
    pose proof (crc_encoded_nonzero (sdi12_crc16 [a] 1) 0 ltac:(lia)) as N0.
    pose proof (crc_encoded_nonzero (sdi12_crc16 [a] 1) 1 ltac:(lia)) as N1.
    pose proof (crc_encoded_nonzero (sdi12_crc16 [a] 1) 2 ltac:(lia)) as N2.
    fold e in N0, N1, N2.
    unfold cstring. cbn [strlen].
    destruct (Z.eqb_spec a 0) as [E0|_]; [contradiction|].
    destruct (Z.eqb_spec (load e 0) 0) as [E0|_]; [contradiction|].
    destruct (Z.eqb_spec (load e 1) 0) as [E0|_]; [contradiction|].
    destruct (Z.eqb_spec (load e 2) 0) as [E0|_]; [contradiction|].
    reflexivity.
  - split; [|discriminate].
    unfold reply_address_only.
    rewrite printf_reply; try assumption.
    + now rewrite Tv, Av.
    + constructor; [exact Hnz|]. repeat constructor; discriminate.
    + unfold SDI12_MAX_RESPONSE_LEN. simpl. lia.
Qed.

End SensorMeasurement.

(* ====================================================================== *)
(** * Master engine: measurement responses *)
(* ====================================================================== *)

Lemma forallb_below (P : Z -> bool) (n : nat) :
  forallb P (below n) = true -> forall x, 0 <= x < Z.of_nat n -> P x = true.
Proof.
  intros H x Hx. rewrite forallb_forall in H. apply H.
  apply in_map_iff. exists (Z.to_nat x). split; [lia|].
  apply in_seq. lia.
Qed.

(** ["%0<w>u"] of a number of at most [w] digits is [w] digits that read
    back as the number. *)
Lemma fmt_0u_table :
  forallb (fun x => forallb is_digit (fmt_0u 3 x)
                    && (length (fmt_0u 3 x) =? 3)%nat
                    && (digits_value (fmt_0u 3 x) 0 =? x)) (below 1000) = true /\
  forallb (fun x => forallb is_digit (fmt_0u 2 x)
                    && (length (fmt_0u 2 x) =? 2)%nat
                    && (digits_value (fmt_0u 2 x) 0 =? x)) (below 100) = true /\
  forallb (fun x => forallb is_digit (fmt_0u 1 x)
                    && (length (fmt_0u 1 x) =? 1)%nat
                    && (digits_value (fmt_0u 1 x) 0 =? x)
                    && (if list_eq_dec Z.eq_dec (fmt_0u 1 x) (fmt_u x) then true else false))
          (below 10) = true.
Proof. vm_compute. repeat split. Qed.

Lemma fmt_0u_digits (w : nat) (x : Z) :
  (1 <= w <= 3)%nat -> 0 <= x < 10 ^ Z.of_nat w ->
  Forall (fun c => is_digit c = true) (fmt_0u w x) /\
  length (fmt_0u w x) = w /\
  digits_value (fmt_0u w x) 0 = x.
Proof.
  intros Hw Hx. destruct fmt_0u_table as (T3 & T2 & T1).
  assert (G : forall n, forallb (fun x => forallb is_digit (fmt_0u w x)
                    && (length (fmt_0u w x) =? w)%nat
                    && (digits_value (fmt_0u w x) 0 =? x)) (below n) = true ->
              0 <= x < Z.of_nat n ->
              Forall (fun c => is_digit c = true) (fmt_0u w x) /\
              length (fmt_0u w x) = w /\ digits_value (fmt_0u w x) 0 = x).
  { intros n T R. pose proof (forallb_below _ n T x R) as B. cbv beta in B.
    apply andb_prop in B. destruct B as [B B3]. apply andb_prop in B.
    destruct B as [B1 B2]. split; [|split].
    - apply Forall_forall. now apply forallb_forall.
    - now apply Nat.eqb_eq.
    - now apply Z.eqb_eq. }
  destruct w as [|[|[|[|w]]]]; try lia.
  - apply (G 10%nat); [|simpl in Hx; lia].
    rewrite forallb_forall in T1 |- *. intros y Hy. specialize (T1 y Hy).
    apply andb_prop in T1. tauto.
  - apply (G 100%nat); [exact T2 | simpl in Hx; lia].
  - apply (G 1000%nat); [exact T3 | simpl in Hx; lia].
Qed.

Lemma fmt_0u_1 (x : Z) : 0 <= x <= 9 -> fmt_0u 1 x = fmt_u x.
Proof.
  intros Hx. destruct fmt_0u_table as (_ & _ & T1).
  pose proof (forallb_below _ 10 T1 x ltac:(lia)) as B. cbv beta in B.
  apply andb_prop in B. destruct B as [_ B].
  now destruct (list_eq_dec Z.eq_dec (fmt_0u 1 x) (fmt_u x)).
Qed.

Lemma parse_digits_loop_run (ds : list Z) : forall pre rest n out,
  Forall (fun c => is_digit c = true) ds ->
  parse_digits_loop (pre ++ ds ++ rest) (length pre) (length ds) n out
  = ((n + length ds)%nat, digits_value ds out).
Proof.
  induction ds as [|d ds IH]; intros pre rest n out Hd; simpl.
  - now rewrite Nat.add_0_r.
  - inversion Hd as [|? ? Hd1 Hd2]; subst.
    rewrite load_app_r, Nat.sub_diag by lia. cbn [load nth app].
    unfold is_digit in Hd1. rewrite Hd1.
    change (pre ++ d :: ds ++ rest) with (pre ++ [d] ++ ds ++ rest).
    rewrite app_assoc.
    replace (S (length pre)) with (length (pre ++ [d]))
      by (rewrite length_app; simpl; lia).
    rewrite IH by assumption. f_equal. lia.
Qed.

Lemma parse_digits_loop_ge (s : list Z) : forall left pos n out,
  (n <= fst (parse_digits_loop s pos left n out))%nat.
Proof.
  induction left as [|k IH]; intros pos n out; cbn [parse_digits_loop]; [simpl; lia|].
  destruct (in_range (ch "0") (load s pos) (ch "9")); [|simpl; lia].
  eapply Nat.le_trans; [|apply IH]. lia.
Qed.

Lemma parse_digits_loop_bound (s : list Z) : forall left pos n out,
  0 <= out ->
  let r := parse_digits_loop s pos left n out in
  (fst r <= n + left)%nat /\
  0 <= snd r < (out + 1) * 10 ^ Z.of_nat (fst r - n).
Proof.
  induction left as [|k IH]; intros pos n out Ho; cbn [parse_digits_loop].
  - cbn [fst snd]. rewrite Nat.sub_diag. simpl. lia.
  - destruct (in_range (ch "0") (load s pos) (ch "9")) eqn:E.
    + unfold in_range in E. apply andb_prop in E. destruct E as [E1 E2].
      apply Z.leb_le in E1, E2. change (ch "0") with 48 in *. change (ch "9") with 57 in *.
      set (d := load s pos - 48) in *.
      assert (Hm : 0 <= (out * 10 + d) mod 2 ^ 32 <= out * 10 + d).
      { split; [apply Z.mod_pos_bound; lia | apply Z.mod_le; lia]. }
      specialize (IH (S pos) (S n) ((out * 10 + d) mod 2 ^ 32) ltac:(lia)).
      cbv zeta in IH. destruct IH as [I1 I2].
      set (r := parse_digits_loop s (S pos) k (S n) ((out * 10 + d) mod 2 ^ 32)) in *.
      assert (Hge : (S n <= fst r)%nat) by apply parse_digits_loop_ge.
      split; [lia|].
      replace (fst r - n)%nat with (S (fst r - S n)) by lia.
      rewrite Nat2Z.inj_succ, Z.pow_succ_r by lia.
      assert (0 < 10 ^ Z.of_nat (fst r - S n)) by (apply Z.pow_pos_nonneg; lia).
      nia.
    + cbn [fst snd]. rewrite Nat.sub_diag. simpl. lia.
Qed.

Section MasterMeasurement.

Context {F Host : Type} {CF : CFloat F}.

(** The header [a ttt n..] in a buffer, read by the master. *)
Lemma parse_meas_response_header (a ttt n : Z) (type : sdi12_meas_type_t)
                                         (rest : list Z) :
  0 <= ttt <= 999 ->
  0 <= n < 10 ^ Z.of_nat (count_digits type) ->
  let text := a :: fmt_0u 3 ttt ++ fmt_0u (count_digits type) n in
  sdi12_master_parse_meas_response (text ++ rest) (length text) type
  = (SDI12_OK, {| mr_address := a; wait_seconds := ttt; value_count := n;
                  mr_type := SDI12_MEAS_STANDARD |}).
Proof.
  intros Ht Hn text.
  destruct (fmt_0u_digits 3 ttt ltac:(lia) ltac:(simpl; lia)) as (D1 & L1 & V1).
  assert (Hw : (1 <= count_digits type <= 3)%nat) by (destruct type; simpl; lia).
  destruct (fmt_0u_digits (count_digits type) n Hw Hn) as (D2 & L2 & V2).
  unfold sdi12_master_parse_meas_response.
  assert (Hlen : length text = (4 + count_digits type)%nat).
  { subst text. simpl. rewrite length_app, L1, L2. lia. }
  rewrite Hlen. destruct (Nat.ltb_spec (4 + count_digits type) 5) as [H5|_]; [lia|].
  cbv zeta. cbn [mr_address wait_seconds value_count mr_type zero_meas_response].
  assert (P1 : parse_digits (text ++ rest) 1 3 = (3%nat, ttt)).
  { unfold parse_digits. subst text.
    pose proof (parse_digits_loop_run (fmt_0u 3 ttt) [a]
                  (fmt_0u (count_digits type) n ++ rest) 0 0 D1) as R.
    rewrite L1, V1 in R. cbn [length app Nat.add] in R.
    cbn [app]. rewrite <- app_assoc. exact R. }
  assert (P2 : parse_digits (text ++ rest) 4 (count_digits type)
               = (count_digits type, n)).
  { unfold parse_digits. subst text.
    pose proof (parse_digits_loop_run (fmt_0u (count_digits type) n)
                  (a :: fmt_0u 3 ttt) rest 0 0 D2) as R.
    rewrite L2, V2 in R. cbn [length] in R. rewrite L1 in R.
    cbn [app] in R |- *. rewrite <- app_assoc. exact R. }
  rewrite P1, P2. cbn [fst snd]. rewrite !Nat.eqb_refl. cbn [negb].
  subst text. cbn [app load nth].
  rewrite !Z.mod_small; [reflexivity | |lia].
  assert (10 ^ Z.of_nat (count_digits type) <= 1000)
    by (destruct type; simpl; lia).
  lia.
Qed.

(** X16: [sdi12_master_parse_meas_response] reads back the measurement
    header the sensor prints: the address, ["%03u"] of the wait time and
    the count in the width of the measurement type (one digit for
    M and V, two for C and R, three for HA and HB) give [SDI12_OK] with
    exactly these fields, whatever follows the header in the buffer; a
    one-digit count printed with ["%u"] is the same text. *)
Theorem parse_meas_response_reads_header (a ttt n : Z) (type : sdi12_meas_type_t)
                                         (rest : list Z) :
  0 <= ttt <= 999 ->
  0 <= n < 10 ^ Z.of_nat (count_digits type) ->
  let text := a :: fmt_0u 3 ttt ++ fmt_0u (count_digits type) n in
  sdi12_master_parse_meas_response (text ++ rest) (length text) type
  = (SDI12_OK, {| mr_address := a; wait_seconds := ttt; value_count := n;
                  mr_type := SDI12_MEAS_STANDARD |}) /\
  (count_digits type = 1%nat -> fmt_0u (count_digits type) n = fmt_u n).
Proof.
  intros Ht Hn text. split.
  - now apply parse_meas_response_header.
  - intros E. rewrite E in *. apply fmt_0u_1. simpl in Hn. lia.
Qed.

(** X17: whatever the buffer holds, [sdi12_master_parse_meas_response]
    rejects a response shorter than five characters, and when it
    returns [SDI12_OK] the address is the first byte, the wait time is
    at most 999 and the count is below ten to the width of the type's
    count field (so at most 9, 99 or 999). *)
Theorem parse_meas_response_fields_bounded (resp_str : list Z) (len : nat)
                                           (type : sdi12_meas_type_t) :
  let r := sdi12_master_parse_meas_response resp_str len type in
  ((len < 5)%nat -> r = (SDI12_ERR_INVALID_COMMAND, zero_meas_response)) /\
  (fst r = SDI12_OK ->
   mr_address (snd r) = load resp_str 0 /\
   0 <= wait_seconds (snd r) <= 999 /\
   0 <= value_count (snd r) < 10 ^ Z.of_nat (count_digits type)).
Proof.
  cbv zeta. unfold sdi12_master_parse_meas_response. split.
  - intros H. destruct (Nat.ltb_spec len 5); [reflexivity|lia].
  - destruct (len <? 5)%nat; [discriminate|]. cbv zeta.
    cbn [mr_address wait_seconds value_count mr_type zero_meas_response].
    unfold parse_digits.
    pose proof (parse_digits_loop_bound resp_str 3 1 0 0 ltac:(lia)) as B1.
    pose proof (parse_digits_loop_bound resp_str (count_digits type) 4 0 0 ltac:(lia)) as B2.
    cbv zeta in B1, B2.
    destruct (parse_digits_loop resp_str 1 3 0 0) as [k1 t].
    destruct (parse_digits_loop resp_str 4 (count_digits type) 0 0) as [k2 n].
    cbn [fst snd] in *.
    destruct (Nat.eqb_spec k1 3) as [->|]; [|discriminate].
    destruct (Nat.eqb_spec k2 (count_digits type)) as [->|]; [|discriminate].
    cbn [negb fst snd mr_address wait_seconds value_count]. intros _.
    rewrite Nat.sub_0_r in B1, B2. change (10 ^ Z.of_nat 3) with 1000 in B1.
    assert (10 ^ Z.of_nat (count_digits type) <= 1000)
      by (destruct type; simpl; lia).
    rewrite !Z.mod_small by lia. split; [reflexivity|]. lia.
Qed.

End MasterMeasurement.

(* ====================================================================== *)
(** * Master engine: transactions *)
(* ====================================================================== *)

Lemma strlen_snprintf (k : nat) (text : list Z) :
  Forall (fun b => b <> 0) text -> (length text < k)%nat ->
  strlen (snprintf (repeat 0 k) text) = length text /\
  firstn (length text) (snprintf (repeat 0 k) text) = text.
Proof.
  intros Hnz Hk.
  rewrite snprintf_fits by (rewrite repeat_length; lia).
  rewrite strlen_app_nul by assumption. split; [reflexivity|].
  now rewrite firstn_app, Nat.sub_diag, firstn_all, app_nil_r.
Qed.

(** Trailing CR LF after a body that does not end in CR or LF. *)
Lemma trim_crlf_body (body rest : list Z) :
  (forall c, last body 1 = c -> c <> CR /\ c <> LF) ->
  trim_crlf (body ++ [CR; LF] ++ rest) (length body + 2)
  = (body ++ [0; 0] ++ rest, length body).
Proof.
  intros Hlast.
  replace (length body + 2)%nat with (S (S (length body))) by lia.
  cbn [trim_crlf].
  rewrite load_app_r by lia.
  replace (S (length body) - length body)%nat with 1%nat by lia.
  cbn [load nth app]. change (LF =? CR) with false. rewrite Z.eqb_refl. cbn [orb].
  rewrite store_app_r by lia.
  replace (S (length body) - length body)%nat with 1%nat by lia.
  cbn [store].
  rewrite load_app_r, Nat.sub_diag by lia. cbn [load nth]. rewrite Z.eqb_refl.
  cbn [orb].
  rewrite store_app_r, Nat.sub_diag by lia. cbn [store].
  destruct body as [|b0 body'] using rev_ind; [reflexivity|].
  clear IHbody'. rewrite length_app. cbn [length].
  replace (length body' + 1)%nat with (S (length body')) by lia.
  cbn [trim_crlf].
  rewrite <- app_assoc. rewrite load_app_r, Nat.sub_diag by lia. cbn [app load nth].
  destruct (Hlast b0) as [N1 N2]; [now rewrite last_last|].
  destruct (Z.eqb_spec b0 CR); [contradiction|].
  destruct (Z.eqb_spec b0 LF); [contradiction|].
  reflexivity.
Qed.

Section MasterTransactions.

Context {F Host : Type} {CF : CFloat F}.

#[local] Abbreviation mworld := (@master_world Host).

Lemma send_command_frame (mw : mworld) (cmd : list Z) :
  (strlen cmd <= SDI12_CMD_MAX_CHARS)%nat ->
  fst (send_command mw cmd) = SDI12_OK /\
  m_resp_buf (mw_ctx (snd (send_command mw cmd))) = m_resp_buf (mw_ctx mw) /\
  mcb (mw_ctx (snd (send_command mw cmd))) = mcb (mw_ctx mw).
Proof.
  intros H. unfold send_command.
  destruct (Nat.ltb_spec SDI12_CMD_MAX_CHARS (strlen cmd)); [lia|].
  repeat split.
Qed.

(** A transaction whose command fits: a timeout when [recv] delivers
    nothing, else the delivered bytes, NUL-terminated, in the response
    buffer. *)
Lemma transact_received (mw : mworld) (cmd : list Z) (timeout_ms : Z) :
  (strlen cmd <= SDI12_CMD_MAX_CHARS)%nat ->
  let got := received mw cmd timeout_ms in
  let r := sdi12_master_transact mw cmd timeout_ms in
  (got = [] -> fst r = SDI12_ERR_TIMEOUT) /\
  (got <> [] ->
   fst r = SDI12_OK /\
   m_resp_len (mw_ctx (snd r)) = length got /\
   m_resp_buf (mw_ctx (snd r))
   = got ++ 0 :: skipn (S (length got)) (m_resp_buf (mw_ctx mw))).
Proof.
  intros Hc got r. subst got r.
  destruct (send_command_frame mw cmd Hc) as (S1 & S2 & S3).
  unfold sdi12_master_transact, received.
  destruct (send_command mw cmd) as [e mw1]. cbn [fst snd] in *. subst e.
  unfold recv_response. rewrite S2.
  set (buf := m_resp_buf (mw_ctx mw)).
  set (got := firstn (length buf - 1) (fst (mcb_recv _ _ _ _))).
  assert (Hgl : (length got <= length buf - 1)%nat).
  { subst got. rewrite length_firstn. lia. }
  destruct (Nat.eqb_spec (length got) 0) as [E0|E0]; cbn [fst snd].
  - split; [reflexivity|]. intros N. destruct got; [congruence|discriminate E0].
  - split; [intros E; rewrite E in E0; simpl in E0; lia|]. intros _.
    cbn [mw_ctx m_resp_buf m_resp_len]. repeat split.
    rewrite blit_at_0 by lia. rewrite store_app_r, Nat.sub_diag by lia.
    f_equal. destruct (skipn (length got) buf) as [|x t] eqn:Es.
    + apply (f_equal (@length Z)) in Es. rewrite length_skipn in Es. simpl in Es. lia.
    + cbn [store]. f_equal.
      replace (S (length got)) with (1 + length got)%nat by lia.
      rewrite <- skipn_skipn, Es. reflexivity.
Qed.

(** The reply [body CR LF] in the response buffer, trimmed. *)
Lemma trim_response_body (mw : mworld) (body rest : list Z) :
  (forall c, last body 1 = c -> c <> CR /\ c <> LF) ->
  m_resp_len (mw_ctx mw) = (length body + 2)%nat ->
  m_resp_buf (mw_ctx mw) = (body ++ [CR; LF]) ++ rest ->
  fst (trim_response mw) = length body /\
  m_resp_buf (mw_ctx (snd (trim_response mw))) = body ++ [0; 0] ++ rest.
Proof.
  intros Hl Hlen Hbuf. unfold trim_response. rewrite Hlen, Hbuf, <- app_assoc.
  rewrite trim_crlf_body by assumption. split; reflexivity.
Qed.

(** X18: [sdi12_master_query_address] never hands back an invalid
    address: it returns [SDI12_OK] only together with a valid address
    character, leaves the caller's variable alone otherwise, and when
    the bus answers ["?!"] with [a CR LF] for a valid [a] it returns
    [a]. *)
Theorem query_address_returns_valid_address (mw : mworld) (addr0 : Z) :
  let r := sdi12_master_query_address mw addr0 in
  (fst (fst r) = SDI12_OK -> sdi12_valid_address (snd (fst r)) = true) /\
  (fst (fst r) <> SDI12_OK -> snd (fst r) = addr0) /\
  (forall a, sdi12_valid_address a = true ->
     received mw (bytes_of_string "?!" ++ [0]) SDI12_RESPONSE_TIMEOUT_MS = [a; CR; LF] ->
     fst r = (SDI12_OK, a)).
Proof.
  cbv zeta. unfold sdi12_master_query_address.
  set (cmd := bytes_of_string "?!" ++ [0]).
  split; [|split].
  - destruct (fst (sdi12_master_transact mw cmd SDI12_RESPONSE_TIMEOUT_MS));
      try discriminate.
    match goal with |- context [if ?b then _ else _] => destruct b eqn:E end;
      [|discriminate].
    intros _. cbn [fst snd]. apply andb_prop in E. tauto.
  - destruct (fst (sdi12_master_transact mw cmd SDI12_RESPONSE_TIMEOUT_MS));
      try reflexivity.
    match goal with |- context [if ?b then _ else _] => destruct b eqn:E end;
      cbn [fst snd]; [intros N; now elim N | reflexivity].
  - intros a Ha Hr.
    destruct (transact_received mw cmd SDI12_RESPONSE_TIMEOUT_MS) as [_ T].
    { subst cmd. vm_compute. lia. }
    rewrite Hr in T. destruct T as (T1 & T2 & T3); [discriminate|].
    rewrite T1.
    destruct (trim_response_body _ [a] _ ltac:(intros c <-; now apply valid_address_not_crlf)
                                 T2 T3) as [U1 U2].
    rewrite U1, U2. cbn [length Nat.leb app load nth andb]. rewrite Ha. reflexivity.
Qed.


End MasterTransactions.

(* ====================================================================== *)
(** * Identification: the sensor's reply and the master's reading of it *)
(* ====================================================================== *)

Lemma cstring_nonzero (s : list Z) : Forall (fun b => b <> 0) (cstring s).
Proof.
  unfold cstring. induction s as [|b s IH]; simpl; [constructor|].
  destruct (Z.eqb_spec b 0); simpl; constructor; auto.
Qed.

Lemma cstring_length (s : list Z) : (length (cstring s) <= length s)%nat.
Proof. unfold cstring. rewrite length_firstn. lia. Qed.

Lemma fmt_pad_s_spec (w : nat) (s : list Z) :
  length (fmt_pad_s w s) = w /\ Forall (fun b => b <> 0) (fmt_pad_s w s).
Proof.
  unfold fmt_pad_s. split.
  - rewrite length_app, repeat_length, length_firstn. lia.
  - apply Forall_app. split.
    + apply Forall_take, cstring_nonzero.
    + apply Forall_forall. intros x Hx. apply repeat_spec in Hx. subst x. discriminate.
Qed.

Lemma map_load_prefix (x y : list Z) :
  map (load (x ++ y)) (seq 0 (length x)) = x.
Proof.
  revert y. induction x as [|b x IH] using rev_ind; intros y; [reflexivity|].
  rewrite length_app. cbn [length]. rewrite Nat.add_1_r, seq_S, map_app. cbn [map Nat.add].
  f_equal.
  - rewrite <- app_assoc. apply IH.
  - rewrite <- app_assoc, load_app_r, Nat.sub_diag by lia. reflexivity.
Qed.




Lemma identify_text_spec (a : Z) (id : sdi12_ident_t) :
  a <> 0 ->
  Forall (fun b => b <> 0) (identify_text a id) /\
  length (identify_text a id) = (20 + length (cstring (serial id)))%nat.
Proof.
  intros Ha. unfold identify_text.
  destruct (fmt_pad_s_spec 8 (vendor id)) as [L1 N1].
  destruct (fmt_pad_s_spec 6 (model id)) as [L2 N2].
  destruct (fmt_pad_s_spec 3 (firmware_version id)) as [L3 N3].
  split.
  - constructor; [exact Ha|].
    apply Forall_app; split; [repeat constructor; discriminate|].
    apply Forall_app; split; [exact N1|].
    apply Forall_app; split; [exact N2|].
    apply Forall_app; split; [exact N3 | apply cstring_nonzero].
  - cbn [length]. rewrite !length_app, L1, L2, L3. reflexivity.
Qed.

Section Identification.

Context {F Host : Type} {CF : CFloat F}.

#[local] Abbreviation world_t := (world F Host).
#[local] Abbreviation mworld := (@master_world Host).

(** X20: a ready sensor answers [aI!] with its address, the protocol
    version ["14"], the vendor, model and firmware version padded with
    spaces (or cut) to 8, 6 and 3 characters, the serial number, and
    CR LF. *)
Theorem identify_reply_has_fixed_fields (w : world_t) :
  sensor_ready (w_ctx w) = true ->
  (length (serial (ident (w_ctx w))) <= 14)%nat ->
  let a := address (w_ctx w) in
  let r := sdi12_sensor_process w [a; ch "I"; ch "!"] 3 in
  fst r = SDI12_OK /\
  w_trace (snd r)
  = w_trace w ++ [EvSend (identify_text a (ident (w_ctx w)) ++ [CR; LF])] /\
  length (identify_text a (ident (w_ctx w)))
  = (20 + strlen (serial (ident (w_ctx w))))%nat.
Proof.
  intros R Hs a r.
  assert (Hl : (1 <= stripped_len [a; ch "I"; ch "!"] 3)%nat)
    by (unfold stripped_len; simpl; lia).
  destruct (process_entry w [a; ch "I"; ch "!"] 3 Hl eq_refl)
    as (v & E & Lv & Av & Cv & Iv & _ & _ & Bv & Tv & _ & _).
  pose proof (entry_ready w v R Av Cv Bv) as Rv.
  destruct (sensor_ready_parts _ R) as (Hva & _ & _).
  destruct (identify_text_spec a (ident (w_ctx w)) (valid_address_nonzero _ Hva))
    as [N L].
  pose proof (cstring_length (serial (ident (w_ctx w)))) as Lc.
  assert (Er : r = handle_identify v).
  { subst r. rewrite E. unfold stripped_len. cbn [load nth Nat.sub].
    rewrite Z.eqb_refl. unfold dispatch_command.
    cbn [Nat.eqb load nth]. eval_chars. reflexivity. }
  rewrite Er. unfold handle_identify. cbn [fst snd]. rewrite Av, Iv.
  split; [reflexivity|]. split.
  - change (address (w_ctx w)) with a.
    replace (a :: SDI12_PROTOCOL_VERSION ++ fmt_pad_s 8 (vendor (ident (w_ctx w)))
               ++ fmt_pad_s 6 (model (ident (w_ctx w)))
               ++ fmt_pad_s 3 (firmware_version (ident (w_ctx w)))
               ++ cstring (serial (ident (w_ctx w))) ++ CRLF)
      with (identify_text a (ident (w_ctx w)) ++ [CR; LF]).
    + rewrite printf_reply; try assumption.
      * now rewrite Tv.
      * apply Forall_app. split; [exact N|]. repeat constructor; discriminate.
      * rewrite length_app, L. unfold SDI12_MAX_RESPONSE_LEN. simpl. lia.
    + unfold identify_text, CRLF. cbn [app]. f_equal.
      now rewrite <- !app_assoc.
  - rewrite L. unfold cstring. rewrite length_firstn.
    assert (strlen (serial (ident (w_ctx w))) <= length (serial (ident (w_ctx w))))%nat.
    { clear. induction (serial (ident (w_ctx w))) as [|b s IH]; simpl; [lia|].
      destruct (b =? 0); simpl; lia. }
    lia.
Qed.


End Identification.

(* ====================================================================== *)
(** * Measurement commands: what the master sends, what the sensor starts *)
(* ====================================================================== *)

(** ["%u"] of a [uint8_t] is one to three digits. *)
Lemma fmt_u_byte_table :
  forallb (fun g => forallb is_digit (fmt_u g) && (length (fmt_u g) <=? 3)%nat)
          (below 256) = true.
Proof. vm_compute. reflexivity. Qed.

Lemma fmt_u_byte (g : Z) :
  0 <= g <= 255 ->
  Forall (fun c => is_digit c = true) (fmt_u g) /\ (length (fmt_u g) <= 3)%nat.
Proof.
  intros H. pose proof (forallb_below _ 256 fmt_u_byte_table g ltac:(lia)) as B.
  cbv beta in B. apply andb_prop in B. destruct B as [B1 B2].
  split; [apply Forall_forall; now apply forallb_forall | now apply Nat.leb_le].
Qed.

Lemma digit_nonzero (c : Z) : is_digit c = true -> c <> 0.
Proof. unfold is_digit, in_range, ch. simpl. lia. Qed.

Lemma digit_not_crlf (c : Z) : is_digit c = true -> c <> CR /\ c <> LF.
Proof. unfold is_digit, in_range, ch, CR, LF. simpl. lia. Qed.

Lemma digits_nonzero (ds : list Z) :
  Forall (fun c => is_digit c = true) ds -> Forall (fun b => b <> 0) ds.
Proof. apply Forall_impl. exact digit_nonzero. Qed.

(** The command texts of [sdi12_master_start_measurement] are C strings
    of at most seven characters. *)
Lemma meas_command_text (addr : Z) (type : sdi12_meas_type_t) (group : Z)
                        (crc : bool) (text : list Z) :
  addr <> 0 -> 0 <= group <= 255 ->
  meas_command addr type group crc = Some text ->
  Forall (fun b => b <> 0) text /\ (length text <= 7)%nat.
Proof.
  intros Ha Hg. destruct (fmt_u_byte group Hg) as [D L].
  apply digits_nonzero in D.
  unfold meas_command.
  destruct type; destruct crc; cbv beta zeta; intros E; inversion E; subst text; clear E;
    try destruct (0 <? group);
    (split;
     [ repeat first [ apply Forall_nil
                    | apply Forall_cons; [first [exact Ha | discriminate]|]
                    | apply Forall_app; split; [exact D|] ]
     | cbn [length]; rewrite ?length_app; simpl; lia ]).
Qed.

Section MeasurementCommands.

Context {F Host : Type} {CF : CFloat F}.

#[local] Abbreviation ctx_t := (sdi12_sensor_ctx_t F Host).
#[local] Abbreviation world_t := (world F Host).
#[local] Abbreviation mworld := (@master_world Host).

(** X22: [sdi12_master_start_measurement] for a valid address, any type
    but continuous and any group sends one command and, when the bus
    answers with a measurement header [a ttt n..] (the count in the
    width of the type) and CR LF, returns [SDI12_OK] with the header's
    address, wait time and count; the response's [type] field is left
    zeroed, which reads as standard. *)
Theorem start_measurement_reads_reply (mw : mworld) (addr : Z)
    (type : sdi12_meas_type_t) (group : Z) (crc : bool)
    (resp0 : sdi12_meas_response_t) (text : list Z) (a ttt n : Z) :
  sdi12_valid_address addr = true ->
  0 <= group <= 255 ->
  meas_command addr type group crc = Some text ->
  0 <= ttt <= 999 ->
  0 <= n < 10 ^ Z.of_nat (count_digits type) ->
  received mw (snprintf (repeat 0 16) text) SDI12_RESPONSE_TIMEOUT_MS
  = (a :: fmt_0u 3 ttt ++ fmt_0u (count_digits type) n) ++ [CR; LF] ->
  cstring (snprintf (repeat 0 16) text) = text /\
  fst (sdi12_master_start_measurement mw addr type group crc resp0)
  = (SDI12_OK, {| mr_address := a; wait_seconds := ttt; value_count := n;
                  mr_type := SDI12_MEAS_STANDARD |}).
Proof.
  intros Hva Hg Hcmd Ht Hn Hr.
  destruct (meas_command_text addr type group crc text
              (valid_address_nonzero _ Hva) Hg Hcmd) as [N L].
  destruct (strlen_snprintf 16 text N ltac:(lia)) as [L1 L2].
  set (cmd := snprintf (repeat 0 16) text) in *.
  assert (Hc : (strlen cmd <= SDI12_CMD_MAX_CHARS)%nat)
    by (rewrite L1; unfold SDI12_CMD_MAX_CHARS, SDI12_MAX_COMMAND_LEN; lia).
  split; [unfold cstring; now rewrite L1|].
  destruct (transact_received mw cmd SDI12_RESPONSE_TIMEOUT_MS Hc) as [_ T].
  rewrite Hr in T. destruct T as (T1 & T2 & T3); [discriminate|].
  unfold sdi12_master_start_measurement. rewrite Hva, Hcmd. cbn [negb]. fold cmd.
  rewrite T1.
  set (body := a :: fmt_0u 3 ttt ++ fmt_0u (count_digits type) n) in *.
  assert (Hw : (1 <= count_digits type <= 3)%nat) by (destruct type; simpl; lia).
  destruct (fmt_0u_digits (count_digits type) n Hw Hn) as (D2 & L2' & _).
  assert (Hlast : forall c, last body 1 = c -> c <> CR /\ c <> LF).
  { intros c <-. subst body.
    change (a :: fmt_0u 3 ttt ++ fmt_0u (count_digits type) n)
      with ((a :: fmt_0u 3 ttt) ++ fmt_0u (count_digits type) n).
    destruct (fmt_0u (count_digits type) n) as [|d ds] eqn:Ed using rev_ind;
      [simpl in L2'; lia|].
    rewrite app_assoc, last_last. apply digit_not_crlf.
    apply Forall_app in D2. destruct D2 as [_ D2]. now inversion D2. }
  rewrite length_app in T2. cbn [length] in T2.
  destruct (trim_response_body _ body _ Hlast T2 T3) as [U1 U2].
  rewrite U1, U2. subst body.
  rewrite parse_meas_response_header by assumption. reflexivity.
Qed.

Lemma read_all_keeps (l : list nat) : forall u : world_t,
  pending_meas_type (w_ctx (fold_left read_one l u)) = pending_meas_type (w_ctx u) /\
  pending_meas_group (w_ctx (fold_left read_one l u)) = pending_meas_group (w_ctx u) /\
  crc_requested (w_ctx (fold_left read_one l u)) = crc_requested (w_ctx u) /\
  state (w_ctx (fold_left read_one l u)) = state (w_ctx u).
Proof.
  induction l as [|i l IH]; intros u; simpl; [auto|].
  destruct (IH (read_one u i)) as (I1 & I2 & I3 & I4).
  rewrite I1, I2, I3, I4. unfold read_one.
  destruct (data_cache_count (w_ctx u) <? SDI12_MAX_PARAMS)%nat; [|auto].
  destruct (cb_read_param (cb (w_ctx u))); simpl_ctx; auto.
Qed.

Lemma read_group_sync_keeps (w : world_t) grp :
  pending_meas_type (w_ctx (read_group_sync w grp)) = pending_meas_type (w_ctx w) /\
  pending_meas_group (w_ctx (read_group_sync w grp)) = pending_meas_group (w_ctx w) /\
  crc_requested (w_ctx (read_group_sync w grp)) = crc_requested (w_ctx w) /\
  state (w_ctx (read_group_sync w grp)) = state (w_ctx w).
Proof.
  unfold read_group_sync. simpl_ctx.
  destruct (read_all_keeps (collect_group_indices (w_ctx w) grp SDI12_MAX_PARAMS)
              (with_ctx (set_data_cache_count 0) w)) as (A & B & C & D).
  rewrite A, B, C, D. simpl_ctx. auto.
Qed.

(** What every run of [handle_measurement] records. *)
Lemma handle_measurement_pending (w : world_t) grp crc type :
  let r := handle_measurement w grp crc type in
  fst r = SDI12_OK /\
  pending_meas_type (w_ctx (snd r)) = type /\
  pending_meas_group (w_ctx (snd r)) = grp /\
  crc_requested (w_ctx (snd r)) = crc.
Proof.
  cbv zeta. unfold handle_measurement.
  set (w1 := with_ctx (set_pending_meas_group grp)
               (with_ctx (set_pending_meas_type type)
                  (with_ctx (set_crc_requested crc) w))).
  assert (H1 : pending_meas_type (w_ctx w1) = type /\
               pending_meas_group (w_ctx w1) = grp /\
               crc_requested (w_ctx w1) = crc) by (subst w1; simpl_ctx; auto).
  cbv zeta. fold w1. clearbody w1. destruct H1 as (A & B & C).
  destruct (count_group (w_ctx w1) grp =? 0)%nat.
  { destruct (is_std_or_verif type); cbn [fst snd]; rewrite send_response_ctx;
      simpl_ctx; auto. }
  destruct (cb_start_measurement (cb (w_ctx w1))) as [start|].
  - destruct (start grp type (w_host w1)) as [t h]. cbn [fst snd].
    set (ttt := if 999 <? t mod 65536 then 999 else t mod 65536).
    rewrite send_response_ctx.
    destruct (ttt =? 0).
    + match goal with |- context [read_group_sync ?v grp] =>
        destruct (read_group_sync_keeps v grp) as (K1 & K2 & K3 & _) end.
      split; [reflexivity|]. rewrite K1, K2, K3.
      destruct type; simpl_ctx; auto.
    + destruct type; simpl_ctx; auto.
  - cbn [fst snd]. rewrite send_response_ctx.
    split; [reflexivity|].
    destruct (read_group_sync_keeps w1 grp) as (K1 & K2 & K3 & _).
    destruct type; simpl_ctx; rewrite ?K1, ?K2, ?K3; auto.
Qed.

(** X23: the commands [sdi12_master_start_measurement] builds for
    groups 0 to 9 are understood by the sensor as the master means them:
    a sensor at that address accepts the command and records the same
    measurement type, the same group (group 0 for V, HA and HB) and the
    same CRC request (none for V). *)
Theorem sensor_starts_what_master_asked (w : world_t) (type : sdi12_meas_type_t)
                                        (group : Z) (crc : bool) (text : list Z) :
  sdi12_valid_address (address (w_ctx w)) = true ->
  0 <= group <= 9 ->
  meas_command (address (w_ctx w)) type group crc = Some text ->
  let r := sdi12_sensor_process w text (length text) in
  fst r = SDI12_OK /\
  pending_meas_type (w_ctx (snd r)) = type /\
  pending_meas_group (w_ctx (snd r))
  = match type with
    | SDI12_MEAS_STANDARD | SDI12_MEAS_CONCURRENT => Z.to_nat group
    | _ => O
    end /\
  crc_requested (w_ctx (snd r))
  = match type with SDI12_MEAS_VERIFICATION => false | _ => crc end.
Proof.
  intros Hva Hg Hcmd r.
  set (a := address (w_ctx w)) in *.
  pose proof (valid_address_nonzero _ Hva) as Hnz.
  assert (Hd : 0 < group -> fmt_u group = [ch "0" + group])
    by (intros; apply fmt_u_digit; lia).
  assert (Hlast : load text (length text - 1) = ch "!" /\ load text 0 = a /\
                  (2 <= length text)%nat).
  { unfold meas_command in Hcmd.
    destruct type; destruct crc; inversion Hcmd; subst text; clear Hcmd;
      try (destruct (Z.ltb_spec 0 group); [rewrite Hd by assumption|]);
      cbn; (split; [reflexivity|split; [reflexivity|lia]]). }
  destruct Hlast as (Hbang & H0 & Hlen).
  assert (Hs : stripped_len text (length text) = (length text - 1)%nat).
  { unfold stripped_len. now rewrite Hbang, Z.eqb_refl. }
  destruct (process_entry w text (length text) ltac:(rewrite Hs; lia) H0)
    as (v & E & _).
  subst r. rewrite E, Hs. clear E.
  assert (G : forall txt k g c t,
            dispatch_command v txt k = handle_measurement v g c t ->
            fst (dispatch_command v txt k) = SDI12_OK /\
            pending_meas_type (w_ctx (snd (dispatch_command v txt k))) = t /\
            pending_meas_group (w_ctx (snd (dispatch_command v txt k))) = g /\
            crc_requested (w_ctx (snd (dispatch_command v txt k))) = c).
  { intros txt k g c t ->. apply handle_measurement_pending. }
  assert (Hdig : 0 < group ->
            in_range (ch "1") (ch "0" + group) (ch "9") = true /\
            digit_val (ch "0" + group) = Z.to_nat group /\
            (ch "0" + group =? ch "C") = false).
  { intros Hp. unfold in_range, digit_val. change (ch "0") with 48.
    change (ch "1") with 49. change (ch "9") with 57. change (ch "C") with 67.
    split; [lia | split; [f_equal; lia | lia]]. }
  unfold meas_command in Hcmd.
  destruct type; destruct crc; inversion Hcmd; subst text; clear Hcmd;
    try (destruct (Z.ltb_spec 0 group) as [Hp|Hp];
         [rewrite Hd by assumption; destruct (Hdig Hp) as (D1 & D2 & D3)
         |assert (group = 0) as -> by lia]);
    apply G; unfold dispatch_command, group_digit_1_9;
    cbn [length Nat.sub Nat.eqb Nat.ltb Nat.leb load nth app bytes_of_string
         list_ascii_of_string map andb];
    eval_chars; rewrite ?D3;
    cbn [length Nat.sub Nat.eqb Nat.ltb Nat.leb load nth andb];
    rewrite ?D1, ?D2; reflexivity.
Qed.

End MeasurementCommands.

(* ====================================================================== *)
(** * Master engine: the values of a data response *)
(* ====================================================================== *)

Lemma scan_while_stop (p : Z -> bool) (s : list Z) (data_len fuel pos : nat) :
  (pos <? data_len)%nat && p (load s pos) = false ->
  scan_while p s data_len fuel pos = pos.
Proof. intros H. destruct fuel; simpl; [reflexivity|]. now rewrite H. Qed.

(** Scanning over a run of characters that satisfy [p], up to a
    character that does not, or to the end of the data. *)
Lemma scan_while_run (p : Z -> bool) (run : list Z) : forall pre rest fuel,
  forallb p run = true ->
  (length run <= fuel)%nat ->
  match rest with [] => True | c :: _ => p c = false end ->
  scan_while p (pre ++ run ++ rest) (length (pre ++ run ++ rest)) fuel (length pre)
  = (length pre + length run)%nat.
Proof.
  induction run as [|c run IH]; intros pre rest fuel Hp Hf Hr.
  - simpl. rewrite Nat.add_0_r. apply scan_while_stop.
    destruct rest as [|c rest]; simpl.
    + rewrite app_nil_r. destruct (Nat.ltb_spec (length pre) (length pre)); [lia|reflexivity].
    + rewrite load_app_r, Nat.sub_diag by lia. cbn [load nth]. rewrite Hr.
      apply andb_false_r.
  - simpl in Hp. apply andb_prop in Hp. destruct Hp as [Hc Hp].
    destruct fuel as [|fuel]; [simpl in Hf; lia|]. cbn [scan_while].
    rewrite load_app_r, Nat.sub_diag by lia. cbn [load nth app]. rewrite Hc.
    destruct (Nat.ltb_spec (length pre) (length (pre ++ c :: run ++ rest))) as [_|E];
      [|rewrite length_app in E; simpl in E; lia].
    cbn [andb].
    change (pre ++ c :: run ++ rest) with (pre ++ [c] ++ run ++ rest).
    rewrite app_assoc.
    replace (S (length pre)) with (length (pre ++ [c]))
      by (rewrite length_app; simpl; lia).
    rewrite IH by (simpl in Hf; auto; lia).
    rewrite length_app. simpl. lia.
Qed.

Lemma map_load_window (x : list Z) : forall pre rest n,
  (n <= length x)%nat ->
  map (load (pre ++ x ++ rest)) (seq (length pre) n) = firstn n x.
Proof.
  induction x as [|b x IH]; intros pre rest n Hn.
  - simpl in Hn. assert (n = O) by lia. subst n. reflexivity.
  - destruct n as [|n]; [reflexivity|]. cbn [seq map firstn]. f_equal.
    + rewrite load_app_r, Nat.sub_diag by lia. reflexivity.
    + change (pre ++ (b :: x) ++ rest) with (pre ++ [b] ++ x ++ rest).
      rewrite app_assoc.
      replace (S (length pre)) with (length (pre ++ [b]))
        by (rewrite length_app; simpl; lia).
      apply IH. simpl in Hn. lia.
Qed.

Section MasterValues.

Context {F Host : Type} {CF : CFloat F}.

#[local] Abbreviation value_t := (sdi12_value_t F).




Lemma token_value_within (pre t rest : list Z) :
  token_value (F := F) (pre ++ t ++ rest) (length pre) (length pre + length t)
  = token_value t 0 (length t).
Proof.
  unfold token_value.
  replace (length pre + length t - length pre)%nat with (length t) by lia.
  rewrite Nat.sub_0_r.
  set (vlen := if (SDI12_VALUE_MAX_CHARS <? length t)%nat
               then SDI12_VALUE_MAX_CHARS else length t).
  assert (Hv : (vlen <= length t)%nat).
  { subst vlen. destruct (Nat.ltb_spec SDI12_VALUE_MAX_CHARS (length t)); lia. }
  rewrite (map_load_window t pre rest vlen Hv).
  pose proof (map_load_window t [] [] vlen Hv) as E0.
  cbn [app length] in E0. rewrite app_nil_r in E0. now rewrite E0.
Qed.

(** The loop of [sdi12_master_parse_data_values] on a string of value
    tokens, started at the head of a token. *)
Lemma parse_values_loop_tokens (max_values : nat) (tokens : list (list Z)) :
  forall (pre : list Z) (acc : list value_t) fuel,
    forallb value_token tokens = true ->
    (length acc <= max_values)%nat ->
    (length (concat tokens) <= fuel)%nat ->
    parse_values_loop fuel (pre ++ concat tokens) (length (pre ++ concat tokens))
                      max_values (length pre) acc
    = acc ++ map (fun t => token_value t 0 (length t))
                 (firstn (max_values - length acc) tokens).
Proof.
  induction tokens as [|t ts IH]; intros pre acc fuel Ht Hacc Hfuel.
  - cbn [concat]. rewrite app_nil_r, firstn_nil. cbn [map]. rewrite app_nil_r.
    destruct fuel; cbn [parse_values_loop]; [reflexivity|].
    destruct (Nat.ltb_spec (length pre) (length pre)); [lia|reflexivity].
  - cbn [forallb] in Ht. apply andb_prop in Ht. destruct Ht as [Ht Hts].
    destruct t as [|sg [|d body]]; try discriminate Ht.
    cbn [value_token] in Ht. apply andb_prop in Ht. destruct Ht as [Hsg Hbody].
    set (t := sg :: d :: body) in *.
    cbn [concat] in *. rewrite length_app in Hfuel.
    assert (Lt : length t = S (S (length body))) by reflexivity.
    destruct fuel as [|f]; [lia|]. cbn [parse_values_loop].
    set (s := pre ++ t ++ concat ts).
    assert (Ls : length s = (length pre + length t + length (concat ts))%nat).
    { subst s. rewrite !length_app. lia. }
    destruct (Nat.ltb_spec (length pre) (length s)) as [_|E]; [|lia].
    cbn [andb].
    destruct (Nat.ltb_spec (length acc) max_values) as [Hlt|Hge].
    2:{ replace (max_values - length acc)%nat with O by lia.
        cbn [firstn map]. now rewrite app_nil_r. }
    assert (Hl0 : load s (length pre) = sg).
    { subst s. rewrite load_app_r, Nat.sub_diag by lia. reflexivity. }
    assert (Hns : (sg =? ch " ") = false).
    { unfold is_sign in Hsg. apply orb_prop in Hsg.
      destruct Hsg as [H|H]; apply Z.eqb_eq in H; subst sg; reflexivity. }
    rewrite scan_while_stop by (rewrite Hl0, Hns; apply andb_false_r).
    destruct (Nat.leb_spec (length s) (length pre)) as [E|_]; [lia|].
    rewrite Hl0.
    assert (Hsign : negb (sg =? ch "+") && negb (sg =? ch "-") = false).
    { unfold is_sign in Hsg. destruct (sg =? ch "+"); [reflexivity|].
      cbn [orb] in Hsg. now rewrite Hsg. }
    rewrite Hsign.
    assert (Hscan : scan_while (fun c => is_digit c || (c =? ch ".")) s (length s)
                      (length s - S (length pre)) (S (length pre))
                    = (length pre + length t)%nat).
    { subst s. change (pre ++ t ++ concat ts)
        with (pre ++ [sg] ++ (d :: body) ++ concat ts).
      rewrite app_assoc.
      replace (S (length pre)) with (length (pre ++ [sg]))
        by (rewrite length_app; simpl; lia).
      rewrite scan_while_run.
      - rewrite length_app. simpl. lia.
      - exact Hbody.
      - rewrite !length_app. simpl. lia.
      - destruct ts as [|t2 ts2]; [exact I|].
        cbn [forallb] in Hts. apply andb_prop in Hts. destruct Hts as [H2 _].
        destruct t2 as [|sg2 [|d2 b2]]; try discriminate H2.
        cbn [value_token] in H2. apply andb_prop in H2. destruct H2 as [H2 _].
        cbn [concat app]. unfold is_sign in H2. apply orb_prop in H2.
        destruct H2 as [H|H]; apply Z.eqb_eq in H; subst sg2; reflexivity. }
    cbv zeta. rewrite Hscan.
    destruct (Nat.ltb_spec (length pre + 1) (length pre + length t)) as [_|E]; [|lia].
    replace (token_value s (length pre) (length pre + length t))
      with (token_value (F := F) t 0 (length t))
      by (symmetry; apply token_value_within).
    subst s.
    rewrite (parse_values_loop_fuel _ _ _ f (length (concat ts)))
      by (rewrite !length_app; lia).
    rewrite app_assoc.
    replace (length pre + length t)%nat with (length (pre ++ t))
      by (rewrite length_app; reflexivity).
    rewrite IH; [| exact Hts | rewrite length_app; simpl; lia | lia].
    rewrite length_app. cbn [length].
    replace (max_values - length acc)%nat
      with (S (max_values - (length acc + 1)))%nat by lia.
    cbn [firstn map]. now rewrite <- app_assoc.
Qed.

(** X25: a data response made of value tokens (a sign followed by digits
    and dots) is split back into these tokens: the values stored are
    those of the first [max_values] tokens, each converted by [strtod]
    from at most nine characters, with the number of characters after
    its dot as decimals. *)
Theorem parse_data_values_splits_tokens (tokens : list (list Z)) (max_values : nat) :
  forallb value_token tokens = true ->
  sdi12_master_parse_data_values (F := F) (concat tokens) (length (concat tokens))
                                 max_values false
  = (SDI12_OK, map (fun t => token_value t 0 (length t)) (firstn max_values tokens)).
Proof.
  intros Ht. unfold sdi12_master_parse_data_values. cbn [andb]. f_equal.
  pose proof (parse_values_loop_tokens max_values tokens [] [] (length (concat tokens))
                Ht ltac:(simpl; lia) ltac:(lia)) as P.
  cbn [app length] in P. now rewrite Nat.sub_0_r in P.
Qed.

End MasterValues.

(* ====================================================================== *)
(** * Sensor engine: the frame of a data response *)
(* ====================================================================== *)

Lemma store_split (l : list Z) (n : nat) (v : Z) :
  (n < length l)%nat -> store l n v = firstn n l ++ v :: skipn (S n) l.
Proof.
  revert n; induction l as [|b l IH]; intros [|n] H; simpl in *; try lia; auto.
  f_equal. apply IH. lia.
Qed.

Lemma isprint_nonzero (l : list Z) :
  Forall (fun b => isprint b = true) l -> Forall (fun b => b <> 0) l.
Proof. apply Forall_impl. intros b. unfold isprint, in_range. lia. Qed.

Lemma isprint_not_crlf (b : Z) : isprint b = true -> b <> CR /\ b <> LF.
Proof. unfold isprint, in_range, CR, LF. lia. Qed.

(** [sdi12_crc_append] on a buffer holding a printable string [d]. *)
Lemma crc_append_printable (d rest : list Z) :
  Forall (fun b => isprint b = true) d ->
  (1 <= length d)%nat ->
  (6 <= length rest)%nat ->
  let buf := d ++ 0 :: rest in
  let frame := d ++ firstn 3 (sdi12_crc_encode_ascii (sdi12_crc16 d (length d)))
                 ++ [CR; LF] in
  cstring (snd (sdi12_crc_append buf (length buf))) = frame /\
  sdi12_crc_verify frame (length frame) = true.
Proof.
  intros Hp Hd Hr buf frame.
  pose proof (isprint_nonzero d Hp) as Hnz.
  assert (Hend : (if (2 <=? strlen buf)%nat && (load buf (strlen buf - 2) =? CR)
                                           && (load buf (strlen buf - 1) =? LF)
                  then (strlen buf - 2)%nat else strlen buf) = length d).
  { subst buf. rewrite strlen_app_nul by assumption.
    destruct (Nat.leb_spec 2 (length d)); cbn [andb]; [|reflexivity].
    rewrite !load_app_l by lia.
    assert (Hl : isprint (load d (length d - 1)) = true).
    { rewrite Forall_forall in Hp. apply Hp. unfold load. apply nth_In. lia. }
    destruct (isprint_not_crlf _ Hl) as [_ N].
    destruct (Z.eqb_spec (load d (length d - 1)) LF); [contradiction|].
    now rewrite andb_false_r. }
  split.
  - unfold sdi12_crc_append. rewrite Hend.
    destruct (Nat.ltb_spec (length buf) (length d + 3 + 2 + 1)) as [E|_].
    { subst buf. rewrite length_app in E. simpl in E. lia. }
    cbn [snd]. subst buf.
    rewrite crc_append_stores by (simpl; lia). rewrite crc16_prefix.
    set (e := sdi12_crc_encode_ascii (sdi12_crc16 d (length d))).
    pose proof (crc_encoded_nonzero (sdi12_crc16 d (length d)) 0 ltac:(lia)) as N0.
    pose proof (crc_encoded_nonzero (sdi12_crc16 d (length d)) 1 ltac:(lia)) as N1.
    pose proof (crc_encoded_nonzero (sdi12_crc16 d (length d)) 2 ltac:(lia)) as N2.
    fold e in N0, N1, N2.
    assert (Hstr : strlen (d ++ [load e 0; load e 1; load e 2; CR; LF; 0]
                             ++ skipn 6 (0 :: rest)) = (length d + 5)%nat).
    { rewrite strlen_app_nonzero by assumption. f_equal. simpl.
      destruct (Z.eqb_spec (load e 0) 0); [contradiction|].
      destruct (Z.eqb_spec (load e 1) 0); [contradiction|].
      destruct (Z.eqb_spec (load e 2) 0); [contradiction|].
      reflexivity. }
    unfold cstring. rewrite Hstr, firstn_app.
    replace (length d + 5 - length d)%nat with 5%nat by lia.
    rewrite firstn_all2 by lia. reflexivity.
  - subst frame.
    pose proof (crc_verify_appended d
                  (firstn 3 (sdi12_crc_encode_ascii (sdi12_crc16 d (length d)))) []
                  Hd eq_refl) as V.
    cbn [app] in V. rewrite !length_app. cbn [length firstn sdi12_crc_encode_ascii].
    exact V.
Qed.

Section SensorFrames.

Context {F Host : Type} {CF : CFloat F}.

#[local] Abbreviation ctx_t := (sdi12_sensor_ctx_t F Host).
#[local] Abbreviation world_t := (world F Host).

Lemma format_data_loop_ok page max_chars :
  forall (vals : list (sdi12_value_t F)) st,
    Forall (fun v => value_text_ok (format_value v) = true) vals ->
    page_ok st ->
    let st' := format_data_loop vals page max_chars SDI12_MAX_RESPONSE_LEN st in
    page_ok st' /\ load (pc_buf st') 0 = load (pc_buf st) 0.
Proof.
  induction vals as [|v vals IH]; intros st Hv Hst; cbn [format_data_loop];
    [split; [exact Hst|reflexivity]|].
  inversion Hv as [|? ? Hv1 Hv2]; subst.
  unfold value_text_ok in Hv1. apply andb_prop in Hv1. destruct Hv1 as [Hv1 Hp].
  apply andb_prop in Hv1. destruct Hv1 as [L1 L9].
  apply Nat.leb_le in L1, L9. unfold SDI12_VALUE_MAX_CHARS in L9.
  set (text := format_value v) in *.
  destruct (Nat.leb_spec (length text) 0) as [E|_]; [lia|].
  cbv zeta.
  set (st1 := if (max_chars <? pc_pos st - 1 + length text)%nat && (0 <? pc_pos st - 1)%nat
              then _ else st).
  assert (H1 : page_ok st1 /\ pc_buf st1 = pc_buf st).
  { subst st1. destruct (_ && _); [|split; [exact Hst|reflexivity]].
    split; [|reflexivity].
    destruct Hst as (A & B & C). unfold page_ok. cbn [pc_buf pc_pos].
    split; [exact A|]. split; [lia|].
    destruct (pc_buf st) as [|b0 l]; [constructor|].
    destruct (pc_pos st) as [|k]; [lia|]. cbn [firstn] in C |- *.
    inversion C; subst. constructor; [assumption|constructor]. }
  clearbody st1. destruct H1 as [H1 B1]. rewrite <- B1.
  destruct (pc_page st1 =? page)%nat.
  - destruct (Nat.leb_spec (SDI12_MAX_RESPONSE_LEN - 6) (pc_pos st1 + length text));
      [split; [exact H1|reflexivity]|].
    destruct H1 as (A & B & C).
    assert (Lf : length (firstn (pc_pos st1) (pc_buf st1)) = pc_pos st1)
      by (rewrite length_firstn; lia).
    assert (Hb : memcpy (pc_buf st1) (pc_pos st1)
                   (snprintf (repeat 0 (SDI12_VALUE_MAX_CHARS + 1)) text) (length text)
                 = firstn (pc_pos st1) (pc_buf st1) ++ text
                   ++ skipn (length text) (skipn (pc_pos st1) (pc_buf st1))).
    { unfold memcpy.
      rewrite snprintf_fits by (rewrite repeat_length; unfold SDI12_VALUE_MAX_CHARS; lia).
      rewrite map_load_prefix.
      pose proof (blit_app text (firstn (pc_pos st1) (pc_buf st1))
                    (skipn (pc_pos st1) (pc_buf st1))) as Bl.
      rewrite firstn_skipn, Lf in Bl. apply Bl. rewrite length_skipn.
      unfold SDI12_MAX_RESPONSE_LEN in *. lia. }
    match goal with |- context [format_data_loop vals _ _ _ ?s] =>
      destruct (IH s Hv2) as [I1 I2] end.
    + unfold page_ok. cbn [pc_buf pc_pos].
      unfold SDI12_MAX_RESPONSE_LEN in *.
      rewrite memcpy_length. split; [exact A|]. split; [lia|].
      rewrite Hb, firstn_app, Lf.
      rewrite firstn_all2 by lia.
      replace (pc_pos st1 + length text - pc_pos st1)%nat with (length text) by lia.
      rewrite firstn_app, Nat.sub_diag, firstn_all. cbn [firstn]. rewrite app_nil_r.
      apply Forall_app. split; [exact C|].
      apply Forall_forall. now apply forallb_forall.
    + split; [exact I1|]. rewrite I2. cbn [pc_buf]. rewrite Hb.
      rewrite load_app_l by lia. unfold load.
      destruct (pc_buf st1) as [|b0 l]; [simpl in A; discriminate A|].
      destruct (pc_pos st1); [lia|reflexivity].
  - destruct (page <? pc_page st1)%nat; [split; [exact H1|reflexivity]|].
    now apply IH.
Qed.

(** The response buffer after [format_data_page]. *)
Lemma format_data_page_frame (c : ctx_t) (page max_chars : nat) :
  sensor_ready c = true ->
  Forall (fun v => value_text_ok (format_value v) = true)
         (firstn (data_cache_count c) (data_cache c)) ->
  let c' := snd (format_data_page c page max_chars) in
  exists d,
    cstring (resp_buf c')
    = (address c :: d)
      ++ (if crc_requested c
          then firstn 3 (sdi12_crc_encode_ascii
                           (sdi12_crc16 (address c :: d) (S (length d))))
          else [])
      ++ [CR; LF] /\
    Forall (fun b => isprint b = true) d /\
    (length d <= 74)%nat /\
    (crc_requested c = true ->
     sdi12_crc_verify (cstring (resp_buf c')) (length (cstring (resp_buf c'))) = true).
Proof.
  intros R Hv c'. destruct (sensor_ready_parts _ R) as (Hva & _ & Hlen).
  subst c'. unfold format_data_page. cbv zeta. cbn [snd]. simpl_ctx.
  set (st0 := {| pc_buf := store (resp_buf c) 0 (address c); pc_pos := 1;
                 pc_page := 0; pc_any := false |}).
  assert (H0 : page_ok st0 /\ load (pc_buf st0) 0 = address c).
  { subst st0. unfold page_ok. cbn [pc_buf pc_pos]. rewrite store_length.
    destruct (resp_buf c) as [|b0 l]; [discriminate Hlen|]. cbn [store firstn load nth].
    split; [|reflexivity]. split; [exact Hlen|]. split; [lia|].
    constructor; [now apply valid_address_isprint|constructor]. }
  destruct H0 as [H0 A0].
  destruct (format_data_loop_ok page max_chars _ st0 Hv H0) as [H1 A1].
  rewrite A0 in A1.
  set (st := format_data_loop _ page max_chars SDI12_MAX_RESPONSE_LEN st0) in *.
  clearbody st. clear H0 A0 st0.
  destruct H1 as (A & B & C).
  set (pos := if negb (pc_any st) && (0 <? page)%nat then 1%nat else pc_pos st).
  assert (Hpos : (1 <= pos <= 75)%nat /\
                 Forall (fun b => isprint b = true) (firstn pos (pc_buf st))).
  { subst pos. destruct (negb (pc_any st) && (0 <? page)%nat); [|auto].
    split; [lia|].
    destruct (pc_buf st) as [|b0 l]; [constructor|].
    destruct (pc_pos st) as [|k]; [lia|]. cbn [firstn] in C |- *.
    inversion C; subst. constructor; [assumption|constructor]. }
  clearbody pos. destruct Hpos as [Bp Cp]. clear B C.
  unfold SDI12_MAX_RESPONSE_LEN in *.
  rewrite store_split by lia.
  set (dd := firstn pos (pc_buf st)) in *.
  set (rest := skipn (S pos) (pc_buf st)).
  assert (Ld : length dd = pos) by (subst dd; rewrite length_firstn; lia).
  assert (Lr : length rest = (81 - pos)%nat) by (subst rest; rewrite length_skipn; lia).
  assert (Hd0 : exists d, dd = address c :: d).
  { subst dd. destruct (pc_buf st) as [|b0 l]; [discriminate A|].
    destruct pos as [|k]; [lia|]. cbn [firstn]. cbn [load nth] in A1. subst b0.
    eexists. reflexivity. }
  destruct Hd0 as [d Ed]. clearbody dd rest. subst dd.
  exists d. destruct (proj1 (Forall_cons_iff _ _ _) Cp) as [Ca Cd]. cbn [length] in Ld.
  split; [|split; [exact Cd|split; [lia|]]].
  - destruct (crc_requested c) eqn:Ec.
    + pose proof (crc_append_printable (address c :: d) rest Cp ltac:(simpl; lia)
                    ltac:(lia)) as [K _].
      cbv zeta in K.
      replace (length ((address c :: d) ++ 0 :: rest)) with 82%nat in K
        by (rewrite length_app; simpl; lia).
      rewrite K. reflexivity.
    + destruct (Nat.ltb_spec (pos + 2) 82); [|lia].
      rewrite <- Ld.
      change (S (length d)) with (length (address c :: d)).
      rewrite !store_app_r by lia.
      replace (length (address c :: d) - length (address c :: d))%nat with 0%nat by lia.
      replace (length (address c :: d) + 1 - length (address c :: d))%nat with 1%nat by lia.
      replace (length (address c :: d) + 2 - length (address c :: d))%nat with 2%nat by lia.
      destruct rest as [|r0 [|r1 [|r2 rest']]]; try (cbn [length] in Lr; lia).
      cbn [store]. unfold cstring.
      change ((address c :: d) ++ CR :: LF :: 0 :: r2 :: rest')
        with ((address c :: d) ++ [CR; LF] ++ 0 :: r2 :: rest').
      rewrite (app_assoc (address c :: d) [CR; LF]), strlen_app_nul.
      * now rewrite firstn_app, Nat.sub_diag, firstn_all, !app_nil_r.
      * apply Forall_app. split; [now apply isprint_nonzero|].
        repeat constructor; discriminate.
  - intros Ec. rewrite Ec.
    destruct (crc_append_printable (address c :: d) rest Cp ltac:(simpl; lia)
                ltac:(lia)) as [K V].
    cbv zeta in K, V.
    replace (length ((address c :: d) ++ 0 :: rest)) with 82%nat in K
      by (rewrite length_app; simpl; lia).
    rewrite K. exact V.
Qed.

(** X26: every text data response is a well-formed frame.  On a ready
    sensor that holds data whose values print as one to nine printable
    characters each, [aD<page>!] (any page, no binary formatter
    registered) is answered with the address, at most 74 printable
    characters, the CRC when the measurement asked for one, and CR LF;
    the response never outgrows the buffer, and with a CRC it passes
    [sdi12_crc_verify]. *)
Theorem data_response_is_a_frame (w : world_t) (cmd : list Z) (len : nat) :
  sensor_ready (w_ctx w) = true ->
  state (w_ctx w) <> SDI12_STATE_MEASURING_C ->
  data_available (w_ctx w) = true ->
  cb_format_binary_page (cb (w_ctx w)) = None ->
  Forall (fun v => value_text_ok (format_value v) = true)
         (firstn (data_cache_count (w_ctx w)) (data_cache (w_ctx w))) ->
  load cmd 0 = address (w_ctx w) ->
  load cmd 1 = ch "D" ->
  load cmd 2 <> ch "B" ->
  (3 <= stripped_len cmd len)%nat ->
  let a := address (w_ctx w) in
  let r := sdi12_sensor_process w cmd len in
  fst r = SDI12_OK /\
  exists d reply,
    w_trace (snd r) = w_trace w ++ [EvSend reply] /\
    reply = (a :: d)
            ++ (if crc_requested (w_ctx w)
                then firstn 3 (sdi12_crc_encode_ascii
                                 (sdi12_crc16 (a :: d) (S (length d))))
                else [])
            ++ [CR; LF] /\
    Forall (fun b => isprint b = true) d /\
    (length d <= 74)%nat /\
    (length reply <= 80)%nat /\
    (crc_requested (w_ctx w) = true -> sdi12_crc_verify reply (length reply) = true).
Proof.
  intros R Hst Hda Hfb Hv Ha Hd Hb Hl a r.
  destruct (process_entry w cmd len ltac:(lia) Ha)
    as (v & E & Lv & Av & Cv & _ & _ & _ & Bv & Tv & _ & Sv).
  destruct (Sv Hst) as (_ & Dv & DCv & DDv & Kv & _). clear Sv.
  pose proof (entry_ready w v R Av Cv Bv) as Rv.
  destruct (sensor_ready_parts _ Rv) as (Hva & Hcb & Hlen).
  set (page := Z.to_nat (if 255 <? parse_page (firstn (stripped_len cmd len - 2)
                                                  (skipn 2 cmd)) 0
                         then 255
                         else parse_page (firstn (stripped_len cmd len - 2)
                                                 (skipn 2 cmd)) 0)).
  assert (Er : r = (SDI12_OK,
                    send_response
                      (with_ctx (fun c => snd (format_data_page c page
                                   (max_chars_for (pending_meas_type (w_ctx v))))) v))).
  { subst r. rewrite E. unfold dispatch_command. rewrite Hd.
    destruct (Nat.eqb_spec (stripped_len cmd len) 1) as [E1|_]; [lia|].
    eval_chars.
    destruct (Nat.leb_spec 3 (stripped_len cmd len)) as [_|E3]; [|lia].
    destruct (Z.eqb_spec (load cmd 2) (ch "B")) as [E2|_]; [contradiction|].
    unfold handle_send_data. rewrite Dv, Hda, Cv, Hfb. cbn [negb].
    fold page. now destruct (pending_meas_type (w_ctx v)). }
  rewrite Er. cbn [fst snd]. clear Er E. split; [reflexivity|].
  destruct (format_data_page_frame (w_ctx v) page
              (max_chars_for (pending_meas_type (w_ctx v))) Rv)
    as (d & Hc & Hp & Hl74 & Hver).
  { now rewrite DCv, DDv. }
  cbv zeta in Hc, Hver. rewrite Av, Kv in Hc. rewrite Kv in Hver.
  set (c' := snd (format_data_page (w_ctx v) page
                    (max_chars_for (pending_meas_type (w_ctx v))))) in *.
  exists d, (cstring (resp_buf c')).
  assert (Hc' : cb c' = cb (w_ctx v) /\ resp_len c' = resp_len (w_ctx v))
    by (subst c'; unfold format_data_page; cbn [snd]; simpl_ctx; auto).
  destruct Hc' as [C1 C2].
  split; [|split; [exact Hc|split; [exact Hp|split; [exact Hl74|split; [|exact Hver]]]]].
  - rewrite send_response_trace.
    + cbn [w_trace with_ctx w_ctx]. fold c'. now rewrite Tv.
    + cbn [with_ctx w_ctx]. fold c'. now rewrite C1.
    + cbn [with_ctx w_ctx]. fold c'. now rewrite C2.
  - rewrite Hc. rewrite !length_app. cbn [length].
    destruct (crc_requested (w_ctx w)); cbn [length firstn sdi12_crc_encode_ascii]; lia.
Qed.

End SensorFrames.

(* ====================================================================== *)
(** * Sensor engine: the pages of a data response *)
(* ====================================================================== *)

Section SensorPages.

Context {F Host : Type} {CF : CFloat F}.

#[local] Abbreviation ctx_t := (sdi12_sensor_ctx_t F Host).
#[local] Abbreviation world_t := (world F Host).

(** Asked for a page after the first, the loop of [format_data_page]
    never leaves page 0 and copies nothing. *)
Lemma format_data_loop_later_page (page max_chars buflen : nat) (buf : list Z) :
  (1 <= page)%nat ->
  forall vals : list (sdi12_value_t F),
    format_data_loop vals page max_chars buflen
      {| pc_buf := buf; pc_pos := 1; pc_page := 0; pc_any := false |}
    = {| pc_buf := buf; pc_pos := 1; pc_page := 0; pc_any := false |}.
Proof.
  intros Hp. induction vals as [|v vals IH]; cbn [format_data_loop]; [reflexivity|].
  destruct (length (format_value v) <=? 0)%nat; [exact IH|].
  cbn [pc_pos pc_page pc_buf pc_any Nat.sub Nat.ltb Nat.leb andb].
  rewrite andb_false_r. cbn [pc_page].
  destruct (Nat.eqb_spec 0 page); [lia|].
  destruct (Nat.ltb_spec page 0); [lia|]. exact IH.
Qed.

(** Asked for page 0 with more text than the page budget, the loop ends
    on the page break with its write position back at the start. *)
Lemma format_data_loop_overflow (max_chars : nat) :
  (9 <= max_chars <= 74)%nat ->
  forall (vals : list (sdi12_value_t F)) st,
    Forall (fun v => value_text_ok (format_value v) = true) vals ->
    pc_page st = O ->
    (pc_pos st - 1 <= max_chars)%nat -> (1 <= pc_pos st)%nat ->
    (max_chars < pc_pos st - 1 + values_text_length vals)%nat ->
    pc_pos (format_data_loop vals 0 max_chars SDI12_MAX_RESPONSE_LEN st) = 1%nat.
Proof.
  intros Hm. induction vals as [|v vals IH]; intros st Hv Hpg Hu Hp Ht.
  - unfold values_text_length in Ht. simpl in Ht. lia.
  - inversion Hv as [|? ? Hv1 Hv2]; subst.
    unfold value_text_ok in Hv1. apply andb_prop in Hv1. destruct Hv1 as [Hv1 _].
    apply andb_prop in Hv1. destruct Hv1 as [L1 L9].
    apply Nat.leb_le in L1, L9. unfold SDI12_VALUE_MAX_CHARS in L9.
    unfold values_text_length in Ht. cbn [flat_map] in Ht. rewrite length_app in Ht.
    fold (values_text_length vals) in Ht.
    cbn [format_data_loop].
    set (text := format_value v) in *.
    destruct (Nat.leb_spec (length text) 0) as [E|_]; [lia|].
    cbv zeta.
    destruct (Nat.ltb_spec max_chars (pc_pos st - 1 + length text)) as [Ho|Hf];
      cbn [andb].
    + destruct (Nat.ltb_spec 0 (pc_pos st - 1)) as [_|E]; [|lia].
      cbn [pc_page pc_pos]. rewrite Hpg. reflexivity.
    + rewrite Hpg. cbn [Nat.eqb].
      unfold SDI12_MAX_RESPONSE_LEN.
      destruct (Nat.leb_spec (82 - 6) (pc_pos st + length text)) as [E|_]; [lia|].
      apply IH; cbn [pc_page pc_pos]; try assumption; lia.
Qed.

(** The response buffer once [format_data_page] has found nothing to
    place: the "no data" reply. *)
Lemma empty_page_reply (buf : list Z) (a : Z) (crc : bool) :
  length buf = SDI12_MAX_RESPONSE_LEN ->
  sdi12_valid_address a = true ->
  load buf 0 = a ->
  let buf1 := store buf 1 0 in
  cstring (if crc then snd (sdi12_crc_append buf1 SDI12_MAX_RESPONSE_LEN)
           else if (1 + 2 <? SDI12_MAX_RESPONSE_LEN)%nat
                then store (store (store buf1 1 CR) (1 + 1) LF) (1 + 2) 0
                else buf1)
  = a :: (if crc then firstn 3 (sdi12_crc_encode_ascii (sdi12_crc16 [a] 1)) else [])
      ++ [CR; LF].
Proof.
  intros Hlen Hva H0 buf1. subst buf1. unfold SDI12_MAX_RESPONSE_LEN in *.
  destruct buf as [|b0 [|b1 [|b2 [|b3 rest]]]]; try (cbn [length] in Hlen; lia).
  cbn [load nth] in H0. subst b0. cbn [store].
  pose proof (valid_address_nonzero _ Hva) as Hnz.
  destruct crc.
  - pose proof (crc_append_printable [a] (b2 :: b3 :: rest)) as K.
    cbv zeta in K. cbn [app length] in K.
    replace (S (S (S (S (length rest))))) with 82%nat in K by (cbn [length] in Hlen; lia).
    destruct K as [K _].
    + constructor; [now apply valid_address_isprint|constructor].
    + lia.
    + cbn [length] in Hlen |- *. lia.
    + exact K.
  - cbn [Nat.add Nat.ltb Nat.leb store]. unfold cstring. cbn [strlen].
    destruct (Z.eqb_spec a 0); [contradiction|]. reflexivity.
Qed.

Lemma process_data_request (w : world_t) (cmd : list Z) (len : nat) (page : nat) :
  sensor_ready (w_ctx w) = true ->
  state (w_ctx w) <> SDI12_STATE_MEASURING_C ->
  data_available (w_ctx w) = true ->
  cb_format_binary_page (cb (w_ctx w)) = None ->
  load cmd 0 = address (w_ctx w) ->
  load cmd 1 = ch "D" ->
  load cmd 2 <> ch "B" ->
  (3 <= stripped_len cmd len)%nat ->
  Z.to_nat (if 255 <? parse_page (firstn (stripped_len cmd len - 2) (skipn 2 cmd)) 0
            then 255
            else parse_page (firstn (stripped_len cmd len - 2) (skipn 2 cmd)) 0) = page ->
  exists v : world_t,
    let c' := snd (format_data_page (w_ctx v) page
                     (max_chars_for (pending_meas_type (w_ctx w)))) in
    fst (sdi12_sensor_process w cmd len) = SDI12_OK /\
    w_trace (snd (sdi12_sensor_process w cmd len))
    = w_trace w ++ [EvSend (cstring (resp_buf c'))] /\
    address (w_ctx v) = address (w_ctx w) /\
    crc_requested (w_ctx v) = crc_requested (w_ctx w) /\
    resp_buf (w_ctx v) = resp_buf (w_ctx w) /\
    data_cache (w_ctx v) = data_cache (w_ctx w) /\
    data_cache_count (w_ctx v) = data_cache_count (w_ctx w).
Proof.
  intros R Hst Hda Hfb Ha Hd Hb Hl Hpage.
  destruct (process_entry w cmd len ltac:(lia) Ha)
    as (v & E & Lv & Av & Cv & _ & _ & _ & Bv & Tv & _ & Sv).
  destruct (Sv Hst) as (_ & Dv & DCv & DDv & Kv & Pv). clear Sv.
  pose proof (entry_ready w v R Av Cv Bv) as Rv.
  destruct (sensor_ready_parts _ Rv) as (Hva & Hcb & Hlen).
  exists v. cbv zeta.
  assert (Er : sdi12_sensor_process w cmd len
               = (SDI12_OK,
                  send_response
                    (with_ctx (fun c => snd (format_data_page c page
                                 (max_chars_for (pending_meas_type (w_ctx v))))) v))).
  { rewrite E. unfold dispatch_command. rewrite Hd.
    destruct (Nat.eqb_spec (stripped_len cmd len) 1) as [E1|_]; [lia|].
    eval_chars.
    destruct (Nat.leb_spec 3 (stripped_len cmd len)) as [_|E3]; [|lia].
    destruct (Z.eqb_spec (load cmd 2) (ch "B")) as [E2|_]; [contradiction|].
    unfold handle_send_data. rewrite Dv, Hda, Cv, Hfb. cbn [negb].
    rewrite Hpage. now destruct (pending_meas_type (w_ctx v)). }
  rewrite Er, Pv. cbn [fst snd]. split; [reflexivity|].
  split; [|auto].
  rewrite send_response_trace.
  - cbn [w_trace with_ctx w_ctx]. now rewrite Tv.
  - unfold format_data_page. cbn [with_ctx w_ctx snd]. simpl_ctx. exact Hcb.
  - unfold format_data_page. cbn [with_ctx w_ctx snd]. simpl_ctx. exact Lv.
Qed.

(** X27: a data request for a page after the first never returns a
    value: on a ready sensor holding data (no binary formatter
    registered), [aD1!] to [aD9!] are answered with the "no data" reply,
    the address (and its CRC when one was requested) and CR LF,
    whatever the cache holds. *)
Theorem later_data_pages_are_empty (w : world_t) (digit : Z) :
  sensor_ready (w_ctx w) = true ->
  state (w_ctx w) <> SDI12_STATE_MEASURING_C ->
  data_available (w_ctx w) = true ->
  cb_format_binary_page (cb (w_ctx w)) = None ->
  in_range (ch "1") digit (ch "9") = true ->
  let a := address (w_ctx w) in
  let r := sdi12_sensor_process w [a; ch "D"; digit; ch "!"] 4 in
  fst r = SDI12_OK /\
  w_trace (snd r)
  = w_trace w
    ++ [EvSend (a :: (if crc_requested (w_ctx w)
                      then firstn 3 (sdi12_crc_encode_ascii (sdi12_crc16 [a] 1))
                      else [])
                  ++ [CR; LF])].
Proof.
  intros R Hst Hda Hfb Hdg a r.
  assert (Hdg' : 49 <= digit <= 57).
  { unfold in_range in Hdg. change (ch "1") with 49 in Hdg. change (ch "9") with 57 in Hdg.
    lia. }
  assert (Hs : stripped_len [a; ch "D"; digit; ch "!"] 4 = 3%nat).
  { unfold stripped_len. cbn [load nth Nat.sub]. now rewrite Z.eqb_refl. }
  destruct (process_data_request w [a; ch "D"; digit; ch "!"] 4
              (Z.to_nat (digit - 48)) R Hst Hda Hfb eq_refl eq_refl)
    as (v & E1 & E2 & Av & Kv & Bv & _).
  { cbn [load nth]. change (ch "B") with 66. lia. }
  { rewrite Hs. lia. }
  { rewrite Hs. cbn [Nat.sub skipn firstn parse_page].
    unfold is_digit, in_range. change (ch "0") with 48. change (ch "9") with 57.
    destruct (Z.leb_spec 48 digit); [|lia]. destruct (Z.leb_spec digit 57); [|lia].
    cbn [andb]. rewrite Z.mod_small by lia.
    destruct (Z.ltb_spec 255 (0 * 10 + (digit - 48))); [lia|]. f_equal; lia. }
  subst r. split; [exact E1|]. rewrite E2. do 3 f_equal.
  destruct (sensor_ready_parts _ R) as (Hva & _ & Hlen).
  unfold format_data_page. cbv zeta. cbn [snd]. simpl_ctx.
  rewrite format_data_loop_later_page by lia.
  cbn [pc_any pc_buf pc_pos negb andb].
  destruct (Nat.ltb_spec 0 (Z.to_nat (digit - 48))) as [_|E]; [|lia].
  rewrite Av, Kv, Bv.
  pose proof (empty_page_reply (store (resp_buf (w_ctx w)) 0 a) a
                (crc_requested (w_ctx w))) as K.
  cbv zeta in K. apply K.
  - now rewrite store_length.
  - exact Hva.
  - destruct (resp_buf (w_ctx w)); [discriminate Hlen|reflexivity].
Qed.

(** X28: a data set that does not fit one page cannot be read.  After a
    standard or verification measurement (page budget 35 characters),
    when the cached values, each one to nine printable characters, take
    more than 35 characters together, [aD0!] returns none of them: the
    reply is the address (and its CRC when requested) and CR LF. *)
Theorem oversized_data_set_reads_empty (w : world_t) :
  sensor_ready (w_ctx w) = true ->
  state (w_ctx w) <> SDI12_STATE_MEASURING_C ->
  data_available (w_ctx w) = true ->
  cb_format_binary_page (cb (w_ctx w)) = None ->
  max_chars_for (pending_meas_type (w_ctx w)) = SDI12_M_VALUES_MAX_CHARS ->
  let vals := firstn (data_cache_count (w_ctx w)) (data_cache (w_ctx w)) in
  Forall (fun v => value_text_ok (format_value v) = true) vals ->
  (SDI12_M_VALUES_MAX_CHARS < values_text_length vals)%nat ->
  let a := address (w_ctx w) in
  let r := sdi12_sensor_process w [a; ch "D"; ch "0"; ch "!"] 4 in
  fst r = SDI12_OK /\
  w_trace (snd r)
  = w_trace w
    ++ [EvSend (a :: (if crc_requested (w_ctx w)
                      then firstn 3 (sdi12_crc_encode_ascii (sdi12_crc16 [a] 1))
                      else [])
                  ++ [CR; LF])].
Proof.
  intros R Hst Hda Hfb Hmax vals Hv Hlong a r.
  assert (Hs : stripped_len [a; ch "D"; ch "0"; ch "!"] 4 = 3%nat).
  { unfold stripped_len. cbn [load nth Nat.sub]. now rewrite Z.eqb_refl. }
  destruct (process_data_request w [a; ch "D"; ch "0"; ch "!"] 4 0
              R Hst Hda Hfb eq_refl eq_refl)
    as (v & E1 & E2 & Av & Kv & Bv & DDv & DCv).
  { cbn [load nth]. discriminate. }
  { rewrite Hs. lia. }
  { rewrite Hs. reflexivity. }
  subst r. split; [exact E1|]. rewrite E2. do 3 f_equal.
  destruct (sensor_ready_parts _ R) as (Hva & _ & Hlen).
  unfold format_data_page. cbv zeta. cbn [snd]. simpl_ctx.
  rewrite Hmax, DDv, DCv. fold vals.
  set (st0 := {| pc_buf := store (resp_buf (w_ctx v)) 0 (address (w_ctx v));
                 pc_pos := 1; pc_page := 0; pc_any := false |}).
  assert (Hpos : pc_pos (format_data_loop vals 0 SDI12_M_VALUES_MAX_CHARS
                           SDI12_MAX_RESPONSE_LEN st0) = 1%nat).
  { apply format_data_loop_overflow; try assumption;
      unfold SDI12_M_VALUES_MAX_CHARS in *; subst st0; cbn [pc_page pc_pos]; lia. }
  assert (Hok : page_ok st0).
  { subst st0. unfold page_ok. cbn [pc_buf pc_pos]. rewrite store_length, Bv.
    split; [exact Hlen|]. split; [lia|].
    destruct (resp_buf (w_ctx w)) as [|b0 l]; [discriminate Hlen|]. cbn [store firstn].
    constructor; [|constructor]. rewrite Av. now apply valid_address_isprint. }
  destruct (format_data_loop_ok 0 SDI12_M_VALUES_MAX_CHARS vals st0 Hv Hok)
    as [(A & _ & _) A1].
  set (st := format_data_loop vals 0 SDI12_M_VALUES_MAX_CHARS SDI12_MAX_RESPONSE_LEN st0) in *.
  assert (H0 : load (pc_buf st) 0 = a).
  { rewrite A1. subst st0. cbn [pc_buf]. rewrite Bv, Av.
    destruct (resp_buf (w_ctx w)); [discriminate Hlen|reflexivity]. }
  clearbody st.
  replace (if negb (pc_any st) && (0 <? 0)%nat then 1%nat else pc_pos st) with 1%nat
    by (rewrite Hpos; now destruct (negb (pc_any st) && (0 <? 0)%nat)).
  rewrite Kv.
  pose proof (empty_page_reply (pc_buf st) a (crc_requested (w_ctx w)) A Hva H0) as K.
  cbv zeta in K. exact K.
Qed.

End SensorPages.

(* ====================================================================== *)
(** * Service requests, and what holds over any sequence of calls *)
(* ====================================================================== *)

Section Sequences.

Context {F Host : Type} {CF : CFloat F}.

#[local] Abbreviation ctx_t := (sdi12_sensor_ctx_t F Host).
#[local] Abbreviation world_t := (world F Host).
#[local] Abbreviation mworld := (@master_world Host).

(** What [recv_response] leaves when bytes arrived. *)
Lemma recv_response_heard (mw : mworld) (timeout_ms : Z) :
  let got := heard mw timeout_ms in
  let r := recv_response mw timeout_ms in
  (got = [] -> fst r = SDI12_ERR_TIMEOUT) /\
  (got <> [] ->
   fst r = SDI12_OK /\
   m_resp_len (mw_ctx (snd r)) = length got /\
   m_resp_buf (mw_ctx (snd r))
   = got ++ 0 :: skipn (S (length got)) (m_resp_buf (mw_ctx mw))).
Proof.
  cbv zeta. unfold recv_response, heard.
  set (buf := m_resp_buf (mw_ctx mw)).
  set (got := firstn (length buf - 1) (fst (mcb_recv _ _ _ _))).
  assert (Hgl : (length got <= length buf - 1)%nat).
  { subst got. rewrite length_firstn. lia. }
  destruct (Nat.eqb_spec (length got) 0) as [E0|E0]; cbn [fst snd].
  - split; [reflexivity|]. intros N. destruct got; [congruence|discriminate E0].
  - split; [intros E; rewrite E in E0; simpl in E0; lia|]. intros _.
    cbn [mw_ctx m_resp_buf m_resp_len]. repeat split.
    rewrite blit_at_0 by lia. rewrite store_app_r, Nat.sub_diag by lia.
    f_equal. destruct (skipn (length got) buf) as [|x t] eqn:Es.
    + apply (f_equal (@length Z)) in Es. rewrite length_skipn in Es. simpl in Es. lia.
    + cbn [store]. f_equal.
      replace (S (length got)) with (1 + length got)%nat by lia.
      rewrite <- skipn_skipn, Es. reflexivity.
Qed.

(** X29: [sdi12_master_wait_service_request] succeeds exactly on a
    service request of the awaited sensor: [a CR LF] heard within the
    timeout gives [SDI12_OK]; silence gives [SDI12_ERR_TIMEOUT], and so
    does anything that starts with another character, although bytes did
    arrive. *)
Theorem wait_service_request_matches_address (mw : mworld) (addr : Z) (timeout_ms : Z) :
  addr <> CR -> addr <> LF ->
  let got := heard mw timeout_ms in
  let r := sdi12_master_wait_service_request mw addr timeout_ms in
  (got = [addr; CR; LF] -> fst r = SDI12_OK) /\
  (got = [] -> fst r = SDI12_ERR_TIMEOUT) /\
  (got <> [] -> load got 0 <> addr -> fst r = SDI12_ERR_TIMEOUT).
Proof.
  intros Hc Hl got r.
  destruct (recv_response_heard mw timeout_ms) as [T0 T]. fold got in T0, T.
  subst r. unfold sdi12_master_wait_service_request.
  split; [|split].
  - intros E. rewrite E in T. destruct T as (T1 & T2 & T3); [discriminate|].
    rewrite T1.
    destruct (trim_response_body _ [addr] _ ltac:(intros c <-; auto) T2 T3) as [U1 U2].
    rewrite U1, U2. cbn [length Nat.leb app load nth andb]. now rewrite Z.eqb_refl.
  - intros E. now rewrite (T0 E).
  - intros E N. destruct (T E) as (T1 & T2 & T3). rewrite T1.
    unfold trim_response. cbn [fst snd mw_ctx m_resp_buf].
    set (buf := m_resp_buf (mw_ctx (snd (recv_response mw timeout_ms)))) in *.
    set (n := m_resp_len (mw_ctx (snd (recv_response mw timeout_ms)))) in *.
    assert (Hb0 : load buf 0 = load got 0).
    { rewrite T3. apply load_app_l. destruct got; [congruence|simpl; lia]. }
    destruct (trim_crlf_first n buf) as [F1 _].
    destruct (Nat.leb_spec 1 (snd (trim_crlf buf n))) as [G|G]; cbn [andb];
      [|reflexivity].
    rewrite (F1 G), Hb0.
    destruct (Z.eqb_spec (load got 0) addr); [contradiction|reflexivity].
Qed.

Lemma run_call_ready_step (w : world_t) (c : api_call) :
  ready_step (w_ctx w) (w_ctx (run_call w c)).
Proof.
  destruct c as [cmd len|values count| |grp s u d]; cbn [run_call].
  - apply process_ready_step.
  - apply measurement_done_ready_step.
  - unfold sdi12_sensor_break. cbn [with_ctx w_ctx].
    destruct (state (w_ctx w)); unfold ready_step; simpl_ctx; auto.
  - unfold sdi12_sensor_register_param. cbn [with_ctx w_ctx].
    destruct (SDI12_MAX_PARAMS <=? param_count (w_ctx w))%nat;
      [apply ready_step_refl|].
    destruct (SDI12_MAX_MEAS_GROUPS <=? grp)%nat; [apply ready_step_refl|].
    unfold ready_step. cbn [snd]. simpl_ctx. auto.
Qed.

Lemma run_calls_ready (calls : list api_call) : forall w : world_t,
  sensor_ready (w_ctx w) = true ->
  sensor_ready (w_ctx (run_calls calls w)) = true.
Proof.
  induction calls as [|c calls IH]; intros w R; cbn [run_calls fold_left]; [exact R|].
  apply IH. exact (ready_step_keeps_ready _ _ (run_call_ready_step w c) R).
Qed.

(** X30: a sensor context that [sdi12_sensor_init] accepted stays usable
    through any sequence of calls of [sdi12_sensor_process] (any bytes),
    [sdi12_sensor_measurement_done], [sdi12_sensor_break] and
    [sdi12_sensor_register_param]: its address is always a valid
    address, the [send_response] callback is still there, and the
    response buffer keeps its 82 bytes. *)
Theorem sensor_stays_ready (w0 : world_t) (a : Z) (id : sdi12_ident_t)
    (cbs : sdi12_sensor_callbacks_t F Host) (calls : list api_call) :
  fst (sdi12_sensor_init w0 a id cbs) = SDI12_OK ->
  let w := run_calls calls (snd (sdi12_sensor_init w0 a id cbs)) in
  sdi12_valid_address (address (w_ctx w)) = true /\
  is_null (cb_send_response (cb (w_ctx w))) = false /\
  length (resp_buf (w_ctx w)) = SDI12_MAX_RESPONSE_LEN.
Proof.
  intros Hi w. apply sensor_ready_parts. subst w.
  apply run_calls_ready. now apply init_ready.
Qed.

End Sequences.

(* ====================================================================== *)
(** * Further runs on the test bench *)
(* ====================================================================== *)

(** Every element of a list of character constants is a byte. *)
Ltac bytes_ok :=
  repeat (apply Forall_cons; [unfold is_byte, ch; simpl; lia|]); apply Forall_nil.

Lemma crc16_is_16_bit_witness :
  Forall is_byte (bytes_of_string "0+3.14") /\
  0 <= sdi12_crc16 (bytes_of_string "0+3.14") 6 < 65536.
Proof.
  assert (H : Forall is_byte (bytes_of_string "0+3.14")) by bytes_ok.
  split; [exact H|]. exact (crc16_is_16_bit _ 6 H).
Defined.

Lemma crc16_detects_single_byte_change_witness :
  Forall is_byte (bytes_of_string "0+1") /\ Forall is_byte (bytes_of_string ".5") /\
  is_byte (ch "2") /\ is_byte (ch "3") /\ ch "2" <> ch "3" /\
  sdi12_crc16 (bytes_of_string "0+12.5") 6 <> sdi12_crc16 (bytes_of_string "0+13.5") 6.
Proof.
  assert (H1 : Forall is_byte (bytes_of_string "0+1")) by bytes_ok.
  assert (H2 : Forall is_byte (bytes_of_string ".5")) by bytes_ok.
  assert (H3 : is_byte (ch "2")) by (unfold is_byte, ch; simpl; lia).
  assert (H4 : is_byte (ch "3")) by (unfold is_byte, ch; simpl; lia).
  assert (H5 : ch "2" <> ch "3") by discriminate.
  repeat match goal with |- _ /\ _ => split; [assumption|] end.
  exact (crc16_detects_single_byte_change _ _ _ _ H1 H2 H3 H4 H5).
Defined.

Lemma crc_characters_are_printable_witness :
  Forall is_byte (bytes_of_string "0+3.14") /\
  0x40 <= load (sdi12_crc_encode_ascii (sdi12_crc16 (bytes_of_string "0+3.14") 6)) 0
       <= 0x7F.
Proof.
  assert (H : Forall is_byte (bytes_of_string "0+3.14")) by bytes_ok.
  split; [exact H|].
  apply (proj1 (crc_characters_are_printable _ 6 H)). lia.
Defined.

Lemma crc_encode_ascii_injective_witness :
  0 <= 0x1234 < 65536 /\
  firstn 3 (sdi12_crc_encode_ascii 0x1234) = firstn 3 (sdi12_crc_encode_ascii 0x1234) /\
  0x1234 = 0x1234.
Proof.
  assert (H : 0 <= 0x1234 < 65536) by lia.
  split; [exact H|]. split; [reflexivity|].
  exact (crc_encode_ascii_injective 0x1234 0x1234 H H eq_refl).
Defined.

Lemma crc_verify_accepts_exactly_the_crc_witness :
  let d := bytes_of_string "0+3.14" in
  (1 <= length d)%nat /\ length (bytes_of_string "ABC") = 3%nat /\
  (sdi12_crc_verify (d ++ bytes_of_string "ABC" ++ [CR; LF] ++ []) (length d + 5) = true
   <-> bytes_of_string "ABC"
       = firstn 3 (sdi12_crc_encode_ascii (sdi12_crc16 d (length d)))).
Proof.
  cbv zeta.
  assert (H1 : (1 <= length (bytes_of_string "0+3.14"))%nat) by (simpl; lia).
  assert (H2 : length (bytes_of_string "ABC") = 3%nat) by reflexivity.
  split; [exact H1|]. split; [exact H2|].
  exact (crc_verify_accepts_exactly_the_crc _ _ [] H1 H2).
Defined.

Lemma crc_verify_rejects_corrupted_byte_witness :
  Forall is_byte (bytes_of_string "0+1") /\ Forall is_byte (bytes_of_string ".5") /\
  is_byte (ch "2") /\ is_byte (ch "3") /\ ch "2" <> ch "3" /\
  sdi12_crc_verify
    (bytes_of_string "0+13.5"
       ++ firstn 3 (sdi12_crc_encode_ascii (sdi12_crc16 (bytes_of_string "0+12.5") 6))
       ++ [CR; LF] ++ [])
    11 = false.
Proof.
  assert (H1 : Forall is_byte (bytes_of_string "0+1")) by bytes_ok.
  assert (H2 : Forall is_byte (bytes_of_string ".5")) by bytes_ok.
  assert (H3 : is_byte (ch "2")) by (unfold is_byte, ch; simpl; lia).
  assert (H4 : is_byte (ch "3")) by (unfold is_byte, ch; simpl; lia).
  assert (H5 : ch "2" <> ch "3") by discriminate.
  repeat match goal with |- _ /\ _ => split; [assumption|] end.
  exact (crc_verify_rejects_corrupted_byte _ _ [] _ _ H1 H2 H3 H4 H5).
Defined.

Lemma valid_addresses_are_the_alphabet_witness :
  sdi12_valid_address (ch "z") = true /\ In (ch "z") address_alphabet.
Proof.
  assert (H : sdi12_valid_address (ch "z") = true) by reflexivity.
  split; [exact H|].
  exact (proj1 (proj1 (valid_addresses_are_the_alphabet (ch "z"))) H).
Defined.

Lemma process_sends_one_response_iff_ok_witness :
  is_null (cb_send_response (cb (w_ctx test_sensor))) = false /\
  (exists x, sent (snd (sdi12_sensor_process test_sensor (bytes_of_string "0M!") 3))
             = sent test_sensor ++ [x]) /\
  sent (snd (sdi12_sensor_process test_sensor (bytes_of_string "0Q!") 3))
  = sent test_sensor.
Proof.
  assert (H : is_null (cb_send_response (cb (w_ctx test_sensor))) = false)
    by reflexivity.
  split; [exact H|]. split.
  - pose proof (process_sends_one_response_iff_ok test_sensor
                  (bytes_of_string "0M!") 3 H) as P.
    cbv zeta in P.
    assert (E : fst (sdi12_sensor_process test_sensor (bytes_of_string "0M!") 3)
                = SDI12_OK) by (vm_compute; reflexivity).
    rewrite E in P. exact P.
  - pose proof (process_sends_one_response_iff_ok test_sensor
                  (bytes_of_string "0Q!") 3 H) as P.
    cbv zeta in P.
    assert (E : fst (sdi12_sensor_process test_sensor (bytes_of_string "0Q!") 3)
                = SDI12_ERR_INVALID_COMMAND) by (vm_compute; reflexivity).
    rewrite E in P. exact P.
Defined.

Lemma change_address_takes_effect_witness :
  sensor_ready (w_ctx test_sensor) = true /\
  sdi12_valid_address (ch "5") = true /\
  address (w_ctx (snd (sdi12_sensor_process test_sensor (bytes_of_string "0A5!") 4)))
  = ch "5".
Proof.
  assert (H1 : sensor_ready (w_ctx test_sensor) = true) by (vm_compute; reflexivity).
  assert (H2 : sdi12_valid_address (ch "5") = true) by reflexivity.
  split; [exact H1|]. split; [exact H2|].
  exact (proj1 (proj2 (change_address_takes_effect test_sensor (ch "5") H1 H2))).
Defined.

Lemma change_address_rejects_invalid_witness :
  (2 <= stripped_len (bytes_of_string "0A*!") 4)%nat /\
  load (bytes_of_string "0A*!") 0 = address (w_ctx test_sensor) /\
  load (bytes_of_string "0A*!") 1 = ch "A" /\
  sdi12_valid_address (load (bytes_of_string "0A*!") 2) = false /\
  fst (sdi12_sensor_process test_sensor (bytes_of_string "0A*!") 4)
  = SDI12_ERR_INVALID_ADDRESS.
Proof.
  assert (H1 : (2 <= stripped_len (bytes_of_string "0A*!") 4)%nat)
    by (vm_compute; lia).
  assert (H2 : load (bytes_of_string "0A*!") 0 = address (w_ctx test_sensor))
    by reflexivity.
  assert (H3 : load (bytes_of_string "0A*!") 1 = ch "A") by reflexivity.
  assert (H4 : sdi12_valid_address (load (bytes_of_string "0A*!") 2) = false)
    by reflexivity.
  repeat match goal with |- _ /\ _ => split; [assumption|] end.
  exact (proj1 (change_address_rejects_invalid test_sensor _ 4 H1 H2 H3 (or_introl H4))).
Defined.

Lemma register_param_adds_to_group_witness :
  (param_count (w_ctx test_sensor) < SDI12_MAX_PARAMS)%nat /\
  (1 < SDI12_MAX_MEAS_GROUPS)%nat /\
  length (params (w_ctx test_sensor)) = SDI12_MAX_PARAMS /\
  sdi12_sensor_group_count
    (snd (sdi12_sensor_register_param (w_ctx test_sensor) 1
            (bytes_of_string "WS" ++ [0]) (bytes_of_string "m/s" ++ [0]) 1)) 1
  = S (sdi12_sensor_group_count (w_ctx test_sensor) 1).
Proof.
  assert (H1 : (param_count (w_ctx test_sensor) < SDI12_MAX_PARAMS)%nat)
    by (vm_compute; lia).
  assert (H2 : (1 < SDI12_MAX_MEAS_GROUPS)%nat) by (vm_compute; lia).
  assert (H3 : length (params (w_ctx test_sensor)) = SDI12_MAX_PARAMS) by reflexivity.
  repeat match goal with |- _ /\ _ => split; [assumption|] end.
  exact (proj1 (proj2 (proj2 (register_param_adds_to_group (w_ctx test_sensor) 1
           (bytes_of_string "WS" ++ [0]) (bytes_of_string "m/s" ++ [0]) 1 H1 H2 H3)))).
Defined.

Lemma sync_measurement_is_ready_at_once_witness :
  sensor_ready (w_ctx test_sensor) = true /\
  cb_start_measurement (cb (w_ctx test_sensor)) = None /\
  cb_read_param (cb (w_ctx test_sensor)) = Some mock_read_param /\
  (param_count (w_ctx test_sensor) <= SDI12_MAX_PARAMS)%nat /\
  (0 < count_group (w_ctx test_sensor) 0)%nat /\
  state (w_ctx (snd (sdi12_sensor_process test_sensor
                       [address (w_ctx test_sensor); ch "M"; ch "!"] 3)))
  = SDI12_STATE_DATA_READY.
Proof.
  assert (H1 : sensor_ready (w_ctx test_sensor) = true) by (vm_compute; reflexivity).
  assert (H2 : cb_start_measurement (cb (w_ctx test_sensor)) = None) by reflexivity.
  assert (H3 : cb_read_param (cb (w_ctx test_sensor)) = Some mock_read_param)
    by reflexivity.
  assert (H4 : (param_count (w_ctx test_sensor) <= SDI12_MAX_PARAMS)%nat)
    by (vm_compute; lia).
  assert (H5 : (0 < count_group (w_ctx test_sensor) 0)%nat) by (vm_compute; lia).
  repeat match goal with |- _ /\ _ => split; [assumption|] end.
  exact (proj1 (proj2 (sync_measurement_is_ready_at_once test_sensor mock_read_param
                         H1 H2 H3 H4 H5))).
Defined.


Lemma data_request_without_data_witness :
  sensor_ready (w_ctx test_sensor) = true /\
  state (w_ctx test_sensor) <> SDI12_STATE_MEASURING_C /\
  data_available (w_ctx test_sensor) = false /\
  load (bytes_of_string "0D0!") 0 = address (w_ctx test_sensor) /\
  load (bytes_of_string "0D0!") 1 = ch "D" /\
  load (bytes_of_string "0D0!") 2 <> ch "B" /\
  (3 <= stripped_len (bytes_of_string "0D0!") 4)%nat /\
  fst (sdi12_sensor_process test_sensor (bytes_of_string "0D0!") 4) = SDI12_OK.
Proof.
  assert (H1 : sensor_ready (w_ctx test_sensor) = true) by (vm_compute; reflexivity).
  assert (H2 : state (w_ctx test_sensor) <> SDI12_STATE_MEASURING_C)
    by (vm_compute; discriminate).
  assert (H3 : data_available (w_ctx test_sensor) = false) by reflexivity.
  assert (H4 : load (bytes_of_string "0D0!") 0 = address (w_ctx test_sensor))
    by reflexivity.
  assert (H5 : load (bytes_of_string "0D0!") 1 = ch "D") by reflexivity.
  assert (H6 : load (bytes_of_string "0D0!") 2 <> ch "B") by (vm_compute; discriminate).
  assert (H7 : (3 <= stripped_len (bytes_of_string "0D0!") 4)%nat) by (vm_compute; lia).
  repeat match goal with |- _ /\ _ => split; [assumption|] end.
  exact (proj1 (data_request_without_data test_sensor _ 4 H1 H2 H3 H4 H5 H6 H7)).
Defined.

Lemma parse_meas_response_reads_header_witness :
  0 <= 12 <= 999 /\
  0 <= 5 < 10 ^ Z.of_nat (count_digits SDI12_MEAS_STANDARD) /\
  sdi12_master_parse_meas_response (bytes_of_string "00125" ++ [0]) 5 SDI12_MEAS_STANDARD
  = (SDI12_OK, {| mr_address := ch "0"; wait_seconds := 12; value_count := 5;
                  mr_type := SDI12_MEAS_STANDARD |}).
Proof.
  assert (H1 : 0 <= 12 <= 999) by lia.
  assert (H2 : 0 <= 5 < 10 ^ Z.of_nat (count_digits SDI12_MEAS_STANDARD))
    by (simpl; lia).
  split; [exact H1|]. split; [exact H2|].
  exact (proj1 (parse_meas_response_reads_header (ch "0") 12 5 SDI12_MEAS_STANDARD [0]
                  H1 H2)).
Defined.

Lemma parse_meas_response_fields_bounded_witness :
  fst (sdi12_master_parse_meas_response (bytes_of_string "0999123") 7
         SDI12_MEAS_HIGHVOL_ASCII) = SDI12_OK /\
  0 <= wait_seconds (snd (sdi12_master_parse_meas_response (bytes_of_string "0999123") 7
                            SDI12_MEAS_HIGHVOL_ASCII)) <= 999 /\
  ((4 < 5)%nat ->
   sdi12_master_parse_meas_response (bytes_of_string "0001") 4 SDI12_MEAS_STANDARD
   = (SDI12_ERR_INVALID_COMMAND, zero_meas_response)).
Proof.
  assert (H : fst (sdi12_master_parse_meas_response (bytes_of_string "0999123") 7
                     SDI12_MEAS_HIGHVOL_ASCII) = SDI12_OK) by reflexivity.
  split; [exact H|]. split.
  - exact (proj1 (proj2 (proj2 (parse_meas_response_fields_bounded
                                  (bytes_of_string "0999123") 7
                                  SDI12_MEAS_HIGHVOL_ASCII) H))).
  - exact (proj1 (parse_meas_response_fields_bounded (bytes_of_string "0001") 4
                    SDI12_MEAS_STANDARD)).
Defined.

Lemma query_address_returns_valid_address_witness :
  sdi12_valid_address (ch "3") = true /\
  received (mock_master (bytes_of_string "3" ++ CRLF)) (bytes_of_string "?!" ++ [0])
           SDI12_RESPONSE_TIMEOUT_MS = [ch "3"; CR; LF] /\
  fst (sdi12_master_query_address (mock_master (bytes_of_string "3" ++ CRLF)) 0)
  = (SDI12_OK, ch "3").
Proof.
  assert (H1 : sdi12_valid_address (ch "3") = true) by reflexivity.
  assert (H2 : received (mock_master (bytes_of_string "3" ++ CRLF))
                        (bytes_of_string "?!" ++ [0]) SDI12_RESPONSE_TIMEOUT_MS
               = [ch "3"; CR; LF]) by reflexivity.
  split; [exact H1|]. split; [exact H2|].
  exact (proj2 (proj2 (query_address_returns_valid_address
                         (mock_master (bytes_of_string "3" ++ CRLF)) 0))
               (ch "3") H1 H2).
Defined.


Lemma identify_reply_has_fixed_fields_witness :
  sensor_ready (w_ctx test_sensor) = true /\
  (length (serial (ident (w_ctx test_sensor))) <= 14)%nat /\
  w_trace (snd (sdi12_sensor_process test_sensor
                  [address (w_ctx test_sensor); ch "I"; ch "!"] 3))
  = w_trace test_sensor
    ++ [EvSend (bytes_of_string "014TESTCO  MOD001100SN123" ++ [CR; LF])].
Proof.
  assert (H1 : sensor_ready (w_ctx test_sensor) = true) by (vm_compute; reflexivity).
  assert (H2 : (length (serial (ident (w_ctx test_sensor))) <= 14)%nat)
    by (vm_compute; lia).
  split; [exact H1|]. split; [exact H2|].
  exact (proj1 (proj2 (identify_reply_has_fixed_fields test_sensor H1 H2))).
Defined.


Lemma start_measurement_reads_reply_witness :
  let mw := mock_master (bytes_of_string "30153" ++ [CR; LF]) in
  sdi12_valid_address (ch "3") = true /\
  0 <= 2 <= 255 /\
  meas_command (ch "3") SDI12_MEAS_STANDARD 2 true = Some (bytes_of_string "3MC2!") /\
  0 <= 15 <= 999 /\
  0 <= 3 < 10 ^ Z.of_nat (count_digits SDI12_MEAS_STANDARD) /\
  fst (sdi12_master_start_measurement mw (ch "3") SDI12_MEAS_STANDARD 2 true
                                      zero_meas_response)
  = (SDI12_OK, {| mr_address := ch "3"; wait_seconds := 15; value_count := 3;
                  mr_type := SDI12_MEAS_STANDARD |}).
Proof.
  cbv zeta.
  assert (H1 : sdi12_valid_address (ch "3") = true) by reflexivity.
  assert (H2 : 0 <= 2 <= 255) by lia.
  assert (H3 : meas_command (ch "3") SDI12_MEAS_STANDARD 2 true
               = Some (bytes_of_string "3MC2!")) by reflexivity.
  assert (H4 : 0 <= 15 <= 999) by lia.
  assert (H5 : 0 <= 3 < 10 ^ Z.of_nat (count_digits SDI12_MEAS_STANDARD))
    by (simpl; lia).
  assert (H6 : received (mock_master (bytes_of_string "30153" ++ [CR; LF]))
                        (snprintf (repeat 0 16) (bytes_of_string "3MC2!"))
                        SDI12_RESPONSE_TIMEOUT_MS
               = (ch "3" :: fmt_0u 3 15 ++ fmt_0u (count_digits SDI12_MEAS_STANDARD) 3)
                 ++ [CR; LF]) by reflexivity.
  repeat match goal with |- _ /\ _ => split; [assumption|] end.
  exact (proj2 (start_measurement_reads_reply _ (ch "3") SDI12_MEAS_STANDARD 2 true
                  zero_meas_response _ (ch "3") 15 3 H1 H2 H3 H4 H5 H6)).
Defined.

Lemma sensor_starts_what_master_asked_witness :
  sdi12_valid_address (address (w_ctx test_sensor)) = true /\
  0 <= 3 <= 9 /\
  meas_command (address (w_ctx test_sensor)) SDI12_MEAS_CONCURRENT 3 true
  = Some (bytes_of_string "0CC3!") /\
  pending_meas_group
    (w_ctx (snd (sdi12_sensor_process test_sensor (bytes_of_string "0CC3!") 5)))
  = 3%nat /\
  crc_requested
    (w_ctx (snd (sdi12_sensor_process test_sensor (bytes_of_string "0CC3!") 5)))
  = true.
Proof.
  assert (H1 : sdi12_valid_address (address (w_ctx test_sensor)) = true) by reflexivity.
  assert (H2 : 0 <= 3 <= 9) by lia.
  assert (H3 : meas_command (address (w_ctx test_sensor)) SDI12_MEAS_CONCURRENT 3 true
               = Some (bytes_of_string "0CC3!")) by reflexivity.
  split; [exact H1|]. split; [exact H2|]. split; [exact H3|].
  destruct (sensor_starts_what_master_asked test_sensor SDI12_MEAS_CONCURRENT 3 true
              _ H1 H2 H3) as (_ & _ & G & C).
  split; [exact G | exact C].
Defined.

Lemma parse_data_values_splits_tokens_witness :
  let tokens := [bytes_of_string "+1.5"; bytes_of_string "-20"] in
  forallb value_token tokens = true /\
  map (@decimals Z)
      (snd (sdi12_master_parse_data_values (bytes_of_string "+1.5-20") 7 5 false))
  = [1; 0].
Proof.
  cbv zeta.
  assert (H : forallb value_token [bytes_of_string "+1.5"; bytes_of_string "-20"] = true)
    by reflexivity.
  split; [exact H|].
  pose proof (parse_data_values_splits_tokens (F := Z) _ 5 H) as P.
  change (concat [bytes_of_string "+1.5"; bytes_of_string "-20"])
    with (bytes_of_string "+1.5-20") in P.
  change (length (bytes_of_string "+1.5-20")) with 7%nat in P.
  rewrite P. reflexivity.
Defined.

(** The cached values of the bench sensors print as one to nine
    printable characters. *)
Ltac values_ok :=
  apply Forall_forall;
  apply (proj1 (forallb_forall (fun v => value_text_ok (format_value v)) _));
  vm_compute; reflexivity.

Lemma data_response_is_a_frame_witness :
  sensor_ready (w_ctx measured_sensor) = true /\
  state (w_ctx measured_sensor) <> SDI12_STATE_MEASURING_C /\
  data_available (w_ctx measured_sensor) = true /\
  cb_format_binary_page (cb (w_ctx measured_sensor)) = None /\
  Forall (fun v => value_text_ok (format_value v) = true)
         (firstn (data_cache_count (w_ctx measured_sensor))
                 (data_cache (w_ctx measured_sensor))) /\
  fst (sdi12_sensor_process measured_sensor (bytes_of_string "0D0!") 4) = SDI12_OK.
Proof.
  assert (H1 : sensor_ready (w_ctx measured_sensor) = true) by (vm_compute; reflexivity).
  assert (H2 : state (w_ctx measured_sensor) <> SDI12_STATE_MEASURING_C)
    by (vm_compute; discriminate).
  assert (H3 : data_available (w_ctx measured_sensor) = true) by (vm_compute; reflexivity).
  assert (H4 : cb_format_binary_page (cb (w_ctx measured_sensor)) = None)
    by (vm_compute; reflexivity).
  assert (H5 : Forall (fun v => value_text_ok (format_value v) = true)
                 (firstn (data_cache_count (w_ctx measured_sensor))
                         (data_cache (w_ctx measured_sensor)))) by values_ok.
  assert (H6 : load (bytes_of_string "0D0!") 0 = address (w_ctx measured_sensor))
    by (vm_compute; reflexivity).
  assert (H7 : load (bytes_of_string "0D0!") 2 <> ch "B") by (vm_compute; discriminate).
  assert (H8 : (3 <= stripped_len (bytes_of_string "0D0!") 4)%nat) by (vm_compute; lia).
  repeat match goal with |- _ /\ _ => split; [assumption|] end.
  exact (proj1 (data_response_is_a_frame measured_sensor _ 4 H1 H2 H3 H4 H5 H6
                  eq_refl H7 H8)).
Defined.

Lemma later_data_pages_are_empty_witness :
  sensor_ready (w_ctx measured_sensor) = true /\
  state (w_ctx measured_sensor) <> SDI12_STATE_MEASURING_C /\
  data_available (w_ctx measured_sensor) = true /\
  cb_format_binary_page (cb (w_ctx measured_sensor)) = None /\
  in_range (ch "1") (ch "1") (ch "9") = true /\
  w_trace (snd (sdi12_sensor_process measured_sensor
                  [address (w_ctx measured_sensor); ch "D"; ch "1"; ch "!"] 4))
  = w_trace measured_sensor ++ [EvSend (bytes_of_string "0" ++ [CR; LF])].
Proof.
  assert (H1 : sensor_ready (w_ctx measured_sensor) = true) by (vm_compute; reflexivity).
  assert (H2 : state (w_ctx measured_sensor) <> SDI12_STATE_MEASURING_C)
    by (vm_compute; discriminate).
  assert (H3 : data_available (w_ctx measured_sensor) = true) by (vm_compute; reflexivity).
  assert (H4 : cb_format_binary_page (cb (w_ctx measured_sensor)) = None)
    by (vm_compute; reflexivity).
  assert (H5 : in_range (ch "1") (ch "1") (ch "9") = true) by reflexivity.
  repeat match goal with |- _ /\ _ => split; [assumption|] end.
  rewrite (proj2 (later_data_pages_are_empty measured_sensor (ch "1") H1 H2 H3 H4 H5)).
  vm_compute. reflexivity.
Defined.

Lemma oversized_data_set_reads_empty_witness :
  sensor_ready (w_ctx full_measured_sensor) = true /\
  data_available (w_ctx full_measured_sensor) = true /\
  data_cache_count (w_ctx full_measured_sensor) = 20%nat /\
  (SDI12_M_VALUES_MAX_CHARS
   < values_text_length (firstn (data_cache_count (w_ctx full_measured_sensor))
                                (data_cache (w_ctx full_measured_sensor))))%nat /\
  w_trace (snd (sdi12_sensor_process full_measured_sensor
                  [address (w_ctx full_measured_sensor); ch "D"; ch "0"; ch "!"] 4))
  = w_trace full_measured_sensor ++ [EvSend (bytes_of_string "0" ++ [CR; LF])].
Proof.
  assert (H1 : sensor_ready (w_ctx full_measured_sensor) = true)
    by (vm_compute; reflexivity).
  assert (H2 : state (w_ctx full_measured_sensor) <> SDI12_STATE_MEASURING_C)
    by (vm_compute; discriminate).
  assert (H3 : data_available (w_ctx full_measured_sensor) = true)
    by (vm_compute; reflexivity).
  assert (H4 : cb_format_binary_page (cb (w_ctx full_measured_sensor)) = None)
    by (vm_compute; reflexivity).
  assert (H5 : max_chars_for (pending_meas_type (w_ctx full_measured_sensor))
               = SDI12_M_VALUES_MAX_CHARS) by (vm_compute; reflexivity).
  assert (H6 : Forall (fun v => value_text_ok (format_value v) = true)
                 (firstn (data_cache_count (w_ctx full_measured_sensor))
                         (data_cache (w_ctx full_measured_sensor)))) by values_ok.
  assert (H7 : (SDI12_M_VALUES_MAX_CHARS
                < values_text_length
                    (firstn (data_cache_count (w_ctx full_measured_sensor))
                            (data_cache (w_ctx full_measured_sensor))))%nat)
    by (vm_compute; lia).
  split; [exact H1|]. split; [exact H3|]. split; [vm_compute; reflexivity|].
  split; [exact H7|].
  rewrite (proj2 (oversized_data_set_reads_empty full_measured_sensor
                    H1 H2 H3 H4 H5 H6 H7)).
  vm_compute. reflexivity.
Defined.

Lemma wait_service_request_matches_address_witness :
  ch "0" <> CR /\ ch "0" <> LF /\
  fst (sdi12_master_wait_service_request (mock_master (bytes_of_string "0" ++ CRLF))
                                         (ch "0") 1000) = SDI12_OK /\
  fst (sdi12_master_wait_service_request (mock_master (bytes_of_string "7" ++ CRLF))
                                         (ch "0") 1000) = SDI12_ERR_TIMEOUT.
Proof.
  assert (H1 : ch "0" <> CR) by discriminate.
  assert (H2 : ch "0" <> LF) by discriminate.
  split; [exact H1|]. split; [exact H2|]. split.
  - apply (proj1 (wait_service_request_matches_address
                    (mock_master (bytes_of_string "0" ++ CRLF)) (ch "0") 1000 H1 H2)).
    reflexivity.
  - apply (proj2 (proj2 (wait_service_request_matches_address
                           (mock_master (bytes_of_string "7" ++ CRLF)) (ch "0") 1000
                           H1 H2))).
    + vm_compute. discriminate.
    + vm_compute. discriminate.
Defined.

Lemma sensor_stays_ready_witness :
  let calls := [CallProcess (bytes_of_string "0A7!") 4;
                CallRegisterParam 2 (bytes_of_string "WS" ++ [0])
                                  (bytes_of_string "m/s" ++ [0]) 1;
                CallProcess (bytes_of_string "7M2!") 4;
                CallBreak;
                CallMeasurementDone [] 0] in
  fst (sdi12_sensor_init blank_world (ch "0") mock_ident mock_callbacks) = SDI12_OK /\
  sdi12_valid_address
    (address (w_ctx (run_calls calls
                       (snd (sdi12_sensor_init blank_world (ch "0") mock_ident
                                               mock_callbacks))))) = true.
Proof.
  cbv zeta.
  assert (H : fst (sdi12_sensor_init blank_world (ch "0") mock_ident mock_callbacks)
              = SDI12_OK) by reflexivity.
  split; [exact H|].
  exact (proj1 (sensor_stays_ready blank_world (ch "0") mock_ident mock_callbacks _ H)).
Defined.
